(** * SOL autotrade bot: the decision loop of [main.py], embedded in Rocq

    The bot polls a spot price and the wallet, keeps one reference price
    ("base price") per symbol in a database table and trades around it.
    This development embeds

    - Python's [float] as IEEE-754 binary64, through the executable
      specification [SpecFloat] of the Standard Library (module [Py]);
    - the helpers [quantize_qty], [safe_float], [get_spot_price],
      [get_balances], [place_market_order], the two readers on answers of
      the documented shape and [get_balances] also on any decoded JSON;
    - the body of the [while True] loop of [main] as [tick], a computation in
      a state-and-exception monad over the database table and a trace of the
      calls made to the outside (orders, notifications, log lines, sleeps).
*)

From Stdlib Require Import ZArith Floats Lia Ascii.
From stdpp Require Import gmap strings list.

Set Warnings "-inexact-float,-register-all".
Local Open Scope Z_scope.

(** ** Python values and exceptions *)

Module Py.

(** A Python [float] is a binary64 number.  [spec_float] is the
    specification of the format: zeros, infinities, one NaN and the finite
    numbers [(-1)^s * m * 2^e]. *)
Abbreviation float := spec_float.

Inductive exn : Type :=
| ZeroDivisionError
| ValueError
| OverflowError
| TypeError
| AttributeError
| KeyError (key : string)
| RuntimeError (msg : string)
| ExternalError (origin : string).

Inductive result (A : Type) : Type :=
| Ok (a : A)
| Raise (e : exn).
Arguments Ok {A} a.
Arguments Raise {A} e.

#[global] Instance result_ret : MRet result := fun A a => Ok a.
#[global] Instance result_bind : MBind result := fun A B k r =>
  match r with
  | Ok a => k a
  | Raise e => Raise e
  end.

Definition is_ok {A} (r : result A) : bool :=
  match r with Ok _ => true | Raise _ => false end.

(** Literals: the binary64 number nearest to a decimal constant. *)
Definition zero : float := S754_zero false.
Definition lit (x : PrimFloat.float) : float := Prim2SF x.

(** Arithmetic.  [*], [+] and [-] never raise; [/] raises on a zero
    divisor (of either sign) instead of producing an infinity or a NaN. *)
Definition mul (x y : float) : float := SF64mul x y.
Definition add (x y : float) : float := SF64add x y.
Definition sub (x y : float) : float := SF64sub x y.
Definition truediv (x y : float) : result float :=
  if SFeqb y zero then Raise ZeroDivisionError else Ok (SF64div x y).

(** [x / y] where [y] is a nonzero literal of the source: never raises. *)
Definition div_lit (x y : float) : float := SF64div x y.

(** Comparisons: every comparison with a NaN is [False]. *)
Definition le (x y : float) : bool := SFleb x y.
Definition lt (x y : float) : bool := SFltb x y.
Definition ge (x y : float) : bool := SFleb y x.

(** Classes of numbers: the sign bit of a number that is not a NaN, the
    finite numbers, and the finite numbers above zero. *)
Definition has_sign (s : bool) (x : float) : bool :=
  match x with
  | S754_zero s' | S754_infinity s' | S754_finite s' _ _ => Bool.eqb s s'
  | S754_nan => false
  end.

Definition is_finite (x : float) : bool :=
  match x with
  | S754_zero _ | S754_finite _ _ _ => true
  | S754_infinity _ | S754_nan => false
  end.

Definition is_positive_finite (x : float) : bool :=
  match x with
  | S754_finite false _ _ => true
  | _ => false
  end.

(** [math.floor]: the largest integer below the argument; [ValueError] on
    NaN and [OverflowError] on an infinity. *)
Definition floor (x : float) : result Z :=
  match x with
  | S754_zero _ => Ok 0
  | S754_finite s m e => Ok (Z.shiftl (cond_Zopp s (Zpos m)) e)
  | S754_infinity _ => Raise OverflowError
  | S754_nan => Raise ValueError
  end.

(** [float(n)] for an [int] (also the implicit conversion in
    [int * float]): correctly rounded, [OverflowError] when out of range. *)
Definition float_of_int (n : Z) : result float :=
  match binary_normalize prec emax n 0 false with
  | S754_infinity _ => Raise OverflowError
  | f => Ok f
  end.

(** [n / d] rounded to the nearest integer, ties to even ([0 < d]). *)
Definition div_half_even (n d : Z) : Z :=
  let q := n / d in
  match 2 * (n mod d) ?= d with
  | Lt => q
  | Gt => q + 1
  | Eq => if Z.even q then q else q + 1
  end.

(** [round(x, ndigits)] for [0 <= ndigits]: the exact value of [x] is
    rounded (ties to even) to a multiple [n / 10^ndigits], and the result
    is the binary64 number nearest to that decimal.  The sign of [x] is
    kept, also on a zero result; NaN, infinities and zeros are returned
    unchanged. *)
Definition round (x : float) (ndigits : nat) : float :=
  match x with
  | S754_finite s m e =>
      let p := 10 ^ Z.of_nat ndigits in
      let n := if 0 <=? e then Zpos m * 2 ^ e * p
               else div_half_even (Zpos m * p) (2 ^ (- e)) in
      match n, p with
      | Zpos n', Zpos p' =>
          SF64div (S754_finite s n' 0) (S754_finite false p' 0)
      | _, _ => S754_zero s
      end
  | _ => x
  end.


(** [time.sleep(n)] for an [int]: the interval is converted to a 64-bit
    count of nanoseconds, [OverflowError] when it does not fit; a negative
    interval is a [ValueError]; otherwise the call returns after the
    interval. *)
Definition sleep_max : Z := 9223372036.

Definition time_sleep (seconds : Z) : result unit :=
  if (seconds <? - sleep_max) || (sleep_max <? seconds) then Raise OverflowError
  else if seconds <? 0 then Raise ValueError
  else Ok tt.

(** The values found in the decoded JSON answers of the exchange. *)
Inductive value : Type :=
| VNone
| VBool (b : bool)
| VInt (n : Z)
| VFloat (x : float)
| VStr (s : string)
| VOther (repr : string).   (* a list or a dict, with its [str()] *)

(** [str.strip()]: removes leading and trailing white space. *)
Definition is_space (a : ascii) : bool :=
  let n := Z.of_N (N_of_ascii a) in
  ((9 <=? n) && (n <=? 13)) || ((28 <=? n) && (n <=? 32)).

Fixpoint lstrip (s : string) : string :=
  match s with
  | String a s' => if is_space a then lstrip s' else s
  | EmptyString => EmptyString
  end.

Fixpoint rstrip (s : string) : string :=
  match s with
  | String a s' =>
      match rstrip s' with
      | EmptyString => if is_space a then EmptyString else String a EmptyString
      | t => String a t
      end
  | EmptyString => EmptyString
  end.

Definition strip (s : string) : string := rstrip (lstrip s).

Definition str (v : value) : string :=
  match v with
  | VStr s => s
  | VOther r => r
  | VNone => "None"
  | VBool true => "True"
  | VBool false => "False"
  | VInt _ | VFloat _ => ""   (* not needed: numbers never reach [str] *)
  end.

(** [v == s] for a string literal [s]. *)
Definition eq_str (v : value) (s : string) : bool :=
  match v with
  | VStr t => bool_decide (t = s)
  | _ => false
  end.

Section Float_of_str.
(** [float(s)] on a string is the C library's correctly rounded parser;
    it is taken as a parameter: [None] stands for [ValueError]. *)
Variable float_of_str : string -> option float.

(** The builtin [float(v)]. *)
Definition to_float (v : value) : result float :=
  match v with
  | VFloat x => Ok x
  | VInt n => float_of_int n
  | VBool b => float_of_int (if b then 1 else 0)
  | VStr s =>
      match float_of_str s with
      | Some x => Ok x
      | None => Raise ValueError
      end
  | VNone | VOther _ => Raise TypeError
  end.
End Float_of_str.

End Py.

Import Py.


(** ** Configuration: the module-level constants read from the environment *)

Record config : Type := Config {
  DIP_PERCENT : Py.float;
  TP_PERCENT : Py.float;
  ORDER_USDT : Py.float;
  MIN_POSITION_USDT : Py.float;
  POLL_INTERVAL_SECONDS : Z;
  QTY_STEP : Py.float
}.

(** A configuration the loop can run with: [time.sleep] accepts its
    interval.  With any other, the first [time.sleep] the loop reaches
    raises and ends the bot. *)
Record accepted_config : Type := Accepted {
  accepted :> config;
  interval_accepted : Py.time_sleep (POLL_INTERVAL_SECONDS accepted) = Ok tt
}.

(** The configuration with another interval. *)
Definition with_interval (cfg : config) (seconds : Z) : config :=
  Config (DIP_PERCENT cfg) (TP_PERCENT cfg) (ORDER_USDT cfg)
         (MIN_POSITION_USDT cfg) seconds (QTY_STEP cfg).

Definition SYMBOL : string := "SOLUSDT".

(** The defaults of [os.getenv]: 5.0, 4.0, 25.0, 5.0, 30 and 0.001. *)
Definition default_config : accepted_config :=
  Eval vm_compute in
  Accepted (Config (lit 5.0) (lit 4.0) (lit 25.0) (lit 5.0) 30 (lit 0.001))
           eq_refl.

(** Literals of the source. *)
Definition f0 : Py.float := Py.zero.
Definition f1 : Py.float := Eval vm_compute in lit 1.0.
Definition f100 : Py.float := Eval vm_compute in lit 100.0.

(** ** What the bot talks to *)

Inductive side : Type := Buy | Sell.

(** A JSON object of an answer: a Python [dict] with string keys. *)
Abbreviation dict := (gmap string Py.value).

(** The answer of [get_tickers], of the documented shape: [retCode] and
    [result.list], a list of dicts.  On an answer of another shape
    [get_spot_price] raises ([KeyError], [TypeError] or [AttributeError])
    inside the [try] of the loop, as it does when the session raises: for
    a tick such an answer is the [Raise] of [tickers] below. *)
Record tickers_resp : Type := TickersResp {
  tickers_retCode : Z;
  tickers_list : list dict
}.

(** The answer of [get_wallet_balance], of the documented shape:
    [retCode] and [result.list], one entry per account; [None] is an
    account without a ["coin"] key.  The answers of any shape are the
    [json] values further down, with [get_balances_json] as their reader;
    for a tick an answer of another shape is the [Raise] of [wallet]
    below. *)
Record wallet_resp : Type := WalletResp {
  wallet_retCode : Z;
  wallet_list : list (option (list dict))
}.

(** The texts sent to Telegram, by the values they are formatted from. *)
Inductive message : Type :=
| MsgBaseInit (price : Py.float)
| MsgTakeProfit (sol_total price base_price change_pct : Py.float)
| MsgNoFunds (usdt_available order_usdt : Py.float)
| MsgDipBuy (qty price base_price change_pct new_base : Py.float).

(** The lines printed to stdout and stderr. *)
Inductive log : Type :=
| LogErrFetch (e : exn)
| LogErrDbRead (e : exn)
| LogInit (price : Py.float)
| LogErrDbInit (e : exn)
| LogState (price base_price change_pct sol_total position_value
            usdt_available : Py.float)
| LogOrder (s : side) (qty_adj : Py.float)
| LogErrSell (e : exn)
| LogTP (m : message)
| LogErrDbTP (e : exn)
| LogWarnNoFunds (usdt_available order_usdt : Py.float)
| LogErrBuy (e : exn)
| LogErrDbBuy (e : exn)
| LogBuy (m : message).

(** The calls a tick makes to the outside, in the order it makes them. *)
Inductive event : Type :=
| Print (l : log)
| Telegram (m : message)
| PlaceOrder (s : side) (qty : Py.float)
| DbUpsert (symbol : string) (price : Py.float)
| Sleep (seconds : Z).

(** What the outside answers during one tick: the two queries to the
    exchange, the answer to an order (an exception or a [retCode]), and
    whether the [SELECT] and the upsert on [sol_bot_state] fail. *)
Record env : Type := Env {
  tickers : result tickers_resp;
  wallet : result wallet_resp;
  order : side -> Py.float -> result Z;
  db_read_fault : option exn;
  db_write_fault : option exn
}.

(** The state a tick runs in: the table [sol_bot_state] (symbol to base
    price, [symbol] being its key) and the calls made so far. *)
Record world : Type := World {
  db : gmap string Py.float;
  trace : list event
}.

(** ** The monad of the loop body: state, and exceptions that can be caught *)

Definition M (A : Type) : Type := world -> result A * world.

#[global] Instance M_ret : MRet M := fun A a w => (Ok a, w).
#[global] Instance M_bind : MBind M := fun A B k m w =>
  match m w with
  | (Ok a, w') => k a w'
  | (Raise e, w') => (Raise e, w')
  end.

Definition lift {A} (r : result A) : M A := fun w => (r, w).

Definition emit (ev : event) : M unit :=
  fun w => (Ok tt, World (db w) (trace w ++ [ev])).

(** [try: m] with the outcome handed to the [except] / [else] clauses. *)
Definition attempt {A} (m : M A) : M (result A) :=
  fun w => let '(r, w') := m w in (Ok r, w').

Definition print (l : log) : M unit := emit (Print l).

(** [send_telegram] catches its own exceptions: it never raises. *)
Definition send_telegram (m : message) : M unit := emit (Telegram m).

Section Bot.

Variable float_of_str : string -> option Py.float.
Variable cfg : config.
Variable outside : env.

(** ** Database *)

Definition get_base_price (symbol : string) : M (option Py.float) :=
  fun w =>
    match db_read_fault outside with
    | Some e => (Raise e, w)
    | None => (Ok (db w !! symbol), w)
    end.

Definition set_base_price (symbol : string) (price : Py.float) : M unit :=
  fun w =>
    let w' := World (db w) (trace w ++ [DbUpsert symbol price]) in
    match db_write_fault outside with
    | Some e => (Raise e, w')
    | None => (Ok tt, World (<[symbol := price]> (db w)) (trace w'))
    end.

(** ** [quantize_qty] *)

Definition quantize_qty (qty : Py.float) : result Py.float :=
  if Py.le qty f0 then Ok f0
  else
    q ← Py.truediv qty (QTY_STEP cfg);
    steps ← Py.floor q;
    fsteps ← Py.float_of_int steps;
    Ok (Py.round (Py.mul fsteps (QTY_STEP cfg)) 6).

(** ** [safe_float] *)

Definition safe_float (v : Py.value) : result Py.float :=
  match v with
  | VNone => Ok f0
  | VBool _ | VInt _ | VFloat _ => Py.to_float float_of_str v
  | VStr _ | VOther _ =>
      let s := Py.strip (Py.str v) in
      if decide (s = "") then Ok f0
      else match Py.to_float float_of_str (VStr s) with
           | Ok x => Ok x
           | Raise _ => Ok f0
           end
  end.

(** ** Exchange *)

Definition get_spot_price (symbol : string) : result Py.float :=
  resp ← tickers outside;
  if negb (tickers_retCode resp =? 0) then Raise (RuntimeError "tickers")
  else
    match tickers_list resp with
    | [] => Raise (RuntimeError "empty list")
    | first :: _ =>
        match first !! "lastPrice" with
        | Some v => Py.to_float float_of_str v
        | None => Raise (KeyError "lastPrice")
        end
    end.

(** The body of the inner [for] of [get_balances]. *)
Definition balances_coin (acc : Py.float * Py.float) (coin : dict)
  : result (Py.float * Py.float) :=
  c ← match coin !! "coin" with
      | Some c => Ok c
      | None => Raise (KeyError "coin")
      end;
  wallet_balance ← safe_float (default VNone (coin !! "walletBalance"));
  available_to_withdraw ←
    safe_float (default VNone (coin !! "availableToWithdraw"));
  if Py.eq_str c "SOL" then Ok (wallet_balance, acc.2)
  else if Py.eq_str c "USDT" then Ok (acc.1, available_to_withdraw)
  else Ok acc.

Definition balances_acct (acc : Py.float * Py.float)
    (acct : option (list dict)) : result (Py.float * Py.float) :=
  foldl (fun r coin => acc' ← r; balances_coin acc' coin) (Ok acc)
        (default [] acct).

Definition get_balances : result (Py.float * Py.float) :=
  resp ← wallet outside;
  if negb (wallet_retCode resp =? 0) then Raise (RuntimeError "wallet-balance")
  else
    foldl (fun r acct => acc ← r; balances_acct acc acct) (Ok (f0, f0))
          (wallet_list resp).

Definition place_market_order (s : side) (qty : Py.float) : M Z :=
  qty_adj ← lift (quantize_qty qty);
  if Py.le qty_adj f0 then lift (Raise (RuntimeError "qty_adj <= 0"))
  else
    print (LogOrder s qty_adj);;
    emit (PlaceOrder s qty_adj);;
    retCode ← lift (order outside s qty_adj);
    if negb (retCode =? 0) then lift (Raise (RuntimeError "order"))
    else mret retCode.

(** ** One iteration of the loop of [main] *)

(** The local variables of the loop body that decide the branch taken. *)
Definition position_value (sol_total price : Py.float) : Py.float :=
  Py.mul sol_total price.

Definition has_position (sol_total price : Py.float) : bool :=
  Py.ge (position_value sol_total price) (MIN_POSITION_USDT cfg).

Definition change_pct (price base_price : Py.float) : result Py.float :=
  d ← Py.truediv (Py.sub price base_price) base_price;
  Ok (Py.mul d f100).

Definition tp_level (base_price : Py.float) : Py.float :=
  Py.mul base_price (Py.add f1 (Py.div_lit (TP_PERCENT cfg) f100)).

Definition dip_level (base_price : Py.float) : Py.float :=
  Py.mul base_price (Py.sub f1 (Py.div_lit (DIP_PERCENT cfg) f100)).

(** [time.sleep(POLL_INTERVAL_SECONDS)]: the call raises on an interval it
    does not accept, and otherwise sleeps. *)
Definition sleep : M unit :=
  lift (Py.time_sleep (POLL_INTERVAL_SECONDS cfg));;
  emit (Sleep (POLL_INTERVAL_SECONDS cfg)).

Definition take_profit (price sol_total base_price pct : Py.float)
  : M unit :=
  r ← attempt (place_market_order Sell sol_total);
  match r with
  | Raise e => print (LogErrSell e)
  | Ok _ =>
      let msg := MsgTakeProfit sol_total price base_price pct in
      print (LogTP msg);;
      send_telegram msg;;
      r ← attempt (set_base_price SYMBOL price);
      match r with
      | Raise e => print (LogErrDbTP e)
      | Ok _ => mret tt
      end
  end.

Definition dip_buy (price usdt_available base_price pct : Py.float)
  : M unit :=
  if Py.lt usdt_available (ORDER_USDT cfg) then
    print (LogWarnNoFunds usdt_available (ORDER_USDT cfg));;
    send_telegram (MsgNoFunds usdt_available (ORDER_USDT cfg))
  else
    est_qty ← lift (Py.truediv (ORDER_USDT cfg) price);
    qty ← lift (quantize_qty est_qty);
    r ← attempt (place_market_order Buy qty);
    match r with
    | Raise e => print (LogErrBuy e)
    | Ok _ =>
        let new_base := price in
        r ← attempt (set_base_price SYMBOL new_base);
        match r with
        | Raise e => print (LogErrDbBuy e)
        | Ok _ => mret tt
        end;;
        let msg := MsgDipBuy qty price base_price pct new_base in
        print (LogBuy msg);;
        send_telegram msg
    end.

(** The two blocks that follow the state line: take profit when there is
    a position, buy the dip when there is none. *)
Definition trade (price sol_total usdt_available base_price pct : Py.float)
  : M unit :=
  if has_position sol_total price then
    (if Py.ge price (tp_level base_price)
     then take_profit price sol_total base_price pct
     else mret tt);;
    sleep
  else
    (if Py.le price (dip_level base_price)
     then dip_buy price usdt_available base_price pct
     else mret tt);;
    sleep.

(** The first [try] of the loop: price, then balances. *)
Definition fetch (symbol : string)
  : result (Py.float * (Py.float * Py.float)) :=
  price ← get_spot_price symbol;
  balances ← get_balances;
  Ok (price, balances).

Definition tick : M unit :=
  r ← attempt (lift (fetch SYMBOL));
  match r with
  | Raise e => print (LogErrFetch e);; sleep
  | Ok (price, (sol_total, usdt_available)) =>
      r ← attempt (get_base_price SYMBOL);
      base_price ← match r with
                   | Raise e => print (LogErrDbRead e);; mret None
                   | Ok b => mret b
                   end;
      match base_price with
      | None =>
          print (LogInit price);;
          r ← attempt (set_base_price SYMBOL price);
          match r with
          | Raise e => print (LogErrDbInit e)
          | Ok _ => mret tt
          end;;
          send_telegram (MsgBaseInit price);;
          sleep
      | Some base_price =>
          pct ← lift (change_pct price base_price);
          print (LogState price base_price pct sol_total
                          (position_value sol_total price) usdt_available);;
          trade price sol_total usdt_available base_price pct
      end
  end.

End Bot.

(** ** Reading a trace *)

Definition orders (tr : list event) : list (side * Py.float) :=
  omap (fun ev => match ev with PlaceOrder s q => Some (s, q) | _ => None end) tr.

Definition upserts (tr : list event) : list (string * Py.float) :=
  omap (fun ev => match ev with DbUpsert k p => Some (k, p) | _ => None end) tr.

Definition telegrams (tr : list event) : list message :=
  omap (fun ev => match ev with Telegram m => Some m | _ => None end) tr.

Definition prints (tr : list event) : list log :=
  omap (fun ev => match ev with Print l => Some l | _ => None end) tr.

(** ** Outcomes *)

Section Outcomes.

Variable cfg : config.
Variable outside : env.

(** What a write of the base price leaves behind: the row, and the line
    printed when the write fails. *)
Definition db_after_write (d : gmap string Py.float) (price : Py.float)
  : gmap string Py.float :=
  match db_write_fault outside with
  | Some _ => d
  | None => <[SYMBOL := price]> d
  end.

Definition write_error_line (l : exn -> log) : list event :=
  match db_write_fault outside with
  | Some e => [Print (l e)]
  | None => []
  end.

(** The calibration of the base price, after an optional log line. *)
Definition calibrated (w : world) (price : Py.float) (before : list event)
  : result unit * world :=
  (Ok tt,
   World (db_after_write (db w) price)
         (trace w ++ before
            ++ [Print (LogInit price); DbUpsert SYMBOL price]
            ++ write_error_line LogErrDbInit
            ++ [Telegram (MsgBaseInit price);
                Sleep (POLL_INTERVAL_SECONDS cfg)])).

(** The line printed once price, balances and base price are known. *)
Definition state_line (price sol_total usdt_available base_price pct : Py.float)
  : event :=
  Print (LogState price base_price pct sol_total
                  (position_value sol_total price) usdt_available).

(** A step extends the trace by events that all satisfy [P]. *)
Definition emits (P : event -> Prop) {A} (m : M A) : Prop :=
  forall w, exists evs, trace (m w).2 = trace w ++ evs /\ Forall P evs.

(** A step keeps every row of the table (it may change its price). *)
Definition keeps_rows {A} (m : M A) : Prop :=
  forall w k, is_Some (db w !! k) -> is_Some (db (m w).2 !! k).

(** [m'] is [m] with a [time.sleep] that raises [e0] where [m] sleeps for
    [n] seconds: it raises as [m] does, or it does what [m] does up to the
    sleep and raises there. *)
Definition stops_at_sleep (e0 : exn) (n : Z) (m m' : M unit) : Prop :=
  forall w,
    match m w with
    | (Raise e, w1) => m' w = (Raise e, w1)
    | (Ok _, w1) =>
        exists tr,
          trace w1 = tr ++ [Sleep n] /\ m' w = (Raise e0, World (db w1) tr)
    end.

(** What holds of every order handed to the exchange: its quantity is the
    quantized one of some requested quantity and fails the test [<= 0]. *)
Definition order_quantized (ev : event) : Prop :=
  match ev with
  | PlaceOrder _ q =>
      Py.le q f0 = false /\ exists requested, quantize_qty cfg requested = Ok q
  | _ => True
  end.

(** The order gateway turns the order down: it raises, or it answers
    with a nonzero [retCode]. *)
Definition order_refused (s : side) (qty : Py.float) : Prop :=
  forall retCode, order outside s qty = Ok retCode -> retCode <> 0.

End Outcomes.

(** ** The balances, as the last entries of the answer *)

Section Balances.

Variable float_of_str : string -> option Py.float.

(** The coin entries of an answer, account after account. *)
Definition wallet_entries (resp : wallet_resp) : list dict :=
  concat (map (default []) (wallet_list resp)).

(** The loop over the coins, run over a list of entries. *)
Definition balances_loop (acc : result (Py.float * Py.float)) (entries : list dict)
  : result (Py.float * Py.float) :=
  foldl (fun r coin => acc' ← r; balances_coin float_of_str acc' coin) acc entries.

(** The last entry whose ["coin"] is [name]. *)
Definition last_entry (name : string) (entries : list dict) : option dict :=
  last (List.filter (fun d => Py.eq_str (default VNone (d !! "coin")) name)
                    entries).

(** [safe_float] of the field [field] of the last entry for [name]; [init]
    when there is no entry for [name]. *)
Definition last_field (name field : string) (init : Py.float)
    (entries : list dict) : Py.float :=
  match last_entry name entries with
  | Some d =>
      match safe_float float_of_str (default VNone (d !! field)) with
      | Ok x => x
      | Raise _ => f0
      end
  | None => init
  end.

(** An entry the loop of [get_balances] gets through: it has a ["coin"] key
    and both numeric fields convert ([safe_float] only raises on an [int]
    out of the range of binary64). *)
Definition entry_ok (d : dict) : Prop :=
  is_Some (d !! "coin") /\
  Py.is_ok (safe_float float_of_str (default VNone (d !! "walletBalance"))) = true /\
  Py.is_ok (safe_float float_of_str (default VNone (d !! "availableToWithdraw"))) = true.

End Balances.

(** ** The wallet answer as decoded JSON *)

(** What [json.loads] gives for an answer: [None], booleans, numbers,
    strings, lists and dicts with string keys, of any shape. *)
Inductive json : Type :=
| JNull
| JBool (b : bool)
| JInt (n : Z)
| JFloat (x : Py.float)
| JStr (s : string)
| JList (l : list json)
| JDict (d : gmap string json).

Section Json.

Variable float_of_str : string -> option Py.float.

(** [str(v)] of a list or of a dict. *)
Variable repr : json -> string.

(** A JSON value as the argument of [float] and of [safe_float]. *)
Definition to_value (j : json) : Py.value :=
  match j with
  | JNull => VNone
  | JBool b => VBool b
  | JInt n => VInt n
  | JFloat x => VFloat x
  | JStr s => VStr s
  | JList _ | JDict _ => VOther (repr j)
  end.

(** The result of [d.get(k)]: [None] when the key is absent. *)
Definition field (v : option json) : Py.value :=
  match v with
  | Some j => to_value j
  | None => VNone
  end.

(** [v.get(k)]: only a dict has the method. *)
Definition py_get (v : json) (k : string) : result (option json) :=
  match v with
  | JDict d => Ok (d !! k)
  | _ => Raise AttributeError
  end.

(** [v[k]] for a string [k]: [KeyError] on a dict without the key,
    [TypeError] on a list, a string and on what cannot be subscripted. *)
Definition py_getitem (v : json) (k : string) : result json :=
  match v with
  | JDict d =>
      match d !! k with
      | Some x => Ok x
      | None => Raise (KeyError k)
      end
  | _ => Raise TypeError
  end.

(** The items of [for x in v]: the elements of a list, the characters of
    a string, the keys of a dict (whose order a map does not keep: the
    loops below raise at the first key, whichever it is); [TypeError] on
    what is not iterable. *)
Definition py_iter (v : json) : result (list json) :=
  match v with
  | JList l => Ok l
  | JStr s => Ok ((fun a => JStr (String a EmptyString)) <$> String.list_ascii_of_string s)
  | JDict d => Ok ((fun row => JStr row.1) <$> map_to_list d)
  | _ => Raise TypeError
  end.

(** [resp.get("retCode") != 0]. *)
Definition ne_zero (v : option json) : bool :=
  match v with
  | Some (JInt n) => negb (n =? 0)
  | Some (JFloat x) => negb (SFeqb x Py.zero)
  | Some (JBool b) => b
  | _ => true
  end.

(** The body of the inner [for] of [get_balances], on any item. *)
Definition balances_coin_json (acc : Py.float * Py.float) (coin : json)
  : result (Py.float * Py.float) :=
  c ← py_getitem coin "coin";
  wb ← py_get coin "walletBalance";
  wallet_balance ← safe_float float_of_str (field wb);
  av ← py_get coin "availableToWithdraw";
  available_to_withdraw ← safe_float float_of_str (field av);
  if Py.eq_str (to_value c) "SOL" then Ok (wallet_balance, acc.2)
  else if Py.eq_str (to_value c) "USDT" then Ok (acc.1, available_to_withdraw)
  else Ok acc.

(** The body of the outer [for]: [acct.get("coin", [])] and the inner
    loop. *)
Definition balances_acct_json (acc : Py.float * Py.float) (acct : json)
  : result (Py.float * Py.float) :=
  coins ← py_get acct "coin";
  entries ← py_iter (default (JList []) coins);
  foldl (fun r coin => acc' ← r; balances_coin_json acc' coin) (Ok acc) entries.

(** [get_balances] on whatever the session returned. *)
Definition get_balances_json (answer : result json)
  : result (Py.float * Py.float) :=
  resp ← answer;
  code ← py_get resp "retCode";
  if ne_zero code then Raise (RuntimeError "wallet-balance")
  else
    result ← py_getitem resp "result";
    accounts ← py_getitem result "list";
    accounts ← py_iter accounts;
    foldl (fun r acct => acc ← r; balances_acct_json acc acct) (Ok (f0, f0))
          accounts.

(** The answers of the documented shape, as [wallet_resp] has them: a
    dict with an [int] [retCode] and a [result] dict whose [list] is a
    list of dicts, each without ["coin"] or with a list of dicts under
    it. *)
Definition entry_of_json (j : json) : option dict :=
  match j with
  | JDict d => Some (to_value <$> d)
  | _ => None
  end.

Definition account_of_json (j : json) : option (option (list dict)) :=
  match j with
  | JDict a =>
      match a !! "coin" with
      | None => Some None
      | Some (JList coins) => Some <$> mapM entry_of_json coins
      | Some _ => None
      end
  | _ => None
  end.

Definition wallet_of_json (j : json) : option wallet_resp :=
  match j with
  | JDict d =>
      match d !! "retCode", d !! "result" with
      | Some (JInt n), Some (JDict result) =>
          match result !! "list" with
          | Some (JList accounts) =>
              WalletResp n <$> mapM account_of_json accounts
          | _ => None
          end
      | _, _ => None
      end
  | _ => None
  end.

End Json.

(** ** The paths through the loop body *)

Section Paths.

Variable float_of_str : string -> option Py.float.
Variable cfg : config.
Variable outside : env.

(** The line printed in the [except] clause of an order. *)
Definition order_error (s : side) (e : exn) : event :=
  Print (match s with Sell => LogErrSell e | Buy => LogErrBuy e end).

(** The exceptions of the arithmetic: a zero divisor, [math.floor] of a
    NaN, and [math.floor] of an infinity or an [int] too large for a
    [float]. *)
Definition arithmetic_error (e : exn) : Prop :=
  e = ZeroDivisionError \/ e = ValueError \/ e = OverflowError.

Section Priced.

Variables (price sol_total usdt_available base_price : Py.float).

(** The tick gets to the call [place_market_order s requested]: to sell all
    the holdings, or to buy the quantized estimate. *)
Definition reaches_order (s : side) (requested : Py.float) : Prop :=
  match s with
  | Sell =>
      has_position cfg sol_total price = true /\
      Py.ge price (tp_level cfg base_price) = true /\
      requested = sol_total
  | Buy =>
      has_position cfg sol_total price = false /\
      Py.le price (dip_level cfg base_price) = true /\
      Py.lt usdt_available (ORDER_USDT cfg) = false /\
      exists est_qty,
        Py.truediv (ORDER_USDT cfg) price = Ok est_qty /\
        quantize_qty cfg est_qty = Ok requested
  end.

(** The outcomes of a tick that read a price, balances and a base price:
    the exception that escapes or the normal end, the table, and the calls
    made, one rule per path. *)
Inductive priced_path (d : gmap string Py.float)
  : result unit -> gmap string Py.float -> list event -> Prop :=
| path_no_pct e :
    change_pct price base_price = Raise e ->
    priced_path d (Raise e) d []
| path_wait pct :
    change_pct price base_price = Ok pct ->
    (has_position cfg sol_total price = true /\
     Py.ge price (tp_level cfg base_price) = false) \/
    (has_position cfg sol_total price = false /\
     Py.le price (dip_level cfg base_price) = false) ->
    priced_path d (Ok tt) d
      [state_line price sol_total usdt_available base_price pct;
       Sleep (POLL_INTERVAL_SECONDS cfg)]
| path_no_funds pct :
    change_pct price base_price = Ok pct ->
    has_position cfg sol_total price = false ->
    Py.le price (dip_level cfg base_price) = true ->
    Py.lt usdt_available (ORDER_USDT cfg) = true ->
    priced_path d (Ok tt) d
      [state_line price sol_total usdt_available base_price pct;
       Print (LogWarnNoFunds usdt_available (ORDER_USDT cfg));
       Telegram (MsgNoFunds usdt_available (ORDER_USDT cfg));
       Sleep (POLL_INTERVAL_SECONDS cfg)]
| path_estimate_raises pct e :
    change_pct price base_price = Ok pct ->
    has_position cfg sol_total price = false ->
    Py.le price (dip_level cfg base_price) = true ->
    Py.lt usdt_available (ORDER_USDT cfg) = false ->
    Py.truediv (ORDER_USDT cfg) price = Raise e \/
    (exists est_qty, Py.truediv (ORDER_USDT cfg) price = Ok est_qty /\
                     quantize_qty cfg est_qty = Raise e) ->
    priced_path d (Raise e) d
      [state_line price sol_total usdt_available base_price pct]
| path_not_submitted pct s requested e :
    change_pct price base_price = Ok pct ->
    reaches_order s requested ->
    quantize_qty cfg requested = Raise e \/
    (exists q, quantize_qty cfg requested = Ok q /\ Py.le q f0 = true /\
               e = RuntimeError "qty_adj <= 0") ->
    priced_path d (Ok tt) d
      [state_line price sol_total usdt_available base_price pct;
       order_error s e;
       Sleep (POLL_INTERVAL_SECONDS cfg)]
| path_refused pct s requested q e :
    change_pct price base_price = Ok pct ->
    reaches_order s requested ->
    quantize_qty cfg requested = Ok q ->
    Py.le q f0 = false ->
    order outside s q = Raise e \/
    (exists retCode, order outside s q = Ok retCode /\ retCode <> 0 /\
                     e = RuntimeError "order") ->
    priced_path d (Ok tt) d
      [state_line price sol_total usdt_available base_price pct;
       Print (LogOrder s q); PlaceOrder s q;
       order_error s e;
       Sleep (POLL_INTERVAL_SECONDS cfg)]
| path_sold pct q :
    change_pct price base_price = Ok pct ->
    reaches_order Sell sol_total ->
    quantize_qty cfg sol_total = Ok q ->
    Py.le q f0 = false ->
    order outside Sell q = Ok 0 ->
    priced_path d (Ok tt) (db_after_write outside d price)
      ([state_line price sol_total usdt_available base_price pct;
        Print (LogOrder Sell q); PlaceOrder Sell q;
        Print (LogTP (MsgTakeProfit sol_total price base_price pct));
        Telegram (MsgTakeProfit sol_total price base_price pct);
        DbUpsert SYMBOL price]
         ++ write_error_line outside LogErrDbTP
         ++ [Sleep (POLL_INTERVAL_SECONDS cfg)])
| path_bought pct qty q :
    change_pct price base_price = Ok pct ->
    reaches_order Buy qty ->
    quantize_qty cfg qty = Ok q ->
    Py.le q f0 = false ->
    order outside Buy q = Ok 0 ->
    priced_path d (Ok tt) (db_after_write outside d price)
      ([state_line price sol_total usdt_available base_price pct;
        Print (LogOrder Buy q); PlaceOrder Buy q;
        DbUpsert SYMBOL price]
         ++ write_error_line outside LogErrDbBuy
         ++ [Print (LogBuy (MsgDipBuy qty price base_price pct price));
             Telegram (MsgDipBuy qty price base_price pct price);
             Sleep (POLL_INTERVAL_SECONDS cfg)]).

End Priced.

(** The outcomes of a tick on the table [d]. *)
Inductive tick_path (d : gmap string Py.float)
  : result unit -> gmap string Py.float -> list event -> Prop :=
| path_fetch_error e :
    fetch float_of_str outside SYMBOL = Raise e ->
    tick_path d (Ok tt) d
      [Print (LogErrFetch e); Sleep (POLL_INTERVAL_SECONDS cfg)]
| path_calibrate price sol_total usdt_available before :
    fetch float_of_str outside SYMBOL = Ok (price, (sol_total, usdt_available)) ->
    (exists e, db_read_fault outside = Some e /\
               before = [Print (LogErrDbRead e)]) \/
    (db_read_fault outside = None /\ d !! SYMBOL = None /\ before = []) ->
    tick_path d (Ok tt) (db_after_write outside d price)
      (before ++ [Print (LogInit price); DbUpsert SYMBOL price]
         ++ write_error_line outside LogErrDbInit
         ++ [Telegram (MsgBaseInit price);
             Sleep (POLL_INTERVAL_SECONDS cfg)])
| path_priced price sol_total usdt_available base_price r d' evs :
    fetch float_of_str outside SYMBOL = Ok (price, (sol_total, usdt_available)) ->
    db_read_fault outside = None ->
    d !! SYMBOL = Some base_price ->
    priced_path price sol_total usdt_available base_price d r d' evs ->
    tick_path d r d' evs.

End Paths.

(** ** The loop of [main] *)

Section Loop.

Variable float_of_str : string -> option Py.float.
Variable cfg : config.

(** The iterations of [while True], one for each element of the list of
    what the outside answers; an exception that escapes a tick ends the
    loop. *)
Fixpoint main_loop (answers : list env) : M unit :=
  match answers with
  | [] => mret tt
  | outside :: rest => tick float_of_str cfg outside ;; main_loop rest
  end.

End Loop.

(** More readings of a trace. *)
Definition sleeps (tr : list event) : list Z :=
  omap (fun ev => match ev with Sleep n => Some n | _ => None end) tr.

Definition is_trade_message (m : message) : bool :=
  match m with
  | MsgTakeProfit _ _ _ _ | MsgDipBuy _ _ _ _ _ => true
  | MsgBaseInit _ | MsgNoFunds _ _ => false
  end.

(** The two calls of the calibration branch that no other branch makes. *)
Definition is_calibration (ev : event) : bool :=
  match ev with
  | Print (LogInit _) | Telegram (MsgBaseInit _) => true
  | _ => false
  end.

(** The [SELECT] of the base price succeeds in every iteration. *)
Definition reads_succeed (answers : list env) : Prop :=
  Forall (fun outside => db_read_fault outside = None) answers.

(** ** Concrete inputs for the examples *)

(** A parser for the decimal numerals of the examples: an optional sign,
    digits, and an optional fraction, correctly rounded to binary64.
    (Python's [float] accepts more: exponents, [inf], [nan], underscores.) *)
Module Decimal.

Definition digit (a : ascii) : option Z :=
  let n := Z.of_N (N_of_ascii a) in
  if (48 <=? n) && (n <=? 57) then Some (n - 48) else None.

(** Reads digits into [(numerator, number of fraction digits)]. *)
Fixpoint digits (s : string) (seen_dot : bool) (n k : Z) : option (Z * Z) :=
  match s with
  | EmptyString => Some (n, k)
  | String a s' =>
      if Ascii.eqb a "."%char then
        if seen_dot then None else digits s' true n k
      else
        match digit a with
        | Some d => digits s' seen_dot (10 * n + d) (if seen_dot then k + 1 else k)
        | None => None
        end
  end.

Definition unsigned (neg : bool) (s : string) : option Py.float :=
  match s with
  | EmptyString | String "."%char EmptyString => None
  | _ =>
      match digits s false 0 0 with
      | Some (Zpos n, k) =>
          match 10 ^ k with
          | Zpos p => Some (SF64div (S754_finite neg n 0) (S754_finite false p 0))
          | _ => None
          end
      | Some (_, _) => Some (S754_zero neg)
      | None => None
      end
  end.

Definition parse (s : string) : option Py.float :=
  match Py.strip s with
  | String "-"%char s' => unsigned true s'
  | String "+"%char s' => unsigned false s'
  | s' => unsigned false s'
  end.

End Decimal.

(** The answers used in the examples. *)
Module Example.

Definition ticker (last_price : string) : result tickers_resp :=
  Ok (TickersResp 0 [ {[ "symbol" := VStr "SOLUSDT";
                         "lastPrice" := VStr last_price ]} ]).

Definition coin (name wallet_balance available : string) : dict :=
  {[ "coin" := VStr name;
     "walletBalance" := VStr wallet_balance;
     "availableToWithdraw" := VStr available ]}.

(** One unified account holding [sol] SOL and 1000 USDT of which
    [usdt_available] can be withdrawn. *)
Definition account (sol usdt_available : string) : result wallet_resp :=
  Ok (WalletResp 0 [ Some [ coin "SOL" sol sol;
                            coin "USDT" "1000" usdt_available ] ]).

Definition accepts : side -> Py.float -> result Z := fun _ _ => Ok 0.
Definition rejects : side -> Py.float -> result Z := fun _ _ => Ok 170131.

Definition db_down : option exn := Some (ExternalError "psycopg2").

(** The default configuration with another step. *)
Definition with_step (step : PrimFloat.float) : accepted_config :=
  Accepted (Config (lit 5.0) (lit 4.0) (lit 25.0) (lit 5.0) 30 (lit step))
           eq_refl.

(** Two accounts.  SOL is listed in both; the second SOL entry has no
    [availableToWithdraw]; the second USDT entry has a blank one. *)
Definition two_accounts : result wallet_resp :=
  Ok (WalletResp 0
        [ Some [ coin "SOL" "1.5" "1.5"; coin "USDT" "1000" "100" ];
          None;
          Some [ {[ "coin" := VStr "SOL"; "walletBalance" := VStr "2.5" ]};
                 coin "USDT" "500" "" ] ]).

(** A table that holds the base price [base] for the symbol. *)
Definition stored (base : PrimFloat.float) : world :=
  World {[ SYMBOL := lit base ]} [].

Definition empty : world := World ∅ [].

(** The world after one tick with the default configuration. *)
Definition after (outside : env) (w : world) : world :=
  (tick Decimal.parse default_config outside w).2.

End Example.

(** ** Running the monad *)

Section Run.

Context {A B : Type}.

Lemma run_bind (m : M A) (k : A -> M B) (w : world) :
  (m ≫= k) w =
  match m w with
  | (Ok a, w') => k a w'
  | (Raise e, w') => (Raise e, w')
  end.
Proof. reflexivity. Qed.

Lemma run_lift_ok (a : A) (k : A -> M B) (w : world) :
  (lift (Ok a) ≫= k) w = k a w.
Proof. reflexivity. Qed.

Lemma run_lift_raise (e : exn) (k : A -> M B) (w : world) :
  (lift (Raise e) ≫= k) w = (Raise e, w).
Proof. reflexivity. Qed.

End Run.

(** ** Facts on binary64 comparisons *)

Lemma SFcompare_lt_gt (x y : Py.float) :
  SFcompare x y = Some Lt -> SFcompare y x = Some Gt.
Proof.
  destruct x as [sx|sx| |sx mx ex], y as [sy|sy| |sy my ey];
    try destruct sx; try destruct sy; cbn; try congruence.
  all: rewrite (Z.compare_antisym ex ey).
  all: destruct (ex ?= ey); cbn; try congruence.
  all: change (Pos.compare_cont Eq my mx) with (my ?= mx)%positive.
  all: change (Pos.compare_cont Eq mx my) with (mx ?= my)%positive.
  all: rewrite (Pos.compare_antisym mx my).
  all: destruct (mx ?= my)%positive; cbn; congruence.
Qed.

(** [x < y] excludes [x >= y]. *)
Lemma lt_not_ge (x y : Py.float) : Py.lt x y = true -> Py.ge x y = false.
Proof.
  unfold Py.lt, Py.ge, SFltb, SFleb. intros H.
  destruct (SFcompare x y) as [[]|] eqn:E; try discriminate.
  rewrite (SFcompare_lt_gt _ _ E). reflexivity.
Qed.

(** ** Facts on binary64 rounding: signs *)

Section RoundingSigns.

Lemma iter_pos_invariant {A} (f : A -> A) (Inv : A -> Prop) :
  (forall x, Inv x -> Inv (f x)) ->
  forall p x, Inv x -> Inv (SpecFloat.iter_pos f p x).
Proof.
  intros Hf. induction p as [p IH|p IH|]; intros x Hx; cbn.
  - apply IH, IH, Hf, Hx.
  - apply IH, IH, Hx.
  - apply Hf, Hx.
Qed.

Lemma shr_1_nonneg mrs : 0 <= shr_m mrs -> 0 <= shr_m (shr_1 mrs).
Proof.
  destruct mrs as [m r s]. cbn. destruct m as [|[p|p|]|p]; cbn; lia.
Qed.

Lemma shr_nonneg mrs e n : 0 <= shr_m mrs -> 0 <= shr_m (shr mrs e n).1.
Proof.
  intros H. destruct n as [|p|p]; cbn; try exact H.
  apply (iter_pos_invariant shr_1 (fun x => 0 <= shr_m x) shr_1_nonneg), H.
Qed.

Lemma shr_fexp_nonneg m e l :
  0 <= m -> 0 <= shr_m (shr_fexp prec emax m e l).1.
Proof.
  intros H. unfold shr_fexp. apply shr_nonneg. destruct l as [|[]]; exact H.
Qed.

Lemma round_nearest_even_nonneg m l : 0 <= m -> 0 <= round_nearest_even m l.
Proof.
  intros H. unfold round_nearest_even.
  destruct l as [|[]]; try destruct (Z.even m); lia.
Qed.

(** Rounding a mantissa that is not negative keeps the sign it is given
    and never gives a NaN. *)
Lemma binary_round_aux_sign s m e l :
  0 <= m -> Py.has_sign s (binary_round_aux prec emax s m e l) = true.
Proof.
  intros H. unfold binary_round_aux.
  pose proof (shr_fexp_nonneg m e l H) as H1.
  destruct (shr_fexp prec emax m e l) as [mrs' e'].
  pose proof (shr_fexp_nonneg
                (round_nearest_even (shr_m mrs') (loc_of_shr_record mrs')) e'
                loc_Exact (round_nearest_even_nonneg _ _ H1)) as H2.
  destruct (shr_fexp prec emax _ e' loc_Exact) as [mrs'' e''].
  cbn [fst] in H2. destruct (shr_m mrs'') as [|p|p]; [| |lia].
  - cbn. apply Bool.eqb_reflx.
  - destruct (e'' <=? emax - prec); cbn; apply Bool.eqb_reflx.
Qed.

Lemma binary_round_sign s m e :
  Py.has_sign s (binary_round prec emax s m e) = true.
Proof.
  unfold binary_round.
  destruct (shl_align m e _) as [mz ez]. apply binary_round_aux_sign. lia.
Qed.

Lemma SFdiv_core_nonneg m1 e1 m2 e2 :
  0 <= (SFdiv_core_binary prec emax (Zpos m1) e1 (Zpos m2) e2).1.1.
Proof.
  unfold SFdiv_core_binary.
  set (s := _ - _ - _).
  set (m' := match s with Z0 => _ | Zpos _ => _ | Zneg _ => _ end).
  assert (0 <= m') as Hm'.
  { subst m'. destruct s; [lia| |lia]. apply Z.shiftl_nonneg. lia. }
  pose proof (Z.div_pos m' (Zpos m2) Hm' eq_refl) as Hq.
  unfold Z.div in Hq. destruct (Z.div_eucl m' (Zpos m2)) as [q r]. exact Hq.
Qed.

Lemma SFdiv_finite_sign sx mx ex sy my ey :
  Py.has_sign (xorb sx sy)
    (SF64div (S754_finite sx mx ex) (S754_finite sy my ey)) = true.
Proof.
  unfold SF64div, SFdiv.
  pose proof (SFdiv_core_nonneg mx ex my ey) as H.
  destruct (SFdiv_core_binary prec emax (Zpos mx) ex (Zpos my) ey) as [[mz ez] lz].
  apply binary_round_aux_sign. exact H.
Qed.

Lemma SFmul_finite_sign sx sy x y :
  Py.has_sign sx x = true -> Py.has_sign sy y = true ->
  Py.is_finite x = true -> Py.is_finite y = true ->
  Py.has_sign (xorb sx sy) (Py.mul x y) = true.
Proof.
  destruct x as [sx'|sx'| |sx' mx ex], y as [sy'|sy'| |sy' my ey];
    try discriminate; cbn [Py.has_sign Py.is_finite];
    intros Hx%Bool.eqb_prop Hy%Bool.eqb_prop _ _; subst sx' sy';
    unfold Py.mul, SF64mul, SFmul; cbn [Py.has_sign];
    try apply Bool.eqb_reflx.
  apply binary_round_aux_sign. lia.
Qed.

Lemma round_sign s x n :
  Py.has_sign s x = true -> Py.has_sign s (Py.round x n) = true.
Proof.
  destruct x as [sx|sx| |sx mx ex]; try (intros H; exact H).
  cbn [Py.has_sign]. intros H%Bool.eqb_prop. subst sx. unfold Py.round.
  destruct (if 0 <=? ex then _ else _) as [|n'|n'];
    try (cbn; apply Bool.eqb_reflx).
  destruct (10 ^ Z.of_nat n) as [|p'|p']; try (cbn; apply Bool.eqb_reflx).
  rewrite <- (Bool.xorb_false_r s) at 1. apply SFdiv_finite_sign.
Qed.

Lemma floor_nonneg x k :
  Py.has_sign false x = true -> Py.floor x = Ok k -> 0 <= k.
Proof.
  destruct x as [sx|sx| |sx mx ex]; cbn; try discriminate.
  - intros _ [= <-]. lia.
  - destruct sx; [discriminate|]. intros _ [= <-].
    apply Z.shiftl_nonneg. cbn. lia.
Qed.

Lemma float_of_int_finite n x :
  Py.float_of_int n = Ok x ->
  Py.is_finite x = true /\ Py.has_sign (n <? 0) x = true.
Proof.
  unfold Py.float_of_int, binary_normalize. destruct n as [|p|p].
  - intros [= <-]. split; reflexivity.
  - pose proof (binary_round_sign false p 0) as H.
    destruct (binary_round prec emax false p 0); try discriminate;
      intros [= <-]; split; try reflexivity; exact H.
  - pose proof (binary_round_sign true p 0) as H.
    destruct (binary_round prec emax true p 0); try discriminate;
      intros [= <-]; split; try reflexivity; exact H.
Qed.

(** What is not a NaN and fails [<= 0] is above zero. *)
Lemma not_le_zero_positive s x :
  Py.has_sign s x = true -> Py.le x f0 = false -> Py.lt f0 x = true.
Proof.
  destruct x as [sx|sx| |sx mx ex]; cbn; try discriminate;
    destruct sx; cbn; congruence.
Qed.

Lemma has_sign_false_nonneg x : Py.has_sign false x = true -> Py.le f0 x = true.
Proof.
  destruct x as [sx|sx| |sx mx ex]; cbn; try discriminate;
    destruct sx; cbn; congruence.
Qed.

End RoundingSigns.

(** ** Facts on binary64 rounding: quotients below one *)

Section RoundingBelowOne.

Lemma digits2_size p : digits2_pos p = Pos.size p.
Proof. induction p as [p IH|p IH|]; cbn; congruence. Qed.

Lemma digits2_bounds p :
  2 ^ (Zpos (digits2_pos p) - 1) <= Zpos p < 2 ^ Zpos (digits2_pos p).
Proof.
  rewrite digits2_size. split.
  - pose proof (Pos.size_le p) as H.
    apply (Pos2Z.pos_le_pos) in H. rewrite Pos2Z.inj_pow in H.
    replace (Zpos (Pos.size p)) with (Zpos (Pos.size p) - 1 + 1) in H by lia.
    rewrite Z.pow_add_r in H by lia. change (Zpos p~0) with (2 * Zpos p) in H. lia.
  - pose proof (Pos.size_gt p) as H.
    apply (Pos2Z.pos_lt_pos) in H. rewrite Pos2Z.inj_pow in H. exact H.
Qed.

Lemma Zdigits2_le q E : 0 <= q < 2 ^ E -> 0 <= E -> Zdigits2 q <= E.
Proof.
  intros [H0 H1] HE. destruct q as [|p|p]; cbn; [lia| |lia].
  pose proof (digits2_bounds p) as [Hlo _].
  apply Z.nlt_ge. intros Hlt.
  assert (2 ^ E <= 2 ^ (Zpos (digits2_pos p) - 1)) by (apply Z.pow_le_mono_r; lia).
  lia.
Qed.

Lemma iter_pos_iter {A} (f : A -> A) p x : SpecFloat.iter_pos f p x = Pos.iter f x p.
Proof.
  revert x. induction p as [p IH|p IH|]; intros x; cbn.
  - rewrite !IH. rewrite !Pos.iter_swap. reflexivity.
  - rewrite !IH. reflexivity.
  - reflexivity.
Qed.

Lemma shr_1_spec mrs :
  0 <= shr_m mrs ->
  shr_m (shr_1 mrs) = shr_m mrs / 2 /\
  shr_r (shr_1 mrs) = Z.odd (shr_m mrs) /\
  shr_s (shr_1 mrs) = shr_r mrs || shr_s mrs.
Proof.
  destruct mrs as [m r s]. cbn [shr_m shr_r shr_s]. intros H.
  destruct m as [|[p|p|]|p]; try lia; cbn [shr_1 shr_m shr_r shr_s].
  - repeat split.
  - repeat split. rewrite Pos2Z.inj_xI. 
    apply Z.div_unique with 1; lia.
  - repeat split. rewrite Pos2Z.inj_xO.
    apply Z.div_unique with 0; lia.
  - repeat split.
Qed.

Lemma shr_iter_spec p mrs :
  0 <= shr_m mrs ->
  let mrs' := Pos.iter shr_1 mrs p in
  shr_m mrs' = shr_m mrs / 2 ^ Zpos p /\
  (shr_r mrs = false -> shr_s mrs = false -> shr_m mrs mod 2 ^ Zpos p = 0 ->
   shr_r mrs' = false /\ shr_s mrs' = false).
Proof.
  intros H. cbn zeta. induction p as [|p IH] using Pos.peano_ind.
  - cbn [Pos.iter]. destruct (shr_1_spec mrs H) as (Hm & Hr & Hs).
    rewrite Hm, Hr, Hs. change (2 ^ 1) with 2. split; [reflexivity|].
    intros -> -> Hmod. split; [|reflexivity].
    rewrite <- Z.negb_even. rewrite Zeven_mod, Hmod. reflexivity.
  - rewrite Pos.iter_succ. destruct IH as [IHm IHx].
    assert (0 <= shr_m (Pos.iter shr_1 mrs p)) as Hnn.
    { rewrite IHm. apply Z.div_pos; lia. }
    destruct (shr_1_spec _ Hnn) as (Hm & Hr & Hs).
    rewrite Hm, Hr, Hs, IHm. rewrite Pos2Z.inj_succ, Z.pow_succ_r by lia.
    split.
    { rewrite Z.div_div by lia. f_equal. lia. }
    intros Hr0 Hs0 Hmod.
    assert (shr_m mrs mod 2 ^ Zpos p = 0) as Hmodp.
    { apply Z.mod_divide in Hmod; [|lia]. apply Z.mod_divide; [lia|].
      destruct Hmod as [c Hc]. exists (c * 2). lia. }
    destruct (IHx Hr0 Hs0 Hmodp) as [-> ->]. split; [|reflexivity].
    rewrite <- Z.negb_even, Zeven_mod.
    apply Z.mod_divide in Hmod; [|lia]. destruct Hmod as [c Hc].
    rewrite Hc. replace (c * (2 * 2 ^ Zpos p)) with (c * 2 * 2 ^ Zpos p) by lia.
    rewrite Z.div_mul by lia. rewrite Z.mod_mul by lia. reflexivity.
Qed.

Lemma shr_spec mrs e n :
  0 <= shr_m mrs ->
  (shr mrs e n).2 = e + Z.max n 0 /\
  shr_m (shr mrs e n).1 = shr_m mrs / 2 ^ Z.max n 0 /\
  (shr_r mrs = false -> shr_s mrs = false ->
   shr_m mrs mod 2 ^ Z.max n 0 = 0 ->
   shr_r (shr mrs e n).1 = false /\ shr_s (shr mrs e n).1 = false).
Proof.
  intros H. destruct n as [|p|p]; cbn [shr fst snd Z.max].
  - change (Z.max 0 0) with 0. rewrite Z.add_0_r, Z.pow_0_r, Z.div_1_r. auto.
  - replace (Z.max (Zpos p) 0) with (Zpos p) by lia.
    rewrite iter_pos_iter. split; [reflexivity|]. apply shr_iter_spec. exact H.
  - replace (Z.max (Zneg p) 0) with 0 by lia.
    rewrite Z.add_0_r, Z.pow_0_r, Z.div_1_r. auto.
Qed.

Lemma shr_record_of_loc_m m l : shr_m (shr_record_of_loc m l) = m.
Proof. destruct l as [|[]]; reflexivity. Qed.

Lemma fexp_below e : e <= 0 -> fexp prec emax e <= -53.
Proof. unfold fexp, SpecFloat.emin, prec, emax. lia. Qed.

Lemma round_nearest_even_le m l : round_nearest_even m l <= m + 1.
Proof. unfold round_nearest_even. destruct l as [|[]]; try destruct (Z.even m); lia. Qed.

Lemma binary_round_aux_below_one q e l :
  0 <= q -> e <= -53 ->
  q <= (2 ^ 53 - 1) * 2 ^ (- e - 53) ->
  (q = (2 ^ 53 - 1) * 2 ^ (- e - 53) -> l = loc_Exact) ->
  Py.floor (binary_round_aux prec emax false q e l) = Ok 0.
Proof.
  intros Hq He Hle Hexact.
  assert (Hpow : 2 ^ (- e) = 2 ^ 53 * 2 ^ (- e - 53)).
  { rewrite <- Z.pow_add_r by lia. f_equal. lia. }
  assert (HA0 : 0 < 2 ^ (- e - 53)) by (apply Z.pow_pos_nonneg; lia).
  assert (Hdq : Zdigits2 q <= - e).
  { apply Zdigits2_le; [|lia]. split; [lia|]. rewrite Hpow. nia. }
  unfold binary_round_aux, shr_fexp.
  (* first shift *)
  set (n := fexp prec emax (Zdigits2 q + e) - e).
  pose proof (fexp_below (Zdigits2 q + e) ltac:(lia)) as Hf.
  pose proof (shr_spec (shr_record_of_loc q l) e n) as Hs.
  rewrite shr_record_of_loc_m in Hs. specialize (Hs Hq).
  destruct (shr (shr_record_of_loc q l) e n) as [mrs' e1].
  cbn [fst snd] in Hs. destruct Hs as (He1 & Hm & Hx).
  set (K := Z.max n 0) in *.
  assert (HK : 0 <= K) by lia.
  assert (He1' : e1 <= -53) by (subst n K; lia).
  assert (HT0 : 0 < 2 ^ K) by (apply Z.pow_pos_nonneg; lia).
  assert (HA1 : 0 < 2 ^ (- e1 - 53)) by (apply Z.pow_pos_nonneg; lia).
  assert (Hsplit : 2 ^ (- e - 53) = 2 ^ (- e1 - 53) * 2 ^ K).
  { rewrite <- Z.pow_add_r by lia. f_equal. lia. }
  assert (Hpow1 : 2 ^ (- e1) = 2 ^ 53 * 2 ^ (- e1 - 53)).
  { rewrite <- Z.pow_add_r by lia. f_equal. lia. }
  assert (Hms : shr_m mrs' <= (2 ^ 53 - 1) * 2 ^ (- e1 - 53)).
  { rewrite Hm. apply Z.div_le_upper_bound; [lia|]. rewrite Hle, Hsplit. lia. }
  assert (Hms0 : 0 <= shr_m mrs') by (rewrite Hm; apply Z.div_pos; lia).
  set (m1 := round_nearest_even (shr_m mrs') (loc_of_shr_record mrs')).
  assert (Hm1 : 0 <= m1 < 2 ^ (- e1)).
  { split; [apply round_nearest_even_nonneg; exact Hms0|].
    pose proof (round_nearest_even_le (shr_m mrs') (loc_of_shr_record mrs')) as Hup.
    fold m1 in Hup. rewrite Hpow1.
    destruct (Z.lt_ge_cases (shr_m mrs' + 1) (2 ^ 53 * 2 ^ (- e1 - 53))) as [Hlt|Hge];
      [lia|].
    (* the boundary case: the quotient is exact *)
    assert (HA : 2 ^ (- e1 - 53) = 1) by nia.
    assert (Hmsv : shr_m mrs' = 2 ^ 53 - 1) by nia.
    assert (Hqv : q = (2 ^ 53 - 1) * 2 ^ (- e - 53)).
    { rewrite Hsplit, HA. pose proof (Z.mul_div_le q (2 ^ K) HT0) as Hd.
      rewrite <- Hm, Hmsv in Hd. rewrite Hsplit, HA in Hle. lia. }
    specialize (Hexact Hqv). subst l. cbn [shr_record_of_loc shr_r shr_s] in Hx.
    destruct Hx as [Hr0 Hs0]; [reflexivity|reflexivity| |].
    { rewrite Hqv, Hsplit, HA. rewrite Z.mul_1_l. apply Z.mod_mul. lia. }
    subst m1. destruct mrs' as [m' r' s']. cbn [shr_r shr_s shr_m] in *.
    subst r' s'. cbn [loc_of_shr_record round_nearest_even]. lia. }
  (* second shift *)
  set (n2 := fexp prec emax (Zdigits2 m1 + e1) - e1).
  assert (Hd1 : Zdigits2 m1 <= - e1) by (apply Zdigits2_le; lia).
  pose proof (fexp_below (Zdigits2 m1 + e1) ltac:(lia)) as Hf2.
  pose proof (shr_spec (shr_record_of_loc m1 loc_Exact) e1 n2) as Hs2.
  rewrite shr_record_of_loc_m in Hs2. specialize (Hs2 (proj1 Hm1)).
  destruct (shr (shr_record_of_loc m1 loc_Exact) e1 n2) as [mrs'' e2].
  cbn [fst snd] in Hs2. destruct Hs2 as (He2 & Hm2 & _).
  set (K2 := Z.max n2 0) in *.
  assert (He2' : e2 <= -53) by (subst n2 K2; lia).
  assert (HT2 : 0 < 2 ^ K2) by (apply Z.pow_pos_nonneg; lia).
  assert (Hm2' : 0 <= shr_m mrs'' < 2 ^ (- e2)).
  { rewrite Hm2. split; [apply Z.div_pos; lia|].
    apply Z.div_lt_upper_bound; [lia|].
    rewrite <- Z.pow_add_r by lia. replace (K2 + - e2) with (- e1) by lia. lia. }
  destruct (shr_m mrs'') as [|m|m]; [reflexivity| |lia].
  change (emax - prec) with 971.
  replace (e2 <=? 971) with true by (symmetry; apply Z.leb_le; lia).
  cbn [Py.floor cond_Zopp]. f_equal.
  rewrite Z.shiftl_div_pow2 by lia. apply Z.div_small. lia.
Qed.

Lemma bounded_facts m e :
  bounded prec emax m e = true ->
  Zpos (digits2_pos m) <= 53 /\ -1074 <= e /\
  (-1074 < e -> Zpos (digits2_pos m) = 53).
Proof.
  unfold bounded, canonical_mantissa. intros [H _]%andb_prop.
  apply Z.eqb_eq in H. revert H.
  unfold fexp, SpecFloat.emin, prec, emax. lia.
Qed.

Lemma new_location_zero nb : new_location nb 0 = loc_Exact.
Proof.
  unfold new_location, new_location_even, new_location_odd.
  destruct (Z.even nb); reflexivity.
Qed.

(** A binary64 number divided by a larger one rounds to a quotient below
    one: the quotient is at most [1 - 2^-53], which is itself a binary64
    number. *)
Lemma SFdiv_below_one mx ex my ey :
  bounded prec emax mx ex = true ->
  bounded prec emax my ey = true ->
  ex < ey \/ (ex = ey /\ (mx < my)%positive) ->
  Py.floor (SF64div (S754_finite false mx ex) (S754_finite false my ey)) = Ok 0.
Proof.
  intros Hx Hy Hlt.
  destruct (bounded_facts mx ex Hx) as (Hd1 & Hex & _).
  destruct (bounded_facts my ey Hy) as (Hd2 & Hey & Hn2).
  pose proof (digits2_bounds mx) as [Hlo1 Hhi1].
  pose proof (digits2_bounds my) as [Hlo2 Hhi2].
  unfold SF64div, SFdiv, SFdiv_core_binary. cbn [Zdigits2 xorb].
  set (d1 := Zpos (digits2_pos mx)) in *.
  set (d2 := Zpos (digits2_pos my)) in *.
  assert (Hmx : Zpos mx < 2 ^ 53).
  { apply Z.lt_le_trans with (2 ^ d1); [exact Hhi1|].
    apply Z.pow_le_mono_r; lia. }
  assert (Hmy : Zpos my < 2 ^ 53).
  { apply Z.lt_le_trans with (2 ^ d2); [exact Hhi2|].
    apply Z.pow_le_mono_r; lia. }
  assert (HD : d1 + ex - (d2 + ey) <= 0).
  { destruct Hlt as [Hlt|[-> Hlt]].
    - assert (d2 = 53) by (apply Hn2; lia). lia.
    - assert (d1 - 1 < d2); [|lia].
      apply (Z.pow_lt_mono_r_iff 2); [lia|lia|]. lia. }
  pose proof (fexp_below _ HD) as Hf.
  set (e' := Z.min (fexp prec emax (d1 + ex - (d2 + ey))) (ex - ey)).
  assert (He' : e' <= -53) by (subst e'; lia).
  assert (Hs : 0 <= ex - ey - e') by (subst e'; lia).
  set (s := ex - ey - e') in *.
  set (m' := match s with
             | 0 => Zpos mx
             | Zpos _ => Z.shiftl (Zpos mx) s
             | Zneg _ => 0
             end).
  assert (Hm' : m' = Zpos mx * 2 ^ s).
  { subst m'. destruct s as [|p|p] eqn:Es; [lia| |lia].
    rewrite Z.shiftl_mul_pow2 by lia. reflexivity. }
  assert (HA0 : 0 < 2 ^ (- e' - 53)) by (apply Z.pow_pos_nonneg; lia).
  assert (HK : m' <= Zpos my * ((2 ^ 53 - 1) * 2 ^ (- e' - 53))).
  { rewrite Hm'. destruct Hlt as [Hlt|[Heq Hlt]].
    - assert (Hd2' : d2 = 53) by (apply Hn2; lia).
      rewrite Hd2' in Hlo2. change (2 ^ (53 - 1)) with (2 ^ 52) in Hlo2.
      assert (Hs1 : 2 ^ s <= 2 ^ 52 * 2 ^ (- e' - 53)).
      { rewrite <- Z.pow_add_r by lia. apply Z.pow_le_mono_r; lia. }
      assert (0 < 2 ^ s) by (apply Z.pow_pos_nonneg; lia).
      nia.
    - assert (Hs1 : 2 ^ s = 2 ^ 53 * 2 ^ (- e' - 53)).
      { rewrite <- Z.pow_add_r by lia. f_equal. lia. }
      rewrite Hs1. apply Pos2Z.pos_lt_pos in Hlt. nia. }
  pose proof (Z_div_mod m' (Zpos my) eq_refl) as Hdm.
  destruct (Z.div_eucl m' (Zpos my)) as [q r]. destruct Hdm as [Hdiv Hr].
  assert (Hm0 : 0 <= m').
  { rewrite Hm'. assert (0 < 2 ^ s) by (apply Z.pow_pos_nonneg; lia). nia. }
  apply binary_round_aux_below_one.
  - nia.
  - exact He'.
  - nia.
  - intros Hq. assert (r = 0) as -> by nia. apply new_location_zero.
Qed.

End RoundingBelowOne.

(** A quantity that is not positive quantizes to [0.0], whatever the step. *)
Lemma quantize_qty_nonpositive cfg (qty : Py.float) :
  Py.le qty f0 = true -> quantize_qty cfg qty = Ok f0.
Proof. unfold quantize_qty. intros ->. reflexivity. Qed.

(** ** [quantize_qty]: shape and sign of the result *)

Section Quantize.

Variable cfg : config.

Lemma quantize_qty_positive qty :
  Py.le qty f0 = false ->
  quantize_qty cfg qty =
    (q ← Py.truediv qty (QTY_STEP cfg);
     steps ← Py.floor q;
     fsteps ← Py.float_of_int steps;
     Ok (Py.round (Py.mul fsteps (QTY_STEP cfg)) 6)).
Proof. unfold quantize_qty. intros ->. reflexivity. Qed.

(** A result that went through the division is the 6-digit rounding of a
    whole number of steps. *)
Lemma quantize_qty_steps qty r :
  Py.le qty f0 = false ->
  quantize_qty cfg qty = Ok r ->
  exists q steps fsteps,
    Py.truediv qty (QTY_STEP cfg) = Ok q /\
    Py.floor q = Ok steps /\
    Py.float_of_int steps = Ok fsteps /\
    r = Py.round (Py.mul fsteps (QTY_STEP cfg)) 6.
Proof.
  intros Hle. rewrite (quantize_qty_positive qty Hle).
  destruct (Py.truediv qty (QTY_STEP cfg)) as [q|] eqn:Hq; [|discriminate].
  cbn [mbind result_bind].
  destruct (Py.floor q) as [steps|] eqn:Hs; [|discriminate].
  cbn [mbind result_bind].
  destruct (Py.float_of_int steps) as [fsteps|] eqn:Hf; [|discriminate].
  cbn [mbind result_bind]. intros [= <-].
  exists q, steps, fsteps. repeat split; assumption.
Qed.

Lemma has_sign_total x :
  Py.is_finite x = true -> exists s, Py.has_sign s x = true.
Proof.
  destruct x as [s|s| |s m e]; try discriminate; intros _; exists s;
    cbn; apply Bool.eqb_reflx.
Qed.

(** With a finite step the result is never a NaN. *)
Lemma quantize_qty_not_nan qty r :
  Py.is_finite (QTY_STEP cfg) = true ->
  quantize_qty cfg qty = Ok r ->
  exists s, Py.has_sign s r = true.
Proof.
  intros Hstep Hr. destruct (Py.le qty f0) eqn:Hle.
  { rewrite (quantize_qty_nonpositive _ _ Hle) in Hr. injection Hr as <-.
    exists false. reflexivity. }
  destruct (quantize_qty_steps qty r Hle Hr) as (q & steps & fsteps & _ & _ & Hf & ->).
  destruct (float_of_int_finite _ _ Hf) as [Hfin Hsign].
  destruct (has_sign_total _ Hstep) as [s Hs].
  exists (xorb (steps <? 0) s). apply round_sign.
  apply SFmul_finite_sign; assumption.
Qed.

(** With a finite step above zero the steps are counted from zero up and
    the result carries no minus sign. *)
Lemma quantize_qty_steps_nonneg qty q steps :
  Py.is_positive_finite (QTY_STEP cfg) = true ->
  Py.le qty f0 = false ->
  Py.truediv qty (QTY_STEP cfg) = Ok q ->
  Py.floor q = Ok steps ->
  0 <= steps.
Proof.
  intros Hstep Hle Hq Hs. unfold Py.truediv in Hq.
  destruct (QTY_STEP cfg) as [| | |[] my ey]; try discriminate.
  cbn in Hq. injection Hq as <-.
  destruct qty as [sx|[]| |[] mx ex]; try discriminate.
  - apply (floor_nonneg _ _ (SFdiv_finite_sign false mx ex false my ey) Hs).
Qed.

Lemma quantize_qty_sign qty r :
  Py.is_positive_finite (QTY_STEP cfg) = true ->
  quantize_qty cfg qty = Ok r ->
  Py.has_sign false r = true.
Proof.
  intros Hstep Hr. destruct (Py.le qty f0) eqn:Hle.
  { rewrite (quantize_qty_nonpositive _ _ Hle) in Hr. injection Hr as <-.
    reflexivity. }
  destruct (quantize_qty_steps qty r Hle Hr) as (q & steps & fsteps & Hq & Hs & Hf & ->).
  pose proof (quantize_qty_steps_nonneg qty q steps Hstep Hle Hq Hs) as Hk.
  destruct (float_of_int_finite _ _ Hf) as [Hfin Hsign].
  replace (steps <? 0) with false in Hsign by (symmetry; apply Z.ltb_ge; exact Hk).
  apply round_sign. change false with (xorb false false).
  apply SFmul_finite_sign; try assumption.
  - destruct (QTY_STEP cfg) as [| | |[] ? ?]; try discriminate. reflexivity.
  - destruct (QTY_STEP cfg) as [| | |[] ? ?]; try discriminate. reflexivity.
Qed.

Lemma quantize_qty_below_step qty :
  valid_binary qty = true ->
  valid_binary (QTY_STEP cfg) = true ->
  Py.is_positive_finite (QTY_STEP cfg) = true ->
  Py.lt qty (QTY_STEP cfg) = true ->
  quantize_qty cfg qty = Ok f0.
Proof.
  intros Hvx Hvy Hstep Hlt. destruct (Py.le qty f0) eqn:Hle.
  { apply quantize_qty_nonpositive. exact Hle. }
  rewrite (quantize_qty_positive qty Hle).
  destruct (QTY_STEP cfg) as [| | |[] my ey]; try discriminate.
  destruct qty as [sx|[]| |[] mx ex]; try discriminate.
  cbn [valid_binary] in Hvx, Hvy.
  assert (Hcmp : ex < ey \/ (ex = ey /\ (mx < my)%positive)).
  { unfold Py.lt, SFltb in Hlt. cbn [SFcompare] in Hlt.
    destruct (Z.compare_spec ex ey) as [Heq|Hlt'|Hgt]; [|left; exact Hlt'|discriminate].
    right. split; [exact Heq|].
    change (Pos.compare_cont Eq mx my) with (mx ?= my)%positive in Hlt.
    destruct (mx ?= my)%positive eqn:Hc; try discriminate.
    apply Pos.compare_lt_iff. exact Hc. }
  unfold Py.truediv. cbn [SFeqb SFcompare Py.zero]. cbn [mbind result_bind].
  rewrite (SFdiv_below_one mx ex my ey Hvx Hvy Hcmp). reflexivity.
Qed.

(** C3 (amended): for a finite step above zero, [quantize_qty] returns
    [0.0] when the quantity is [<= 0]; otherwise it divides by the step,
    takes the floor, which is a whole number of steps counted from zero up,
    multiplies it by the step and rounds to 6 decimals, all in binary64,
    and raises when the quotient is a NaN or an infinity.  A result carries
    no minus sign, and it is [0.0] whenever the quantity is below the step.
    Nothing is claimed on the result being a multiple of the step or at
    most the quantity. *)
Theorem C3_quantize_qty_counts_whole_steps qty :
  Py.is_positive_finite (QTY_STEP cfg) = true ->
  (Py.le qty f0 = true -> quantize_qty cfg qty = Ok f0) /\
  (Py.le qty f0 = false ->
   quantize_qty cfg qty =
     (q ← Py.truediv qty (QTY_STEP cfg);
      steps ← Py.floor q;
      fsteps ← Py.float_of_int steps;
      Ok (Py.round (Py.mul fsteps (QTY_STEP cfg)) 6)) /\
   forall q steps,
     Py.truediv qty (QTY_STEP cfg) = Ok q -> Py.floor q = Ok steps ->
     0 <= steps) /\
  (forall r, quantize_qty cfg qty = Ok r -> Py.le f0 r = true) /\
  (valid_binary qty = true -> valid_binary (QTY_STEP cfg) = true ->
   Py.lt qty (QTY_STEP cfg) = true -> quantize_qty cfg qty = Ok f0).
Proof.
  intros Hstep. split; [apply quantize_qty_nonpositive|]. split.
  { intros Hle. split; [apply quantize_qty_positive; exact Hle|].
    intros q steps. apply quantize_qty_steps_nonneg; assumption. }
  split.
  { intros r Hr. apply has_sign_false_nonneg.
    apply (quantize_qty_sign qty r Hstep Hr). }
  intros Hvx Hvy. apply quantize_qty_below_step; assumption.
Qed.

End Quantize.

(** Unfolds the monadic plumbing, leaving the arithmetic folded. *)
(** With the interval of a configuration, [time.sleep] returns. *)
Lemma sleep_emit (cfg : accepted_config) :
  sleep cfg = emit (Sleep (POLL_INTERVAL_SECONDS cfg)).
Proof.
  unfold sleep, mbind, M_bind, lift. rewrite (interval_accepted cfg).
  reflexivity.
Qed.

Ltac run_monad :=
  repeat (progress (rewrite ?sleep_emit in *;
                    unfold mbind, M_bind, mret, M_ret, lift, attempt, emit,
                    print, send_telegram in *;
                    cbn beta iota zeta delta [db trace fst snd] in *)).

Ltac flatten_trace :=
  repeat rewrite <- app_assoc; cbn beta iota zeta delta [app].

(** ** Invariants of the monad, step by step *)

Section Invariants.

Context {A B : Type}.
Variable P : event -> Prop.

Lemma emits_ret (a : A) : emits P (mret a : M A).
Proof. intros w. exists []. rewrite app_nil_r. split; [reflexivity|constructor]. Qed.

Lemma emits_lift (r : result A) : emits P (lift r).
Proof. intros w. exists []. rewrite app_nil_r. split; [reflexivity|constructor]. Qed.

Lemma emits_emit (ev : event) : P ev -> emits P (emit ev).
Proof.
  intros H w. exists [ev]. split; [reflexivity|]. constructor; [exact H|constructor].
Qed.

Lemma emits_attempt (m : M A) : emits P m -> emits P (attempt m).
Proof.
  intros H w. destruct (H w) as (evs & Ht & Hf). exists evs.
  unfold attempt. destruct (m w) as [r w']. split; assumption.
Qed.

Lemma emits_bind (m : M A) (k : A -> M B) :
  emits P m -> (forall a, emits P (k a)) -> emits P (m ≫= k).
Proof.
  intros Hm Hk w. destruct (Hm w) as (evs & Ht & Hf).
  rewrite run_bind. destruct (m w) as [[a|e] w1]; cbn in Ht.
  - destruct (Hk a w1) as (evs' & Ht' & Hf'). exists (evs ++ evs').
    rewrite Ht', Ht, app_assoc. split; [reflexivity|].
    apply Forall_app. split; assumption.
  - exists evs. split; assumption.
Qed.

Lemma keeps_ret (a : A) : keeps_rows (mret a : M A).
Proof. intros w k H. exact H. Qed.

Lemma keeps_lift (r : result A) : keeps_rows (lift r).
Proof. intros w k H. exact H. Qed.

Lemma keeps_emit (ev : event) : keeps_rows (emit ev).
Proof. intros w k H. exact H. Qed.

Lemma keeps_attempt (m : M A) : keeps_rows m -> keeps_rows (attempt m).
Proof.
  intros H w k Hk. specialize (H w k Hk). unfold attempt.
  destruct (m w) as [r w']. exact H.
Qed.

Lemma keeps_bind (m : M A) (k : A -> M B) :
  keeps_rows m -> (forall a, keeps_rows (k a)) -> keeps_rows (m ≫= k).
Proof.
  intros Hm Hk w key Hkey. specialize (Hm w key Hkey).
  rewrite run_bind. destruct (m w) as [[a|e] w1]; cbn in Hm.
  - apply Hk. exact Hm.
  - exact Hm.
Qed.

End Invariants.

Lemma emits_get_base_price P outside symbol :
  emits P (get_base_price outside symbol).
Proof.
  intros w. exists []. rewrite app_nil_r. unfold get_base_price.
  destruct (db_read_fault outside); split; first [reflexivity|constructor].
Qed.

Lemma emits_set_base_price (P : event -> Prop) outside symbol price :
  P (DbUpsert symbol price) -> emits P (set_base_price outside symbol price).
Proof.
  intros H w. exists [DbUpsert symbol price]. unfold set_base_price.
  destruct (db_write_fault outside); (split; [reflexivity|]);
    (constructor; [exact H|constructor]).
Qed.

Lemma keeps_get_base_price outside symbol :
  keeps_rows (get_base_price outside symbol).
Proof.
  intros w k H. unfold get_base_price. destruct (db_read_fault outside); exact H.
Qed.

Lemma keeps_set_base_price outside symbol price :
  keeps_rows (set_base_price outside symbol price).
Proof.
  intros w k H. unfold set_base_price. destruct (db_write_fault outside); cbn.
  - exact H.
  - destruct (decide (symbol = k)) as [->|Hne].
    + rewrite lookup_insert_eq. eexists. reflexivity.
    + rewrite lookup_insert_ne by exact Hne. exact H.
Qed.

Section BotFacts.

Variable float_of_str : string -> option Py.float.
Variable cfg : accepted_config.
Variable outside : env.

(** *** The order gateway *)

Lemma place_market_order_run s qty w :
  place_market_order cfg outside s qty w =
  match quantize_qty cfg qty with
  | Raise e => (Raise e, w)
  | Ok qty_adj =>
      if Py.le qty_adj f0 then (Raise (RuntimeError "qty_adj <= 0"), w)
      else
        let w' := World (db w) (trace w ++ [Print (LogOrder s qty_adj);
                                            PlaceOrder s qty_adj]) in
        match order outside s qty_adj with
        | Raise e => (Raise e, w')
        | Ok retCode =>
            if negb (retCode =? 0) then (Raise (RuntimeError "order"), w')
            else (Ok retCode, w')
        end
  end.
Proof.
  unfold place_market_order. run_monad.
  destruct (quantize_qty cfg qty) as [q|e]; [|reflexivity].
  destruct (Py.le q f0); [reflexivity|]. run_monad. flatten_trace.
  destruct (order outside s q) as [rc|e]; [|reflexivity].
  destruct (negb (rc =? 0)); reflexivity.
Qed.

Lemma take_profit_run price sol_total base_price pct w :
  take_profit cfg outside price sol_total base_price pct w =
  match place_market_order cfg outside Sell sol_total w with
  | (Raise e, w1) =>
      (Ok tt, World (db w1) (trace w1 ++ [Print (LogErrSell e)]))
  | (Ok _, w1) =>
      let msg := MsgTakeProfit sol_total price base_price pct in
      (Ok tt,
       World (db_after_write outside (db w1) price)
             (trace w1 ++ [Print (LogTP msg); Telegram msg;
                           DbUpsert SYMBOL price]
                ++ write_error_line outside LogErrDbTP))
  end.
Proof.
  unfold take_profit, db_after_write, write_error_line. run_monad.
  destruct (place_market_order cfg outside Sell sol_total w) as [[rc|e] w1];
    [|reflexivity].
  run_monad. unfold set_base_price. run_monad.
  destruct (db_write_fault outside); run_monad; flatten_trace; reflexivity.
Qed.

Lemma dip_buy_run price usdt_available base_price pct w :
  dip_buy cfg outside price usdt_available base_price pct w =
  if Py.lt usdt_available (ORDER_USDT cfg) then
    (Ok tt,
     World (db w)
           (trace w ++ [Print (LogWarnNoFunds usdt_available (ORDER_USDT cfg));
                        Telegram (MsgNoFunds usdt_available (ORDER_USDT cfg))]))
  else
    match Py.truediv (ORDER_USDT cfg) price with
    | Raise e => (Raise e, w)
    | Ok est_qty =>
        match quantize_qty cfg est_qty with
        | Raise e => (Raise e, w)
        | Ok qty =>
            match place_market_order cfg outside Buy qty w with
            | (Raise e, w1) =>
                (Ok tt, World (db w1) (trace w1 ++ [Print (LogErrBuy e)]))
            | (Ok _, w1) =>
                let msg := MsgDipBuy qty price base_price pct price in
                (Ok tt,
                 World (db_after_write outside (db w1) price)
                       (trace w1 ++ [DbUpsert SYMBOL price]
                          ++ write_error_line outside LogErrDbBuy
                          ++ [Print (LogBuy msg); Telegram msg]))
            end
        end
    end.
Proof.
  unfold dip_buy, db_after_write, write_error_line.
  destruct (Py.lt usdt_available (ORDER_USDT cfg)).
  { run_monad. flatten_trace. reflexivity. }
  run_monad.
  destruct (Py.truediv (ORDER_USDT cfg) price) as [est|e]; [|reflexivity].
  destruct (quantize_qty cfg est) as [qty|e]; [|reflexivity].
  destruct (place_market_order cfg outside Buy qty w) as [[rc|e] w1];
    [|reflexivity].
  run_monad. unfold set_base_price. run_monad.
  destruct (db_write_fault outside); run_monad; flatten_trace; reflexivity.
Qed.

(** *** The loop body, branch by branch *)

Lemma tick_fetch_error w e :
  fetch float_of_str outside SYMBOL = Raise e ->
  tick float_of_str cfg outside w =
  (Ok tt, World (db w) (trace w ++ [Print (LogErrFetch e);
                                    Sleep (POLL_INTERVAL_SECONDS cfg)])).
Proof.
  intros Hf. unfold tick. run_monad. rewrite Hf. run_monad.
  flatten_trace. reflexivity.
Qed.

Lemma tick_no_reference w price sol_total usdt_available :
  fetch float_of_str outside SYMBOL = Ok (price, (sol_total, usdt_available)) ->
  db_read_fault outside = None ->
  db w !! SYMBOL = None ->
  tick float_of_str cfg outside w = calibrated cfg outside w price [].
Proof.
  intros Hf Hr Hdb. unfold tick, calibrated, db_after_write, write_error_line.
  run_monad. rewrite Hf. unfold get_base_price. rewrite Hr, Hdb.
  unfold set_base_price. run_monad.
  destruct (db_write_fault outside); run_monad; flatten_trace; reflexivity.
Qed.

Lemma tick_read_fault w price sol_total usdt_available e :
  fetch float_of_str outside SYMBOL = Ok (price, (sol_total, usdt_available)) ->
  db_read_fault outside = Some e ->
  tick float_of_str cfg outside w =
  calibrated cfg outside w price [Print (LogErrDbRead e)].
Proof.
  intros Hf Hr. unfold tick, calibrated, db_after_write, write_error_line.
  run_monad. rewrite Hf. unfold get_base_price. rewrite Hr.
  unfold set_base_price. run_monad.
  destruct (db_write_fault outside); run_monad; flatten_trace; reflexivity.
Qed.

Lemma tick_reference w price sol_total usdt_available base_price :
  fetch float_of_str outside SYMBOL = Ok (price, (sol_total, usdt_available)) ->
  db_read_fault outside = None ->
  db w !! SYMBOL = Some base_price ->
  tick float_of_str cfg outside w =
  match change_pct price base_price with
  | Raise e => (Raise e, w)
  | Ok pct =>
      trade cfg outside price sol_total usdt_available base_price pct
        (World (db w)
           (trace w ++ [Print (LogState price base_price pct sol_total
                                 (position_value sol_total price)
                                 usdt_available)]))
  end.
Proof.
  intros Hf Hr Hdb. unfold tick. run_monad. rewrite Hf.
  unfold get_base_price. rewrite Hr, Hdb. run_monad.
  destruct (change_pct price base_price); reflexivity.
Qed.

(** *** The balance reader *)

Lemma safe_float_absent : safe_float float_of_str VNone = Ok f0.
Proof. reflexivity. Qed.

Lemma safe_float_blank s :
  Py.strip s = "" -> safe_float float_of_str (VStr s) = Ok f0.
Proof. intros H. unfold safe_float. cbn [Py.str]. rewrite H. reflexivity. Qed.

Lemma safe_float_malformed s :
  float_of_str (Py.strip s) = None -> safe_float float_of_str (VStr s) = Ok f0.
Proof.
  intros H. unfold safe_float. cbn [Py.str].
  destruct (decide (Py.strip s = "")); [reflexivity|].
  cbn [Py.to_float]. rewrite H. reflexivity.
Qed.

Lemma safe_float_parsed s x :
  Py.strip s <> "" -> float_of_str (Py.strip s) = Some x ->
  safe_float float_of_str (VStr s) = Ok x.
Proof.
  intros Hne H. unfold safe_float. cbn [Py.str].
  destruct (decide (Py.strip s = "")); [contradiction|].
  cbn [Py.to_float]. rewrite H. reflexivity.
Qed.

Lemma balances_loop_raise e entries :
  balances_loop float_of_str (Raise e) entries = Raise e.
Proof. induction entries as [|d l IH]; [reflexivity|exact IH]. Qed.

Lemma balances_accounts acc accounts :
  foldl (fun r acct => acc' ← r; balances_acct float_of_str acc' acct) acc accounts
  = balances_loop float_of_str acc (concat (map (default []) accounts)).
Proof.
  revert acc. induction accounts as [|a l IH]; intros acc; [reflexivity|].
  cbn [foldl map concat]. rewrite IH. unfold balances_loop at 2.
  rewrite foldl_app. unfold balances_loop. f_equal.
  destruct acc as [acc|e]; [reflexivity|].
  cbn [mbind result_bind]. symmetry. apply balances_loop_raise.
Qed.

Lemma balances_coin_ok acc d :
  entry_ok float_of_str d ->
  balances_coin float_of_str acc d =
  Ok (last_field float_of_str "SOL" "walletBalance" acc.1 [d],
      last_field float_of_str "USDT" "availableToWithdraw" acc.2 [d]).
Proof.
  intros ([c Hc] & Hw & Ha). unfold balances_coin, last_field, last_entry.
  cbn [List.filter]. rewrite Hc. change (default VNone (Some c)) with c.
  assert (Hdisjoint : Py.eq_str c "SOL" = true -> Py.eq_str c "USDT" = false).
  { destruct c; try discriminate. cbn. intros H.
    apply bool_decide_eq_true in H. subst. reflexivity. }
  destruct (safe_float float_of_str (default VNone (d !! "walletBalance")))
    as [wb|] eqn:Ewb; [|discriminate].
  destruct (safe_float float_of_str (default VNone (d !! "availableToWithdraw")))
    as [av|] eqn:Eav; [|discriminate].
  cbn [mbind result_bind].
  destruct (Py.eq_str c "SOL").
  - rewrite (Hdisjoint eq_refl). cbn [last]. rewrite Ewb. reflexivity.
  - destruct (Py.eq_str c "USDT"); cbn [last]; rewrite ?Eav;
      destruct acc; reflexivity.
Qed.

Lemma last_field_cons name field init d l :
  last_field float_of_str name field init (d :: l)
  = last_field float_of_str name field
      (last_field float_of_str name field init [d]) l.
Proof.
  unfold last_field, last_entry. cbn [List.filter].
  destruct (Py.eq_str (default VNone (d !! "coin")) name).
  - destruct (List.filter _ l) as [|d' l'] eqn:Hl; [reflexivity|].
    rewrite last_cons. destruct (last (d' :: l')) eqn:Hlast; [reflexivity|].
    apply last_None in Hlast. discriminate.
  - reflexivity.
Qed.

Lemma balances_loop_ok acc entries :
  Forall (entry_ok float_of_str) entries ->
  balances_loop float_of_str (Ok acc) entries =
  Ok (last_field float_of_str "SOL" "walletBalance" acc.1 entries,
      last_field float_of_str "USDT" "availableToWithdraw" acc.2 entries).
Proof.
  intros H. revert acc. induction H as [|d l Hd Hl IH]; intros acc.
  - destruct acc. reflexivity.
  - unfold balances_loop. cbn [foldl mbind result_bind].
    rewrite (balances_coin_ok acc d Hd).
    match goal with |- foldl ?f ?a l = _ =>
      change (foldl f a l) with (balances_loop float_of_str a l) end.
    rewrite IH. cbn [fst snd].
    rewrite (last_field_cons "SOL" _ _ d l), (last_field_cons "USDT" _ _ d l).
    reflexivity.
Qed.


(** *** What every tick preserves *)

Lemma tick_keeps_rows : keeps_rows (tick float_of_str cfg outside).
Proof.
  unfold tick, trade, take_profit, dip_buy, place_market_order, print,
    send_telegram.
  rewrite !sleep_emit.
  repeat first
    [ apply keeps_bind; [|intros ?]
    | apply keeps_attempt
    | apply keeps_lift
    | apply keeps_ret
    | apply keeps_emit
    | apply keeps_get_base_price
    | apply keeps_set_base_price
    | progress cbn zeta
    | match goal with
      | |- keeps_rows (match ?x with _ => _ end) => destruct x
      end ].
Qed.

Lemma place_market_order_quantized s qty :
  emits (order_quantized cfg) (place_market_order cfg outside s qty).
Proof.
  intros w. rewrite place_market_order_run.
  destruct (quantize_qty cfg qty) as [q|e] eqn:Hq.
  2:{ exists []. rewrite app_nil_r. split; [reflexivity|constructor]. }
  destruct (Py.le q f0) eqn:Hle.
  { exists []. rewrite app_nil_r. split; [reflexivity|constructor]. }
  exists [Print (LogOrder s q); PlaceOrder s q]. split.
  - cbn zeta. destruct (order outside s q) as [rc|e]; [|reflexivity].
    destruct (negb (rc =? 0)); reflexivity.
  - constructor; [exact I|]. constructor; [|constructor].
    split; [exact Hle|]. exists qty. exact Hq.
Qed.

Lemma tick_orders_quantized :
  emits (order_quantized cfg) (tick float_of_str cfg outside).
Proof.
  unfold tick, trade, take_profit, dip_buy, print, send_telegram.
  rewrite !sleep_emit.
  repeat first
    [ apply place_market_order_quantized
    | apply emits_bind; [|intros ?]
    | apply emits_attempt
    | apply emits_lift
    | apply emits_ret
    | apply emits_emit; exact I
    | apply emits_get_base_price
    | apply emits_set_base_price; exact I
    | progress cbn zeta
    | match goal with
      | |- emits _ (match ?x with _ => _ end) => destruct x
      end ].
Qed.

(** The shape of a tick that read a price, balances and a base price. *)
Section Priced.

Variables (w : world) (price sol_total usdt_available base_price pct : Py.float).

Hypothesis Hfetch :
  fetch float_of_str outside SYMBOL = Ok (price, (sol_total, usdt_available)).
Hypothesis Hread : db_read_fault outside = None.
Hypothesis Hbase : db w !! SYMBOL = Some base_price.
Hypothesis Hpct : change_pct price base_price = Ok pct.

Local Abbreviation state_line :=
  (state_line price sol_total usdt_available base_price pct).

Lemma tick_trade :
  tick float_of_str cfg outside w =
  trade cfg outside price sol_total usdt_available base_price pct
        (World (db w) (trace w ++ [state_line])).
Proof. rewrite (tick_reference _ _ _ _ _ Hfetch Hread Hbase), Hpct. reflexivity. Qed.

Lemma tick_wait_in_position :
  has_position cfg sol_total price = true ->
  Py.ge price (tp_level cfg base_price) = false ->
  tick float_of_str cfg outside w =
  (Ok tt, World (db w) (trace w ++ [state_line; Sleep (POLL_INTERVAL_SECONDS cfg)])).
Proof.
  intros Hpos Htp. rewrite tick_trade. unfold trade. rewrite Hpos, Htp.
  run_monad. flatten_trace. reflexivity.
Qed.

Lemma tick_wait_flat :
  has_position cfg sol_total price = false ->
  Py.le price (dip_level cfg base_price) = false ->
  tick float_of_str cfg outside w =
  (Ok tt, World (db w) (trace w ++ [state_line; Sleep (POLL_INTERVAL_SECONDS cfg)])).
Proof.
  intros Hpos Hdip. rewrite tick_trade. unfold trade. rewrite Hpos, Hdip.
  run_monad. flatten_trace. reflexivity.
Qed.

Lemma tick_no_funds :
  has_position cfg sol_total price = false ->
  Py.le price (dip_level cfg base_price) = true ->
  Py.lt usdt_available (ORDER_USDT cfg) = true ->
  tick float_of_str cfg outside w =
  (Ok tt,
   World (db w)
         (trace w ++ [state_line;
                      Print (LogWarnNoFunds usdt_available (ORDER_USDT cfg));
                      Telegram (MsgNoFunds usdt_available (ORDER_USDT cfg));
                      Sleep (POLL_INTERVAL_SECONDS cfg)])).
Proof.
  intros Hpos Hdip Hfunds. rewrite tick_trade. unfold trade.
  rewrite Hpos, Hdip. run_monad. rewrite dip_buy_run, Hfunds.
  run_monad. flatten_trace. reflexivity.
Qed.

(** The take-profit branch, by what the order gateway answers. *)
Lemma tick_sell qty_adj :
  has_position cfg sol_total price = true ->
  Py.ge price (tp_level cfg base_price) = true ->
  quantize_qty cfg sol_total = Ok qty_adj ->
  Py.le qty_adj f0 = false ->
  tick float_of_str cfg outside w =
  let submitted := [state_line; Print (LogOrder Sell qty_adj);
                    PlaceOrder Sell qty_adj] in
  let failed e :=
    (Ok tt, World (db w)
              (trace w ++ submitted ++ [Print (LogErrSell e);
                                        Sleep (POLL_INTERVAL_SECONDS cfg)])) in
  match order outside Sell qty_adj with
  | Raise e => failed e
  | Ok retCode =>
      if negb (retCode =? 0) then failed (RuntimeError "order")
      else
        let msg := MsgTakeProfit sol_total price base_price pct in
        (Ok tt,
         World (db_after_write outside (db w) price)
               (trace w ++ submitted
                  ++ [Print (LogTP msg); Telegram msg; DbUpsert SYMBOL price]
                  ++ write_error_line outside LogErrDbTP
                  ++ [Sleep (POLL_INTERVAL_SECONDS cfg)]))
  end.
Proof.
  intros Hpos Htp Hq Hle. rewrite tick_trade. unfold trade.
  rewrite Hpos, Htp. run_monad.
  rewrite take_profit_run, place_market_order_run, Hq, Hle.
  cbn beta iota zeta.
  destruct (order outside Sell qty_adj) as [rc|e].
  - destruct (negb (rc =? 0)); run_monad; flatten_trace; reflexivity.
  - run_monad. flatten_trace. reflexivity.
Qed.

(** The dip-buy branch with enough funds, by what the gateway answers. *)
Lemma tick_buy est_qty qty qty_adj :
  has_position cfg sol_total price = false ->
  Py.le price (dip_level cfg base_price) = true ->
  Py.lt usdt_available (ORDER_USDT cfg) = false ->
  Py.truediv (ORDER_USDT cfg) price = Ok est_qty ->
  quantize_qty cfg est_qty = Ok qty ->
  quantize_qty cfg qty = Ok qty_adj ->
  Py.le qty_adj f0 = false ->
  tick float_of_str cfg outside w =
  let submitted := [state_line; Print (LogOrder Buy qty_adj);
                    PlaceOrder Buy qty_adj] in
  let failed e :=
    (Ok tt, World (db w)
              (trace w ++ submitted ++ [Print (LogErrBuy e);
                                        Sleep (POLL_INTERVAL_SECONDS cfg)])) in
  match order outside Buy qty_adj with
  | Raise e => failed e
  | Ok retCode =>
      if negb (retCode =? 0) then failed (RuntimeError "order")
      else
        let msg := MsgDipBuy qty price base_price pct price in
        (Ok tt,
         World (db_after_write outside (db w) price)
               (trace w ++ submitted
                  ++ [DbUpsert SYMBOL price]
                  ++ write_error_line outside LogErrDbBuy
                  ++ [Print (LogBuy msg); Telegram msg;
                      Sleep (POLL_INTERVAL_SECONDS cfg)]))
  end.
Proof.
  intros Hpos Hdip Hfunds Hest Hq Hqa Hle. rewrite tick_trade. unfold trade.
  rewrite Hpos, Hdip. run_monad.
  rewrite dip_buy_run, Hfunds, Hest, Hq, place_market_order_run, Hqa, Hle.
  cbn beta iota zeta.
  destruct (order outside Buy qty_adj) as [rc|e].
  - destruct (negb (rc =? 0)); run_monad; flatten_trace; reflexivity.
  - run_monad. flatten_trace. reflexivity.
Qed.

(** The two branches when the quantized quantity is not positive: the
    gateway is not called. *)
Lemma tick_sell_no_quantity qty_adj :
  has_position cfg sol_total price = true ->
  Py.ge price (tp_level cfg base_price) = true ->
  quantize_qty cfg sol_total = Ok qty_adj ->
  Py.le qty_adj f0 = true ->
  tick float_of_str cfg outside w =
  (Ok tt,
   World (db w)
         (trace w ++ [state_line;
                      Print (LogErrSell (RuntimeError "qty_adj <= 0"));
                      Sleep (POLL_INTERVAL_SECONDS cfg)])).
Proof.
  intros Hpos Htp Hq Hle. rewrite tick_trade. unfold trade.
  rewrite Hpos, Htp. run_monad.
  rewrite take_profit_run, place_market_order_run, Hq, Hle.
  run_monad. flatten_trace. reflexivity.
Qed.

Lemma tick_buy_no_quantity est_qty qty qty_adj :
  has_position cfg sol_total price = false ->
  Py.le price (dip_level cfg base_price) = true ->
  Py.lt usdt_available (ORDER_USDT cfg) = false ->
  Py.truediv (ORDER_USDT cfg) price = Ok est_qty ->
  quantize_qty cfg est_qty = Ok qty ->
  quantize_qty cfg qty = Ok qty_adj ->
  Py.le qty_adj f0 = true ->
  tick float_of_str cfg outside w =
  (Ok tt,
   World (db w)
         (trace w ++ [state_line;
                      Print (LogErrBuy (RuntimeError "qty_adj <= 0"));
                      Sleep (POLL_INTERVAL_SECONDS cfg)])).
Proof.
  intros Hpos Hdip Hfunds Hest Hq Hqa Hle. rewrite tick_trade. unfold trade.
  rewrite Hpos, Hdip. run_monad.
  rewrite dip_buy_run, Hfunds, Hest, Hq, place_market_order_run, Hqa, Hle.
  run_monad. flatten_trace. reflexivity.
Qed.

(** C5: in position and with the price strictly below the take-profit
    level, the tick only prints the state line and sleeps: no order, no
    notification, no write to the table.  Nothing is assumed on the dip
    level, the quote balance or the order size: the dip-buy block is not
    reached, also when the price is below the dip level. *)
Theorem C5_in_position_below_target_waits :
  has_position cfg sol_total price = true ->
  Py.lt price (tp_level cfg base_price) = true ->
  let evs := [state_line; Sleep (POLL_INTERVAL_SECONDS cfg)] in
  tick float_of_str cfg outside w = (Ok tt, World (db w) (trace w ++ evs)) /\
  orders evs = [] /\ upserts evs = [] /\ telegrams evs = [].
Proof.
  intros Hpos Hlt. cbn zeta. split; [|repeat split].
  apply tick_wait_in_position; [exact Hpos|]. apply lt_not_ge. exact Hlt.
Qed.

(** C6: flat, the price at or below the dip level, and the quote balance
    strictly below the order size: the tick prints a warning and sends the
    insufficient-funds notification; the order gateway is not called and the
    table is left as it was. *)
Theorem C6_dip_without_funds_only_notifies :
  has_position cfg sol_total price = false ->
  Py.le price (dip_level cfg base_price) = true ->
  Py.lt usdt_available (ORDER_USDT cfg) = true ->
  let evs := [state_line;
              Print (LogWarnNoFunds usdt_available (ORDER_USDT cfg));
              Telegram (MsgNoFunds usdt_available (ORDER_USDT cfg));
              Sleep (POLL_INTERVAL_SECONDS cfg)] in
  tick float_of_str cfg outside w = (Ok tt, World (db w) (trace w ++ evs)) /\
  orders evs = [] /\ upserts evs = [] /\
  telegrams evs = [MsgNoFunds usdt_available (ORDER_USDT cfg)].
Proof.
  intros Hpos Hdip Hfunds. cbn zeta. split; [|repeat split].
  apply tick_no_funds; assumption.
Qed.

(** C2 (amended): after an order the gateway accepted ([retCode] 0), on the
    take-profit path as on the dip-buy path, the tick issues the upsert of
    the observed price for the symbol.  When the table accepts the write the
    stored base price is the observed price; when the write fails the price
    stored before is kept and the failure is printed.  No tick deletes a
    row of the table. *)
Theorem C2_reference_follows_the_trade qty_adj :
  (has_position cfg sol_total price = true /\
   Py.ge price (tp_level cfg base_price) = true /\
   quantize_qty cfg sol_total = Ok qty_adj /\
   order outside Sell qty_adj = Ok 0)
  \/
  (has_position cfg sol_total price = false /\
   Py.le price (dip_level cfg base_price) = true /\
   Py.lt usdt_available (ORDER_USDT cfg) = false /\
   (exists est_qty qty,
      Py.truediv (ORDER_USDT cfg) price = Ok est_qty /\
      quantize_qty cfg est_qty = Ok qty /\
      quantize_qty cfg qty = Ok qty_adj) /\
   order outside Buy qty_adj = Ok 0) ->
  Py.le qty_adj f0 = false ->
  exists w' evs,
    tick float_of_str cfg outside w = (Ok tt, w') /\
    trace w' = trace w ++ evs /\
    (orders evs = [(Sell, qty_adj)] \/ orders evs = [(Buy, qty_adj)]) /\
    upserts evs = [(SYMBOL, price)] /\
    (db_write_fault outside = None -> db w' = <[SYMBOL := price]> (db w)) /\
    (forall e, db_write_fault outside = Some e ->
               db w' = db w /\
               (Print (LogErrDbTP e) ∈ evs \/ Print (LogErrDbBuy e) ∈ evs)) /\
    (forall k, is_Some (db w !! k) -> is_Some (db w' !! k)).
Proof.
  intros Hpath Hle.
  pose proof (tick_keeps_rows w) as Hkeep.
  destruct Hpath as [(Hpos & Htp & Hq & Hord)|(Hpos & Hdip & Hfunds & Hqty & Hord)].
  - pose proof (tick_sell qty_adj Hpos Htp Hq Hle) as Ht.
    cbn zeta in Ht. rewrite Hord in Ht.
    change (negb (0 =? 0)) with false in Ht. cbv iota in Ht.
    rewrite Ht in Hkeep. eexists _, _. split; [exact Ht|].
    split; [reflexivity|]. cbn [snd db] in Hkeep. revert Hkeep.
    unfold db_after_write, write_error_line.
    destruct (db_write_fault outside) as [e|]; intros Hkeep.
    + split; [left; reflexivity|]. split; [reflexivity|].
      split; [discriminate|]. split; [|exact Hkeep].
      intros e' [= <-]. split; [reflexivity|]. left. set_solver.
    + split; [left; reflexivity|]. split; [reflexivity|].
      split; [reflexivity|]. split; [discriminate|exact Hkeep].
  - destruct Hqty as (est_qty & qty & Hest & Hq & Hqa).
    pose proof (tick_buy est_qty qty qty_adj Hpos Hdip Hfunds Hest Hq Hqa Hle) as Ht.
    cbn zeta in Ht. rewrite Hord in Ht.
    change (negb (0 =? 0)) with false in Ht. cbv iota in Ht.
    rewrite Ht in Hkeep. eexists _, _. split; [exact Ht|].
    split; [reflexivity|]. cbn [snd db] in Hkeep. revert Hkeep.
    unfold db_after_write, write_error_line.
    destruct (db_write_fault outside) as [e|]; intros Hkeep.
    + split; [right; reflexivity|]. split; [reflexivity|].
      split; [discriminate|]. split; [|exact Hkeep].
      intros e' [= <-]. split; [reflexivity|]. right. set_solver.
    + split; [right; reflexivity|]. split; [reflexivity|].
      split; [reflexivity|]. split; [discriminate|exact Hkeep].
Qed.

(** C7 (amended): when the gateway raises or answers a nonzero [retCode] to
    the order of the tick, on either path, the base price is not written,
    no success message is sent, and the failure is printed to stderr: the
    tick sends no Telegram message at all. *)
Theorem C7_refused_order_is_only_logged s qty_adj :
  (s = Sell /\
   has_position cfg sol_total price = true /\
   Py.ge price (tp_level cfg base_price) = true /\
   quantize_qty cfg sol_total = Ok qty_adj)
  \/
  (s = Buy /\
   has_position cfg sol_total price = false /\
   Py.le price (dip_level cfg base_price) = true /\
   Py.lt usdt_available (ORDER_USDT cfg) = false /\
   exists est_qty qty,
     Py.truediv (ORDER_USDT cfg) price = Ok est_qty /\
     quantize_qty cfg est_qty = Ok qty /\
     quantize_qty cfg qty = Ok qty_adj) ->
  Py.le qty_adj f0 = false ->
  order_refused outside s qty_adj ->
  exists e,
    let evs := [state_line; Print (LogOrder s qty_adj); PlaceOrder s qty_adj;
                Print (match s with Sell => LogErrSell e | Buy => LogErrBuy e end);
                Sleep (POLL_INTERVAL_SECONDS cfg)] in
    tick float_of_str cfg outside w = (Ok tt, World (db w) (trace w ++ evs)) /\
    orders evs = [(s, qty_adj)] /\ upserts evs = [] /\ telegrams evs = [].
Proof.
  intros Hpath Hle Hrefused.
  destruct Hpath as [(-> & Hpos & Htp & Hq)|(-> & Hpos & Hdip & Hfunds & Hqty)].
  - pose proof (tick_sell qty_adj Hpos Htp Hq Hle) as Ht. cbn zeta in Ht.
    destruct (order outside Sell qty_adj) as [rc|e] eqn:Hord.
    + apply (Hrefused rc), Z.eqb_neq in Hord. rewrite Hord in Ht.
      exists (RuntimeError "order"). repeat split. exact Ht.
    + exists e. repeat split. exact Ht.
  - destruct Hqty as (est_qty & qty & Hest & Hq & Hqa).
    pose proof (tick_buy est_qty qty qty_adj Hpos Hdip Hfunds Hest Hq Hqa Hle) as Ht.
    cbn zeta in Ht.
    destruct (order outside Buy qty_adj) as [rc|e] eqn:Hord.
    + apply (Hrefused rc), Z.eqb_neq in Hord. rewrite Hord in Ht.
      exists (RuntimeError "order"). repeat split. exact Ht.
    + exists e. repeat split. exact Ht.
Qed.

(** C8: the quantity that decides is the one [place_market_order] tests,
    [qty_adj = quantize_qty requested], where [requested] is what the loop
    hands over: the holdings on a sell, the already quantized
    [ORDER_USDT / price] on a buy.  When it is [<= 0], on either path,
    [place_market_order] raises before it calls the gateway: the tick
    submits no order, leaves the table as it was and prints the error.
    This covers a buy estimate that quantizes to zero at once (a
    [requested] that is [<= 0] gives [qty_adj = 0.0]) and one that is
    above zero after the first quantization and zero after the second. *)
Theorem C8_no_order_without_quantity s requested qty_adj :
  (s = Sell /\
   has_position cfg sol_total price = true /\
   Py.ge price (tp_level cfg base_price) = true /\
   requested = sol_total)
  \/
  (s = Buy /\
   has_position cfg sol_total price = false /\
   Py.le price (dip_level cfg base_price) = true /\
   Py.lt usdt_available (ORDER_USDT cfg) = false /\
   exists est_qty,
     Py.truediv (ORDER_USDT cfg) price = Ok est_qty /\
     quantize_qty cfg est_qty = Ok requested) ->
  quantize_qty cfg requested = Ok qty_adj ->
  Py.le qty_adj f0 = true ->
  let refusal := RuntimeError "qty_adj <= 0" in
  let evs := [state_line;
              Print (match s with
                     | Sell => LogErrSell refusal
                     | Buy => LogErrBuy refusal
                     end);
              Sleep (POLL_INTERVAL_SECONDS cfg)] in
  tick float_of_str cfg outside w = (Ok tt, World (db w) (trace w ++ evs)) /\
  orders evs = [] /\ upserts evs = [] /\ telegrams evs = [] /\
  (forall w0, place_market_order cfg outside s requested w0 = (Raise refusal, w0)) /\
  (Py.le requested f0 = true -> qty_adj = f0).
Proof.
  intros Hpath Hq Hle. cbn zeta.
  assert (Hraise : forall w0, place_market_order cfg outside s requested w0
                              = (Raise (RuntimeError "qty_adj <= 0"), w0)).
  { intros w0. rewrite place_market_order_run, Hq, Hle. reflexivity. }
  assert (Hzero : Py.le requested f0 = true -> qty_adj = f0).
  { intros Hr. rewrite (quantize_qty_nonpositive _ _ Hr) in Hq.
    injection Hq as <-. reflexivity. }
  destruct Hpath as [(-> & Hpos & Htp & ->)
                    |(-> & Hpos & Hdip & Hfunds & est_qty & Hest & Hqty)].
  - split; [|repeat split; assumption].
    apply (tick_sell_no_quantity qty_adj); assumption.
  - split; [|repeat split; assumption].
    apply (tick_buy_no_quantity est_qty requested qty_adj); assumption.
Qed.

End Priced.

(** *** The quantity of every order *)

(** C10 (amended): [place_market_order] quantizes its argument again and
    raises, before it calls the gateway, when the result is [<= 0].  Every
    order a tick hands to the exchange has a quantity that is
    [quantize_qty] of the requested one, fails the test [<= 0], and is the
    6-digit rounding of a whole number of steps times the step; with a
    finite step it is above zero.  A take-profit submits
    [quantize_qty sol_total], which can be below the holdings, so that a
    residue below one step stays in the wallet.  Nothing is claimed on the
    submitted quantity being at most the holdings. *)
Theorem C10_orders_are_quantized :
  (forall s qty w,
     place_market_order cfg outside s qty w =
     match quantize_qty cfg qty with
     | Raise e => (Raise e, w)
     | Ok qty_adj =>
         if Py.le qty_adj f0 then (Raise (RuntimeError "qty_adj <= 0"), w)
         else
           let w' := World (db w) (trace w ++ [Print (LogOrder s qty_adj);
                                               PlaceOrder s qty_adj]) in
           match order outside s qty_adj with
           | Raise e => (Raise e, w')
           | Ok retCode =>
               if negb (retCode =? 0) then (Raise (RuntimeError "order"), w')
               else (Ok retCode, w')
           end
     end) /\
  (forall w, exists evs,
     trace (tick float_of_str cfg outside w).2 = trace w ++ evs /\
     forall s q, PlaceOrder s q ∈ evs ->
       Py.le q f0 = false /\
       (exists requested steps fsteps,
          quantize_qty cfg requested = Ok q /\
          Py.float_of_int steps = Ok fsteps /\
          q = Py.round (Py.mul fsteps (QTY_STEP cfg)) 6) /\
       (Py.is_finite (QTY_STEP cfg) = true -> Py.lt f0 q = true)) /\
  (forall price sol_total base_price pct w, exists evs,
     trace (take_profit cfg outside price sol_total base_price pct w).2
     = trace w ++ evs /\
     (orders evs = [] \/
      exists q, quantize_qty cfg sol_total = Ok q /\ orders evs = [(Sell, q)])) /\
  (exists sol_total sold,
     quantize_qty default_config sol_total = Ok sold /\
     Py.lt f0 sold = true /\ Py.lt sold sol_total = true).
Proof.
  split; [exact place_market_order_run|]. split; [|split].
  - intros w. destruct (tick_orders_quantized w) as (evs & Ht & Hall).
    exists evs. split; [exact Ht|]. intros s q Hin.
    rewrite Forall_forall in Hall. specialize (Hall _ Hin).
    destruct Hall as [Hle [requested Hq]]. split; [exact Hle|]. split.
    + destruct (Py.le requested f0) eqn:Hreq.
      { rewrite (quantize_qty_nonpositive _ _ Hreq) in Hq.
        injection Hq as <-. discriminate Hle. }
      destruct (quantize_qty_steps cfg requested q Hreq Hq)
        as (quot & steps & fsteps & _ & _ & Hf & Hr).
      exists requested, steps, fsteps. repeat split; assumption.
    + intros Hstep.
      destruct (quantize_qty_not_nan cfg requested q Hstep Hq) as [sg Hsg].
      apply (not_le_zero_positive sg); assumption.
  - intros price sol_total base_price pct w.
    rewrite take_profit_run, place_market_order_run.
    destruct (quantize_qty cfg sol_total) as [q|e] eqn:Hq.
    2:{ eexists. split; [reflexivity|left; reflexivity]. }
    destruct (Py.le q f0).
    { eexists. split; [reflexivity|left; reflexivity]. }
    cbn zeta. unfold write_error_line.
    destruct (order outside Sell q) as [rc|e];
      [destruct (negb (rc =? 0)); [|destruct (db_write_fault outside)]|];
      cbn [trace snd]; rewrite <- app_assoc;
      (eexists; split; [reflexivity|]);
      right; exists q; (split; [reflexivity|reflexivity]).
  - exists (lit 1.2345), (lit 1.234). vm_compute. auto.
Qed.

(** *** Ticks without a base price *)

Lemma calibrated_facts w price before :
  orders before = [] -> upserts before = [] -> telegrams before = [] ->
  exists w' evs,
    calibrated cfg outside w price before = (Ok tt, w') /\
    trace w' = trace w ++ before ++ evs /\
    orders (before ++ evs) = [] /\
    upserts (before ++ evs) = [(SYMBOL, price)] /\
    telegrams (before ++ evs) = [MsgBaseInit price] /\
    (db_write_fault outside = None -> db w' = <[SYMBOL := price]> (db w)) /\
    (forall e, db_write_fault outside = Some e ->
               db w' = db w /\ Print (LogErrDbInit e) ∈ evs).
Proof.
  intros Ho Hu Ht. unfold calibrated, db_after_write, write_error_line.
  eexists _, _. split; [reflexivity|]. cbn [trace db].
  split; [reflexivity|].
  unfold orders, upserts, telegrams in *.
  rewrite !omap_app, Ho, Hu, Ht.
  destruct (db_write_fault outside) as [e|].
  - split; [reflexivity|]. split; [reflexivity|]. split; [reflexivity|].
    split; [discriminate|]. intros e' [= <-]. split; [reflexivity|]. set_solver.
  - split; [reflexivity|]. split; [reflexivity|]. split; [reflexivity|].
    split; [reflexivity|]. discriminate.
Qed.

(** C4 (amended): on a tick that finds no base price for the symbol, no
    order is placed and no trade message is sent; the tick issues the upsert
    of the observed price and notifies the initial base price.  When the
    table accepts the write it holds exactly the observed price for the
    symbol; when the write fails the table is unchanged and the failure is
    printed. *)
Theorem C4_first_tick_calibrates w price sol_total usdt_available :
  fetch float_of_str outside SYMBOL = Ok (price, (sol_total, usdt_available)) ->
  db_read_fault outside = None ->
  db w !! SYMBOL = None ->
  exists w' evs,
    tick float_of_str cfg outside w = (Ok tt, w') /\
    trace w' = trace w ++ evs /\
    orders evs = [] /\
    upserts evs = [(SYMBOL, price)] /\
    telegrams evs = [MsgBaseInit price] /\
    (db_write_fault outside = None ->
     db w' = <[SYMBOL := price]> (db w) /\ db w' !! SYMBOL = Some price) /\
    (forall e, db_write_fault outside = Some e ->
               db w' = db w /\ Print (LogErrDbInit e) ∈ evs).
Proof.
  intros Hf Hr Hdb. rewrite (tick_no_reference _ _ _ _ Hf Hr Hdb).
  destruct (calibrated_facts w price [] eq_refl eq_refl eq_refl)
    as (w' & evs & Hc & Ht & Ho & Hu & Hm & Hok & Hfail).
  exists w', evs. split; [exact Hc|]. split; [exact Ht|].
  split; [exact Ho|]. split; [exact Hu|]. split; [exact Hm|].
  split; [|exact Hfail].
  intros Hw. split; [exact (Hok Hw)|]. rewrite (Hok Hw). apply lookup_insert_eq.
Qed.

(** C1 (amended): when the read of the base price fails, the tick is not
    aborted.  The failure is printed and the symbol is handled as one
    without a base price: the tick issues the upsert of the observed price
    (which replaces a stored base price when the table accepts the write)
    and notifies the initial base price.  No order is placed on that
    tick. *)
Theorem C1_read_failure_recalibrates w price sol_total usdt_available e :
  fetch float_of_str outside SYMBOL = Ok (price, (sol_total, usdt_available)) ->
  db_read_fault outside = Some e ->
  exists w' evs,
    tick float_of_str cfg outside w = (Ok tt, w') /\
    trace w' = trace w ++ Print (LogErrDbRead e) :: evs /\
    orders evs = [] /\
    upserts evs = [(SYMBOL, price)] /\
    telegrams evs = [MsgBaseInit price] /\
    (db_write_fault outside = None -> db w' = <[SYMBOL := price]> (db w)) /\
    (forall e', db_write_fault outside = Some e' -> db w' = db w).
Proof.
  intros Hf Hr. rewrite (tick_read_fault _ _ _ _ _ Hf Hr).
  destruct (calibrated_facts w price [Print (LogErrDbRead e)]
              eq_refl eq_refl eq_refl)
    as (w' & evs & Hc & Ht & Ho & Hu & Hm & Hok & Hfail).
  exists w', evs. split; [exact Hc|]. split; [exact Ht|].
  split; [exact Ho|]. split; [exact Hu|]. split; [exact Hm|].
  split; [exact Hok|]. intros e' He'. apply (Hfail e' He').
Qed.

End BotFacts.

(** ** Every tick runs one of the paths *)

Section PathFacts.

Variable float_of_str : string -> option Py.float.
Variable cfg : accepted_config.
Variable outside : env.

(** Closes a path: the rule of the relation, then the run of the code. *)
Ltac close_path rule :=
  eexists _, _, _; split; [rule|]; intros tr.

Lemma priced_path_complete d price sol_total usdt_available base_price :
  fetch float_of_str outside SYMBOL = Ok (price, (sol_total, usdt_available)) ->
  db_read_fault outside = None ->
  d !! SYMBOL = Some base_price ->
  exists r d' evs,
    priced_path cfg outside price sol_total usdt_available base_price d r d' evs /\
    forall tr, tick float_of_str cfg outside (World d tr) = (r, World d' (tr ++ evs)).
Proof.
  intros Hf Hr Hb.
  destruct (change_pct price base_price) as [pct|e] eqn:Hp.
  2:{ close_path ltac:(apply path_no_pct; exact Hp).
      rewrite (tick_reference float_of_str cfg outside (World d tr) _ _ _ _ Hf Hr Hb), Hp.
      rewrite app_nil_r. reflexivity. }
  assert (Ht : forall tr,
             tick float_of_str cfg outside (World d tr) =
             trade cfg outside price sol_total usdt_available base_price pct
               (World d (tr ++ [state_line price sol_total usdt_available
                                           base_price pct]))).
  { intros tr.
    exact (tick_trade float_of_str cfg outside (World d tr) _ _ _ _ _ Hf Hr Hb Hp). }
  destruct (has_position cfg sol_total price) eqn:Hpos.
  - (* take profit *)
    destruct (Py.ge price (tp_level cfg base_price)) eqn:Htp.
    2:{ close_path ltac:(apply (path_wait _ _ _ _ _ _ _ pct Hp); left; split; assumption).
        rewrite Ht. unfold trade. rewrite Hpos, Htp. run_monad. flatten_trace.
        reflexivity. }
    assert (Hreach : reaches_order cfg price sol_total usdt_available base_price
                       Sell sol_total) by (repeat split; assumption).
    assert (Hrun : forall tr,
               tick float_of_str cfg outside (World d tr) =
               let '(r, w1) :=
                 take_profit cfg outside price sol_total base_price pct
                   (World d (tr ++ [state_line price sol_total usdt_available
                                               base_price pct])) in
               match r with
               | Ok _ => (Ok tt, World (db w1)
                                   (trace w1 ++ [Sleep (POLL_INTERVAL_SECONDS cfg)]))
               | Raise e => (Raise e, w1)
               end).
    { intros tr. rewrite Ht. unfold trade. rewrite Hpos, Htp. run_monad.
      destruct (take_profit _ _ _ _ _ _ _) as [[[]|e] w1]; reflexivity. }
    destruct (quantize_qty cfg sol_total) as [q|e] eqn:Hq.
    2:{ close_path ltac:(apply (path_not_submitted _ _ _ _ _ _ _ pct Sell sol_total e Hp Hreach);
                         left; exact Hq).
        rewrite Hrun, take_profit_run, place_market_order_run, Hq.
        cbn [db trace]. flatten_trace. reflexivity. }
    destruct (Py.le q f0) eqn:Hle.
    { close_path ltac:(eapply (path_not_submitted _ _ _ _ _ _ _ pct Sell sol_total); [exact Hp|exact Hreach|];
                       right; exists q; repeat split; assumption).
      rewrite Hrun, take_profit_run, place_market_order_run, Hq, Hle.
      cbn [db trace]. flatten_trace. reflexivity. }
    destruct (order outside Sell q) as [rc|e] eqn:Ho.
    2:{ close_path ltac:(apply (path_refused _ _ _ _ _ _ _ pct Sell sol_total q e Hp Hreach Hq Hle);
                         left; exact Ho).
        rewrite Hrun, take_profit_run, place_market_order_run, Hq, Hle.
        cbn zeta. rewrite Ho. cbn [db trace]. flatten_trace. reflexivity. }
    destruct (Z.eqb_spec rc 0) as [->|Hrc].
    + close_path ltac:(apply (path_sold _ _ _ _ _ _ _ pct q Hp Hreach Hq Hle Ho)).
      rewrite Hrun, take_profit_run, place_market_order_run, Hq, Hle.
      cbn zeta. rewrite Ho. cbn [Z.eqb negb db trace]. flatten_trace.
      reflexivity.
    + close_path ltac:(eapply (path_refused _ _ _ _ _ _ _ pct Sell sol_total q); [exact Hp|exact Hreach|exact Hq|exact Hle|];
                       right; exists rc; repeat split; assumption).
      rewrite Hrun, take_profit_run, place_market_order_run, Hq, Hle.
      cbn zeta. rewrite Ho. apply Z.eqb_neq in Hrc. rewrite Hrc.
      cbn [negb db trace]. flatten_trace. reflexivity.
  - (* dip buy *)
    destruct (Py.le price (dip_level cfg base_price)) eqn:Hdip.
    2:{ close_path ltac:(apply (path_wait _ _ _ _ _ _ _ pct Hp); right; split; assumption).
        rewrite Ht. unfold trade. rewrite Hpos, Hdip. run_monad. flatten_trace.
        reflexivity. }
    assert (Hrun : forall tr,
               tick float_of_str cfg outside (World d tr) =
               let '(r, w1) :=
                 dip_buy cfg outside price usdt_available base_price pct
                   (World d (tr ++ [state_line price sol_total usdt_available
                                               base_price pct])) in
               match r with
               | Ok _ => (Ok tt, World (db w1)
                                   (trace w1 ++ [Sleep (POLL_INTERVAL_SECONDS cfg)]))
               | Raise e => (Raise e, w1)
               end).
    { intros tr. rewrite Ht. unfold trade. rewrite Hpos, Hdip. run_monad.
      destruct (dip_buy _ _ _ _ _ _ _) as [[[]|e] w1]; reflexivity. }
    destruct (Py.lt usdt_available (ORDER_USDT cfg)) eqn:Hfunds.
    { close_path ltac:(apply (path_no_funds _ _ _ _ _ _ _ pct Hp Hpos Hdip Hfunds)).
      rewrite Hrun, dip_buy_run, Hfunds. cbn [db trace]. flatten_trace.
      reflexivity. }
    destruct (Py.truediv (ORDER_USDT cfg) price) as [est|e] eqn:Hest.
    2:{ close_path ltac:(apply (path_estimate_raises _ _ _ _ _ _ _ pct e Hp Hpos Hdip Hfunds);
                         left; exact Hest).
        rewrite Hrun, dip_buy_run, Hfunds, Hest. reflexivity. }
    destruct (quantize_qty cfg est) as [qty|e] eqn:Hqty.
    2:{ close_path ltac:(apply (path_estimate_raises _ _ _ _ _ _ _ pct e Hp Hpos Hdip Hfunds);
                         right; exists est; split; [exact Hest|exact Hqty]).
        rewrite Hrun, dip_buy_run, Hfunds, Hest, Hqty. reflexivity. }
    assert (Hreach : reaches_order cfg price sol_total usdt_available base_price
                       Buy qty).
    { repeat split; try assumption. exists est. split; assumption. }
    destruct (quantize_qty cfg qty) as [q|e] eqn:Hq.
    2:{ close_path ltac:(apply (path_not_submitted _ _ _ _ _ _ _ pct Buy qty e Hp Hreach);
                         left; exact Hq).
        rewrite Hrun, dip_buy_run, Hfunds, Hest, Hqty, place_market_order_run, Hq.
        cbn [db trace]. flatten_trace. reflexivity. }
    destruct (Py.le q f0) eqn:Hle.
    { close_path ltac:(eapply (path_not_submitted _ _ _ _ _ _ _ pct Buy qty); [exact Hp|exact Hreach|];
                       right; exists q; repeat split; assumption).
      rewrite Hrun, dip_buy_run, Hfunds, Hest, Hqty, place_market_order_run, Hq, Hle.
      cbn [db trace]. flatten_trace. reflexivity. }
    destruct (order outside Buy q) as [rc|e] eqn:Ho.
    2:{ close_path ltac:(apply (path_refused _ _ _ _ _ _ _ pct Buy qty q e Hp Hreach Hq Hle);
                         left; exact Ho).
        rewrite Hrun, dip_buy_run, Hfunds, Hest, Hqty, place_market_order_run, Hq, Hle.
        cbn zeta. rewrite Ho. cbn [db trace]. flatten_trace. reflexivity. }
    destruct (Z.eqb_spec rc 0) as [->|Hrc].
    + close_path ltac:(apply (path_bought _ _ _ _ _ _ _ pct qty q Hp Hreach Hq Hle Ho)).
      rewrite Hrun, dip_buy_run, Hfunds, Hest, Hqty, place_market_order_run, Hq, Hle.
      cbn zeta. rewrite Ho. cbn [Z.eqb negb db trace]. flatten_trace.
      reflexivity.
    + close_path ltac:(eapply (path_refused _ _ _ _ _ _ _ pct Buy qty q); [exact Hp|exact Hreach|exact Hq|exact Hle|];
                       right; exists rc; repeat split; assumption).
      rewrite Hrun, dip_buy_run, Hfunds, Hest, Hqty, place_market_order_run, Hq, Hle.
      cbn zeta. rewrite Ho. apply Z.eqb_neq in Hrc. rewrite Hrc.
      cbn [negb db trace]. flatten_trace. reflexivity.
Qed.

(** Every tick runs one of the paths, and the calls it makes do not depend
    on the calls made before. *)
Lemma tick_path_complete d :
  exists r d' evs,
    tick_path float_of_str cfg outside d r d' evs /\
    forall tr, tick float_of_str cfg outside (World d tr) = (r, World d' (tr ++ evs)).
Proof.
  destruct (fetch float_of_str outside SYMBOL) as [[price [sol usdt]]|e] eqn:Hf.
  2:{ close_path ltac:(apply path_fetch_error; exact Hf).
      exact (tick_fetch_error float_of_str cfg outside (World d tr) e Hf). }
  destruct (db_read_fault outside) as [e|] eqn:Hr.
  { close_path ltac:(eapply (path_calibrate _ _ _ _ price sol usdt); [exact Hf|];
                     left; exists e; split; [exact Hr|reflexivity]).
    exact (tick_read_fault float_of_str cfg outside (World d tr) _ _ _ e Hf Hr). }
  destruct (d !! SYMBOL) as [base|] eqn:Hb.
  2:{ close_path ltac:(eapply (path_calibrate _ _ _ _ price sol usdt); [exact Hf|];
                       right; split; [exact Hr|split; [exact Hb|reflexivity]]).
      exact (tick_no_reference float_of_str cfg outside (World d tr) _ _ _ Hf Hr Hb). }
  destruct (priced_path_complete d price sol usdt base Hf Hr Hb)
    as (r & d' & evs & Hpath & Hrun).
  exists r, d', evs. split; [|exact Hrun].
  apply (path_priced _ _ _ _ price sol usdt base r d' evs Hf Hr Hb Hpath).
Qed.

(** *** What escapes a tick *)

Lemma truediv_raises x y e : Py.truediv x y = Raise e -> e = ZeroDivisionError.
Proof. unfold Py.truediv. destruct (SFeqb y Py.zero); congruence. Qed.

Lemma change_pct_raises p b e : change_pct p b = Raise e -> e = ZeroDivisionError.
Proof.
  unfold change_pct.
  destruct (Py.truediv (Py.sub p b) b) as [x|e'] eqn:H; [discriminate|].
  cbn [mbind result_bind]. intros [= <-]. exact (truediv_raises _ _ _ H).
Qed.

Lemma floor_raises x e :
  Py.floor x = Raise e -> e = ValueError \/ e = OverflowError.
Proof. destruct x; cbn; intros [=]; auto. Qed.

Lemma float_of_int_raises n e : Py.float_of_int n = Raise e -> e = OverflowError.
Proof.
  unfold Py.float_of_int.
  destruct (binary_normalize prec emax n 0 false); congruence.
Qed.

Lemma quantize_qty_raises qty e :
  quantize_qty cfg qty = Raise e -> arithmetic_error e.
Proof.
  unfold quantize_qty, arithmetic_error. destruct (Py.le qty f0); [discriminate|].
  destruct (Py.truediv qty (QTY_STEP cfg)) as [q|e1] eqn:Hq.
  2:{ cbn [mbind result_bind]. intros [= <-]. left. exact (truediv_raises _ _ _ Hq). }
  cbn [mbind result_bind].
  destruct (Py.floor q) as [steps|e2] eqn:Hs.
  2:{ cbn [mbind result_bind]. intros [= <-]. right. exact (floor_raises _ _ Hs). }
  cbn [mbind result_bind].
  destruct (Py.float_of_int steps) as [fsteps|e3] eqn:Hfs; [discriminate|].
  cbn [mbind result_bind]. intros [= <-]. right. right.
  exact (float_of_int_raises _ _ Hfs).
Qed.

Lemma tick_raise_is_arithmetic w e w' :
  tick float_of_str cfg outside w = (Raise e, w') ->
  arithmetic_error e /\
  db w' = db w /\
  exists evs,
    trace w' = trace w ++ evs /\
    orders evs = [] /\ upserts evs = [] /\ telegrams evs = [] /\ sleeps evs = [].
Proof.
  destruct w as [d tr]. intros Ht.
  destruct (tick_path_complete d) as (r & d' & evs & Hpath & Hrun).
  rewrite Hrun in Ht. injection Ht as -> <-. cbn [db trace].
  inversion Hpath as [| |price sol usdt base r0 d0 evs0 Hf Hr Hb Hpriced]; subst.
  inversion Hpriced; subst.
  - match goal with H : change_pct _ _ = Raise _ |- _ =>
      split; [left; exact (change_pct_raises _ _ _ H)|] end.
    split; [reflexivity|]. exists []. repeat split.
  - split.
    + match goal with H : _ \/ _ |- _ => destruct H as [Hest|(est & _ & Hest)] end.
      * left. exact (truediv_raises _ _ _ Hest).
      * exact (quantize_qty_raises _ _ Hest).
    + split; [reflexivity|]. eexists. repeat split.
Qed.

(** *** What a tick does to the table *)

(** Takes a tick to its paths, one goal per path, with the calls written
    out. *)
Ltac along_paths Hpath :=
  inversion Hpath as [| |? ? ? ? ? ? ? ? ? ? Hpriced]; subst;
  [ | | inversion Hpriced; subst ];
  repeat match goal with
         | H : (exists e, _ /\ _ = [_]) \/ _ |- _ =>
             destruct H as [(? & ? & ->)|(? & ? & ->)]
         end;
  unfold db_after_write, write_error_line, order_error, state_line in *.

Lemma tick_path_writes d r d' evs :
  tick_path float_of_str cfg outside d r d' evs ->
  (d' = d /\ (upserts evs = [] \/ db_write_fault outside <> None)) \/
  (exists price balances,
     fetch float_of_str outside SYMBOL = Ok (price, balances) /\
     db_write_fault outside = None /\
     d' = <[SYMBOL := price]> d /\ upserts evs = [(SYMBOL, price)]).
Proof.
  intros Hpath. along_paths Hpath;
    try (left; split; [reflexivity|left; reflexivity]);
    destruct (db_write_fault outside) eqn:Hw;
    try (left; split; [reflexivity|right; discriminate]);
    right; eexists _, _; (split; [eassumption|]);
    (split; [reflexivity|]); split; reflexivity.
Qed.

(** X2: the only thing a tick ever writes to the table is the price it
    observed, under its own symbol.  The rows of the other symbols are
    left as they are, and the row of the symbol changes only when the tick
    issued its upsert and the table accepted it. *)
Theorem tick_writes_only_the_price w :
  let w' := (tick float_of_str cfg outside w).2 in
  (forall k, k <> SYMBOL -> db w' !! k = db w !! k) /\
  (db w' = db w \/
   exists price balances,
     fetch float_of_str outside SYMBOL = Ok (price, balances) /\
     db_write_fault outside = None /\
     db w' = <[SYMBOL := price]> (db w)) /\
  exists evs,
    trace w' = trace w ++ evs /\
    (length (upserts evs) <= 1)%nat /\
    (upserts evs = [] -> db w' = db w).
Proof.
  destruct w as [d tr]. cbn zeta.
  destruct (tick_path_complete d) as (r & d' & evs & Hpath & Hrun).
  rewrite Hrun. cbn [snd db trace].
  destruct (tick_path_writes d r d' evs Hpath)
    as [[-> Hu]|(price & bal & Hf & Hw & -> & Hu)].
  - split; [reflexivity|]. split; [left; reflexivity|].
    exists evs. split; [reflexivity|]. split; [|reflexivity].
    destruct Hu as [->|Hu]; [cbn; lia|].
    clear Hrun. along_paths Hpath; destruct (db_write_fault outside);
      cbn; try lia; contradiction.
  - split; [intros k Hk; apply lookup_insert_ne; congruence|].
    split; [right; exists price, bal; auto|].
    exists evs. split; [reflexivity|]. rewrite Hu. split; [cbn; lia|discriminate].
Qed.

(** *** Sleeping, orders and messages *)

Lemma tick_ends_with_sleep w w' :
  tick float_of_str cfg outside w = (Ok tt, w') ->
  exists evs,
    trace w' = trace w ++ evs ++ [Sleep (POLL_INTERVAL_SECONDS cfg)] /\
    sleeps evs = [].
Proof.
  destruct w as [d tr]. intros Ht.
  destruct (tick_path_complete d) as (r & d' & evs & Hpath & Hrun).
  rewrite Hrun in Ht. injection Ht as -> <-. cbn [db trace]. clear Hrun.
  along_paths Hpath; try destruct (db_write_fault outside);
    try match goal with s : side |- _ => destruct s end;
    match goal with
    | |- exists evs, _ ++ ?l = _ /\ _ =>
        exists (removelast l); split; [f_equal|]; reflexivity
    end.
Qed.

(** X3: a tick that ends normally sleeps exactly once, for the configured
    interval, and the sleep is the last thing it does: every path of the
    loop body, also the ones that leave it with [continue], goes through
    [time.sleep(POLL_INTERVAL_SECONDS)]. *)
Theorem tick_sleeps_once_at_the_end w w' :
  tick float_of_str cfg outside w = (Ok tt, w') ->
  exists evs,
    trace w' = trace w ++ evs ++ [Sleep (POLL_INTERVAL_SECONDS cfg)] /\
    sleeps evs = [].
Proof. exact (tick_ends_with_sleep w w'). Qed.

(** X4: a tick hands at most one order to the exchange and sends at most
    one message.  The message announces a trade (take profit or dip buy)
    exactly when the exchange accepted the order of this tick: an order
    that was refused is never announced, and no trade is announced
    without an order. *)
Theorem tick_one_order_one_notice w :
  let w' := (tick float_of_str cfg outside w).2 in
  exists evs,
    trace w' = trace w ++ evs /\
    (length (orders evs) <= 1)%nat /\
    (length (telegrams evs) <= 1)%nat /\
    (forall s q, orders evs = [(s, q)] -> order outside s q = Ok 0 ->
       exists m, telegrams evs = [m] /\ is_trade_message m = true) /\
    (forall m, telegrams evs = [m] -> is_trade_message m = true ->
       exists s q, orders evs = [(s, q)] /\ order outside s q = Ok 0).
Proof.
  destruct w as [d tr]. cbn zeta.
  destruct (tick_path_complete d) as (r & d' & evs & Hpath & Hrun).
  rewrite Hrun. cbn [snd db trace]. clear Hrun.
  exists evs. split; [reflexivity|].
  along_paths Hpath; try destruct (db_write_fault outside);
    try match goal with s : side |- _ => destruct s end;
    cbn [orders telegrams omap list_omap app length];
    (split; [lia|]); (split; [lia|]);
    (split; [intros s0 q0 Ho Hok | intros m0 Hm Htm]);
    try discriminate;
    try (injection Hm as <-; discriminate);
    try (injection Ho as <- <-;
         match goal with
         | H : _ \/ _ |- _ =>
             destruct H as [H|(rc & H & Hrc & _)]; congruence
         end);
    try (eexists; split; reflexivity);
    try (eexists _, _; split; [reflexivity|assumption]).
Qed.

(** X5: the guards of an order.  When a tick hands an order to the
    exchange, it had read a price, the balances and a base price; a sell
    is for the holdings, with a position worth at least
    [MIN_POSITION_USDT] and the price at or above the take-profit level; a
    buy is for the quantized [ORDER_USDT / price], without such a
    position, with the price at or below the dip level and the free USDT
    not below [ORDER_USDT].  The quantity sent is [quantize_qty] of the
    requested one and fails the test [<= 0]. *)
Theorem tick_order_guards w :
  let w' := (tick float_of_str cfg outside w).2 in
  exists evs,
    trace w' = trace w ++ evs /\
    forall s q, (s, q) ∈ orders evs ->
      exists price sol_total usdt_available base_price requested,
        fetch float_of_str outside SYMBOL
          = Ok (price, (sol_total, usdt_available)) /\
        db_read_fault outside = None /\
        db w !! SYMBOL = Some base_price /\
        reaches_order cfg price sol_total usdt_available base_price s requested /\
        quantize_qty cfg requested = Ok q /\
        Py.le q f0 = false.
Proof.
  destruct w as [d tr]. cbn zeta.
  destruct (tick_path_complete d) as (r & d' & evs & Hpath & Hrun).
  rewrite Hrun. cbn [snd db trace]. clear Hrun.
  exists evs. split; [reflexivity|]. intros s0 q0.
  along_paths Hpath; try destruct (db_write_fault outside);
    try match goal with s : side |- _ => destruct s end;
    cbn [orders omap list_omap app];
    intros Hin;
    repeat match goal with
           | H : _ ∈ [] |- _ => inversion H
           | H : _ ∈ _ :: _ |- _ => inversion H; subst; clear H
           end;
    eexists _, _, _, _, _; repeat (split; [eassumption|]); assumption.
Qed.

(** X6: what a trade announcement reports.  A take-profit message gives
    the holdings [sol_total], while the order was for
    [quantize_qty sol_total]; a dip-buy message gives the quantity
    [quantize_qty (ORDER_USDT / price)] computed in the loop, while the
    order was for that quantity quantized once more by
    [place_market_order], and it gives the observed price as the new base.
    Every announced trade comes with one upsert of the observed price. *)
Theorem tick_trade_notice w :
  let w' := (tick float_of_str cfg outside w).2 in
  exists evs,
    trace w' = trace w ++ evs /\
    forall m, m ∈ telegrams evs -> is_trade_message m = true ->
      exists price sol_total usdt_available base_price pct,
        fetch float_of_str outside SYMBOL
          = Ok (price, (sol_total, usdt_available)) /\
        db w !! SYMBOL = Some base_price /\
        change_pct price base_price = Ok pct /\
        upserts evs = [(SYMBOL, price)] /\
        ((m = MsgTakeProfit sol_total price base_price pct /\
          exists q, quantize_qty cfg sol_total = Ok q /\
                    orders evs = [(Sell, q)]) \/
         (exists est_qty qty q,
            Py.truediv (ORDER_USDT cfg) price = Ok est_qty /\
            quantize_qty cfg est_qty = Ok qty /\
            quantize_qty cfg qty = Ok q /\
            m = MsgDipBuy qty price base_price pct price /\
            orders evs = [(Buy, q)])).
Proof.
  destruct w as [d tr]. cbn zeta.
  destruct (tick_path_complete d) as (r & d' & evs & Hpath & Hrun).
  rewrite Hrun. cbn [snd db trace]. clear Hrun.
  exists evs. split; [reflexivity|]. intros m0.
  along_paths Hpath; try destruct (db_write_fault outside);
    try match goal with s : side |- _ => destruct s end;
    cbn [telegrams upserts orders omap list_omap app];
    intros Hin Htm;
    repeat match goal with
           | H : _ ∈ [] |- _ => inversion H
           | H : _ ∈ _ :: _ |- _ => inversion H; subst; clear H
           end;
    try discriminate;
    eexists _, _, _, _, _; do 4 (split; [first [eassumption|reflexivity]|]).
  1,2: left; split; [reflexivity|]; eexists; split; [eassumption|reflexivity].
  1,2: right;
    match goal with
    | H : reaches_order _ _ _ _ _ Buy _ |- _ =>
        destruct H as (_ & _ & _ & est & Hest & Hqty)
    end;
    eexists _, _, _; split; [exact Hest|]; split; [exact Hqty|];
    split; [eassumption|]; split; reflexivity.
Qed.

(** *** Prices that are not numbers one can trade on *)

Lemma mul_nan_l x : Py.mul S754_nan x = S754_nan.
Proof. reflexivity. Qed.

Lemma mul_nan_r x : Py.mul x S754_nan = S754_nan.
Proof. destruct x; reflexivity. Qed.

Lemma le_nan_l x : Py.le S754_nan x = false.
Proof. reflexivity. Qed.

Lemma le_nan_r x : Py.le x S754_nan = false.
Proof. destruct x; reflexivity. Qed.

Lemma change_pct_nan price base_price :
  SFeqb base_price Py.zero = false ->
  price = S754_nan \/ base_price = S754_nan ->
  change_pct price base_price = Ok S754_nan.
Proof.
  intros Hz Hnan. unfold change_pct, Py.truediv. rewrite Hz.
  cbn [mbind result_bind]. f_equal.
  destruct Hnan as [->| ->]; [reflexivity|].
  destruct price; reflexivity.
Qed.

Lemma tick_nan_run w price sol_total usdt_available base_price :
  fetch float_of_str outside SYMBOL = Ok (price, (sol_total, usdt_available)) ->
  db_read_fault outside = None ->
  db w !! SYMBOL = Some base_price ->
  SFeqb base_price Py.zero = false ->
  price = S754_nan \/ base_price = S754_nan ->
  tick float_of_str cfg outside w =
  (Ok tt,
   World (db w)
     (trace w ++ [state_line price sol_total usdt_available base_price S754_nan;
                  Sleep (POLL_INTERVAL_SECONDS cfg)])).
Proof.
  intros Hf Hr Hb Hz Hnan.
  pose proof (change_pct_nan price base_price Hz Hnan) as Hpct.
  destruct (has_position cfg sol_total price) eqn:Hpos.
  - apply (tick_wait_in_position _ _ _ _ _ _ _ _ _ Hf Hr Hb Hpct Hpos).
    destruct Hnan as [->| ->].
    + unfold has_position, position_value in Hpos.
      rewrite mul_nan_r in Hpos. unfold Py.ge in Hpos.
      rewrite le_nan_r in Hpos. discriminate.
    + unfold Py.ge, tp_level. rewrite mul_nan_l. apply le_nan_l.
  - apply (tick_wait_flat _ _ _ _ _ _ _ _ _ Hf Hr Hb Hpct Hpos).
    destruct Hnan as [->| ->].
    + apply le_nan_l.
    + unfold dip_level. rewrite mul_nan_l. apply le_nan_r.
Qed.

(** X7: a NaN never trades.  When the price read from the exchange or the
    stored base price is a NaN (Python's [float] parses ["nan"]), the
    comparison with the take-profit level and the one with the dip level
    are false whichever block is reached: the tick prints its state line
    with a NaN change, places no order, writes nothing and sleeps. *)
Theorem tick_nan_only_waits w price sol_total usdt_available base_price :
  fetch float_of_str outside SYMBOL = Ok (price, (sol_total, usdt_available)) ->
  db_read_fault outside = None ->
  db w !! SYMBOL = Some base_price ->
  SFeqb base_price Py.zero = false ->
  price = S754_nan \/ base_price = S754_nan ->
  change_pct price base_price = Ok S754_nan /\
  tick float_of_str cfg outside w =
  (Ok tt,
   World (db w)
     (trace w ++ [state_line price sol_total usdt_available base_price S754_nan;
                  Sleep (POLL_INTERVAL_SECONDS cfg)])).
Proof.
  intros Hf Hr Hb Hz Hnan. split.
  - exact (change_pct_nan price base_price Hz Hnan).
  - exact (tick_nan_run w price sol_total usdt_available base_price
             Hf Hr Hb Hz Hnan).
Qed.

Lemma tick_zero_reference_run w price sol_total usdt_available base_price :
  fetch float_of_str outside SYMBOL = Ok (price, (sol_total, usdt_available)) ->
  db_read_fault outside = None ->
  db w !! SYMBOL = Some base_price ->
  SFeqb base_price Py.zero = true ->
  tick float_of_str cfg outside w = (Raise ZeroDivisionError, w).
Proof.
  intros Hf Hr Hb Hz.
  rewrite (tick_reference _ _ _ _ _ _ _ _ Hf Hr Hb).
  unfold change_pct, Py.truediv. rewrite Hz. reflexivity.
Qed.

(** X8: without a position and with the price above the dip level, the
    tick only prints its state line and sleeps: no order, no write, no
    message. *)
Theorem tick_flat_above_dip_waits w price sol_total usdt_available base_price pct :
  fetch float_of_str outside SYMBOL = Ok (price, (sol_total, usdt_available)) ->
  db_read_fault outside = None ->
  db w !! SYMBOL = Some base_price ->
  change_pct price base_price = Ok pct ->
  Py.ge (position_value sol_total price) (MIN_POSITION_USDT cfg) = false ->
  Py.le price (dip_level cfg base_price) = false ->
  let evs := [state_line price sol_total usdt_available base_price pct;
              Sleep (POLL_INTERVAL_SECONDS cfg)] in
  tick float_of_str cfg outside w = (Ok tt, World (db w) (trace w ++ evs)) /\
  orders evs = [] /\ upserts evs = [] /\ telegrams evs = [].
Proof.
  intros Hf Hr Hb Hpct Hpos Hdip. cbn zeta.
  split; [|repeat split].
  exact (tick_wait_flat _ _ _ _ _ _ _ _ _ Hf Hr Hb Hpct Hpos Hdip).
Qed.

(** X9: a quote of zero on a dip stops the bot.  With a base price
    stored, no position, the price at or below the dip level and enough
    USDT, the tick computes [ORDER_USDT / price] outside every [try]: for
    a price equal to zero [ZeroDivisionError] escapes the loop body, after
    the state line and before any order, write, message or sleep. *)
Theorem tick_zero_price_on_dip_raises w price sol_total usdt_available base_price pct :
  fetch float_of_str outside SYMBOL = Ok (price, (sol_total, usdt_available)) ->
  db_read_fault outside = None ->
  db w !! SYMBOL = Some base_price ->
  change_pct price base_price = Ok pct ->
  SFeqb price Py.zero = true ->
  has_position cfg sol_total price = false ->
  Py.le price (dip_level cfg base_price) = true ->
  Py.lt usdt_available (ORDER_USDT cfg) = false ->
  tick float_of_str cfg outside w =
  (Raise ZeroDivisionError,
   World (db w)
         (trace w ++ [state_line price sol_total usdt_available base_price pct])).
Proof.
  intros Hf Hr Hb Hpct Hz Hpos Hdip Hfunds.
  rewrite (tick_trade _ _ _ _ _ _ _ _ _ Hf Hr Hb Hpct).
  unfold trade. rewrite Hpos, Hdip. run_monad.
  rewrite dip_buy_run, Hfunds. unfold Py.truediv. rewrite Hz. reflexivity.
Qed.

(** *** One tick, as a step of the loop *)

Lemma tick_sleeps_run w :
  exists evs,
    trace (tick float_of_str cfg outside w).2 = trace w ++ evs /\
    sleeps evs = match (tick float_of_str cfg outside w).1 with
                 | Ok _ => [POLL_INTERVAL_SECONDS cfg]
                 | Raise _ => []
                 end.
Proof.
  destruct w as [d tr].
  destruct (tick_path_complete d) as (r & d' & evs & Hpath & Hrun).
  rewrite Hrun. cbn [fst snd db trace]. clear Hrun.
  exists evs. split; [reflexivity|].
  along_paths Hpath; try destruct (db_write_fault outside);
    try match goal with s : side |- _ => destruct s end; reflexivity.
Qed.

Lemma tick_frame w :
  exists evs,
    trace (tick float_of_str cfg outside w).2 = trace w ++ evs /\
    Forall (order_quantized cfg) evs /\
    Forall (fun row => row.1 = SYMBOL) (upserts evs) /\
    forall k, k <> SYMBOL ->
      db (tick float_of_str cfg outside w).2 !! k = db w !! k.
Proof.
  destruct (tick_orders_quantized float_of_str cfg outside w) as (evs & Htr & Hq).
  exists evs. split; [exact Htr|]. split; [exact Hq|].
  destruct w as [d tr].
  destruct (tick_path_complete d) as (r & d' & evs' & Hpath & Hrun).
  rewrite Hrun in Htr |- *. cbn [snd db trace] in Htr |- *.
  apply app_inv_head in Htr. subst evs'.
  destruct (tick_path_writes d r d' evs Hpath)
    as [[-> Hu]|(price & bal & Hf & Hw & -> & Hu)].
  - split; [|reflexivity].
    destruct Hu as [->|Hu]; [constructor|].
    clear Hrun Hq. along_paths Hpath; destruct (db_write_fault outside);
      try contradiction; cbn [upserts omap list_omap app];
      repeat constructor.
  - rewrite Hu. split; [repeat constructor|].
    intros k Hk. apply lookup_insert_ne. congruence.
Qed.

Lemma tick_calibrates_only_without_reference w :
  db_read_fault outside = None ->
  is_Some (db w !! SYMBOL) ->
  exists evs,
    trace (tick float_of_str cfg outside w).2 = trace w ++ evs /\
    Forall (fun ev => is_calibration ev = false) evs.
Proof.
  destruct w as [d tr]. cbn [db]. intros Hr [b Hb].
  destruct (tick_path_complete d) as (r & d' & evs & Hpath & Hrun).
  rewrite Hrun. cbn [snd trace]. clear Hrun.
  exists evs. split; [reflexivity|].
  along_paths Hpath; try congruence;
    try destruct (db_write_fault outside);
    try match goal with s : side |- _ => destruct s end;
    repeat constructor.
Qed.

Lemma tick_nan_reference_run w :
  db_read_fault outside = None ->
  db w !! SYMBOL = Some S754_nan ->
  exists evs,
    tick float_of_str cfg outside w = (Ok tt, World (db w) (trace w ++ evs)) /\
    orders evs = [] /\ upserts evs = [] /\ telegrams evs = [] /\
    sleeps evs = [POLL_INTERVAL_SECONDS cfg].
Proof.
  intros Hr Hb.
  destruct (fetch float_of_str outside SYMBOL) as [[price [sol usdt]]|e] eqn:Hf.
  - eexists. split.
    + apply (tick_nan_run w price sol usdt S754_nan Hf Hr Hb eq_refl).
      right. reflexivity.
    + repeat split; reflexivity.
  - eexists. split.
    + apply (tick_fetch_error float_of_str cfg outside w e Hf).
    + repeat split; reflexivity.
Qed.

Lemma tick_written_reference w evs p :
  trace (tick float_of_str cfg outside w).2 = trace w ++ evs ->
  upserts evs = [(SYMBOL, p)] ->
  db_write_fault outside = None ->
  (tick float_of_str cfg outside w).1 = Ok tt /\
  db (tick float_of_str cfg outside w).2 = <[SYMBOL := p]> (db w).
Proof.
  destruct w as [d tr].
  destruct (tick_path_complete d) as (r & d' & evs' & Hpath & Hrun).
  rewrite Hrun. cbn [fst snd db trace]. clear Hrun.
  intros Htr Hu Hw. apply app_inv_head in Htr. subst evs'. revert Hu.
  along_paths Hpath; rewrite ?Hw;
    try match goal with s : side |- _ => destruct s end;
    cbn [upserts omap list_omap app]; try discriminate;
    intros [= <-]; split; reflexivity.
Qed.

Lemma tick_prints_state_first w price sol_total usdt_available base_price pct :
  fetch float_of_str outside SYMBOL = Ok (price, (sol_total, usdt_available)) ->
  db_read_fault outside = None ->
  db w !! SYMBOL = Some base_price ->
  change_pct price base_price = Ok pct ->
  exists evs,
    trace (tick float_of_str cfg outside w).2 =
    trace w ++ state_line price sol_total usdt_available base_price pct :: evs.
Proof.
  intros Hf Hr Hb Hpct.
  rewrite (tick_trade _ _ _ _ _ _ _ _ _ Hf Hr Hb Hpct).
  unfold trade.
  assert (Hstep : forall (m : M unit) w0,
             (exists evs, trace (m w0).2 = trace w0 ++ evs) ->
             exists evs, trace ((m ;; sleep cfg) w0).2 = trace w0 ++ evs).
  { intros m w0 [evs Hm]. unfold mbind, M_bind.
    destruct (m w0) as [[[]|e] w1]; cbn [snd] in *.
    - exists (evs ++ [Sleep (POLL_INTERVAL_SECONDS cfg)]).
      rewrite sleep_emit. unfold emit. cbn [snd trace]. rewrite Hm.
      symmetry. apply app_assoc.
    - exists evs. exact Hm. }
  assert (Hgoal : forall (m : M unit),
             (forall w0, exists evs, trace (m w0).2 = trace w0 ++ evs) ->
             exists evs,
               trace ((m ;; sleep cfg)
                        (World (db w)
                           (trace w ++ [state_line price sol_total usdt_available
                                          base_price pct]))).2
               = trace w ++ state_line price sol_total usdt_available
                                base_price pct :: evs).
  { intros m Hm.
    set (w0 := World (db w)
                 (trace w ++ [state_line price sol_total usdt_available
                                base_price pct])).
    destruct (Hstep m w0 (Hm w0)) as [evs ->].
    exists evs. cbn [trace w0]. rewrite <- app_assoc. reflexivity. }
  assert (Hret : forall w0, exists evs,
             trace ((mret tt : M unit) w0).2 = trace w0 ++ evs).
  { intros w0. exists []. symmetry. apply app_nil_r. }
  destruct (has_position cfg sol_total price).
  - destruct (Py.ge price (tp_level cfg base_price)); apply Hgoal; [|exact Hret].
    intros w0. rewrite take_profit_run.
    destruct (place_market_order_quantized cfg outside Sell sol_total w0)
      as (evs & Hev & _).
    destruct (place_market_order cfg outside Sell sol_total w0) as [[rc|e] w1];
      cbn [snd trace] in *; rewrite Hev, <- app_assoc; eexists; reflexivity.
  - destruct (Py.le price (dip_level cfg base_price)); apply Hgoal; [|exact Hret].
    intros w0. rewrite dip_buy_run.
    destruct (Py.lt usdt_available (ORDER_USDT cfg)); [eexists; reflexivity|].
    destruct (Py.truediv (ORDER_USDT cfg) price) as [est|e];
      [|exists []; symmetry; apply app_nil_r].
    destruct (quantize_qty cfg est) as [qty|e];
      [|exists []; symmetry; apply app_nil_r].
    destruct (place_market_order_quantized cfg outside Buy qty w0)
      as (evs & Hev & _).
    destruct (place_market_order cfg outside Buy qty w0) as [[rc|e] w1];
      cbn [snd trace] in *; rewrite Hev, <- app_assoc; eexists; reflexivity.
Qed.

End PathFacts.

(** ** The interval of the sleep *)

Lemma stops_bind e0 n {A} (p : M A) (k k' : A -> M unit) :
  (forall a, stops_at_sleep e0 n (k a) (k' a)) ->
  stops_at_sleep e0 n (p ≫= k) (p ≫= k').
Proof.
  intros H w. unfold mbind, M_bind.
  destruct (p w) as [[a|e] w1]; [apply H|reflexivity].
Qed.

Lemma stops_sleep (good : accepted_config) (cfg : config) e0 :
  Py.time_sleep (POLL_INTERVAL_SECONDS cfg) = Raise e0 ->
  stops_at_sleep e0 (POLL_INTERVAL_SECONDS good) (sleep good) (sleep cfg).
Proof.
  intros H w. rewrite sleep_emit. unfold sleep, emit, mbind, M_bind, lift.
  rewrite H. cbn [db trace]. exists (trace w).
  split; [reflexivity|]. destruct w; reflexivity.
Qed.

Section IntervalFacts.

Variable float_of_str : string -> option Py.float.
Variable cfg : config.
Variable outside : env.

(** With an interval that [time.sleep] does not accept, a tick does what
    it does with the interval 0, up to its sleep. *)
Lemma tick_stops_at_sleep e0 :
  Py.time_sleep (POLL_INTERVAL_SECONDS cfg) = Raise e0 ->
  stops_at_sleep e0 0
    (tick float_of_str (Accepted (with_interval cfg 0) eq_refl) outside)
    (tick float_of_str cfg outside).
Proof.
  intros H.
  pose proof (stops_sleep (Accepted (with_interval cfg 0) eq_refl) cfg e0 H)
    as Hsleep.
  change (POLL_INTERVAL_SECONDS (Accepted (with_interval cfg 0) eq_refl))
    with 0 in Hsleep.
  unfold tick, trade.
  change (has_position (Accepted (with_interval cfg 0) eq_refl))
    with (has_position cfg).
  change (tp_level (Accepted (with_interval cfg 0) eq_refl))
    with (tp_level cfg).
  change (dip_level (Accepted (with_interval cfg 0) eq_refl))
    with (dip_level cfg).
  repeat first
    [ exact Hsleep
    | apply stops_bind; intros ?
    | match goal with
      | |- stops_at_sleep _ _ (match ?x with _ => _ end) _ => destruct x
      end ].
Qed.


End IntervalFacts.

(** ** The loop *)

Section LoopFacts.

Variable float_of_str : string -> option Py.float.
Variable cfg : accepted_config.

Local Abbreviation loop := (main_loop float_of_str cfg).
Local Abbreviation step := (tick float_of_str cfg).

Lemma main_loop_cons outside rest w :
  loop (outside :: rest) w =
  match step outside w with
  | (Ok _, w1) => loop rest w1
  | (Raise e, w1) => (Raise e, w1)
  end.
Proof.
  cbn [main_loop]. unfold mbind, M_bind.
  destruct (step outside w) as [[[]|e] w1]; reflexivity.
Qed.

(** X15: the loop sleeps once for each iteration it completes, always for
    the configured interval.  When it ends normally it has completed one
    iteration for each answer of the outside; when an exception escapes,
    the iteration that raised did not sleep. *)
Theorem main_loop_sleeps_once_per_iteration answers w :
  exists evs,
    trace (loop answers w).2 = trace w ++ evs /\
    match (loop answers w).1 with
    | Ok _ =>
        sleeps evs = replicate (length answers) (POLL_INTERVAL_SECONDS cfg)
    | Raise _ =>
        exists n, (n < length answers)%nat /\
                  sleeps evs = replicate n (POLL_INTERVAL_SECONDS cfg)
    end.
Proof.
  revert w. induction answers as [|outside rest IH]; intros w.
  - exists []. split; [symmetry; apply app_nil_r|reflexivity].
  - rewrite main_loop_cons.
    destruct (tick_sleeps_run float_of_str cfg outside w) as (evs1 & Htr1 & Hs1).
    destruct (step outside w) as [[[]|e] w1]; cbn [fst snd] in *.
    + destruct (IH w1) as (evs2 & Htr2 & Hs2).
      exists (evs1 ++ evs2). split.
      { rewrite Htr2, Htr1. symmetry. apply app_assoc. }
      unfold sleeps in *. rewrite omap_app, Hs1.
      destruct (loop rest w1).1.
      * rewrite Hs2. reflexivity.
      * destruct Hs2 as (n & Hn & ->). exists (S n).
        split; [cbn [length]; lia|reflexivity].
    + exists evs1. split; [exact Htr1|]. exists 0%nat.
      split; [cbn [length]; lia|exact Hs1].
Qed.

(** X16: what the whole run preserves.  Every order handed to the
    exchange has a quantity that is [quantize_qty] of some quantity and
    fails the test [<= 0]; every upsert is for [SYMBOL]; the rows of the
    other symbols are never changed, and no row is ever deleted. *)
Theorem main_loop_invariants answers w :
  let w' := (loop answers w).2 in
  (forall k, k <> SYMBOL -> db w' !! k = db w !! k) /\
  (forall k, is_Some (db w !! k) -> is_Some (db w' !! k)) /\
  exists evs,
    trace w' = trace w ++ evs /\
    Forall (order_quantized cfg) evs /\
    Forall (fun row => row.1 = SYMBOL) (upserts evs).
Proof.
  cbn zeta. revert w. induction answers as [|outside rest IH]; intros w.
  - split; [reflexivity|]. split; [tauto|].
    exists []. split; [symmetry; apply app_nil_r|]. split; constructor.
  - rewrite main_loop_cons.
    destruct (tick_frame float_of_str cfg outside w) as (evs1 & Htr1 & Hq1 & Hu1 & Hk1).
    pose proof (tick_keeps_rows float_of_str cfg outside w) as Hrows1.
    destruct (step outside w) as [[[]|e] w1]; cbn [fst snd] in *.
    + destruct (IH w1) as (Hk2 & Hrows2 & evs2 & Htr2 & Hq2 & Hu2).
      split; [intros k Hk; rewrite (Hk2 k Hk); exact (Hk1 k Hk)|].
      split; [intros k Hk; exact (Hrows2 k (Hrows1 k Hk))|].
      exists (evs1 ++ evs2). split.
      { rewrite Htr2, Htr1. symmetry. apply app_assoc. }
      split; [apply Forall_app; split; assumption|].
      unfold upserts in *. rewrite omap_app. apply Forall_app. split; assumption.
    + split; [exact Hk1|]. split; [exact Hrows1|].
      exists evs1. split; [exact Htr1|]. split; assumption.
Qed.

(** X17: the base price is calibrated once.  When the table holds a base
    price for the symbol and every read of it succeeds, no iteration goes
    through the calibration branch: the base price is only ever replaced
    by a trade. *)
Theorem main_loop_calibrates_once answers w :
  reads_succeed answers ->
  is_Some (db w !! SYMBOL) ->
  exists evs,
    trace (loop answers w).2 = trace w ++ evs /\
    Forall (fun ev => is_calibration ev = false) evs /\
    is_Some (db (loop answers w).2 !! SYMBOL).
Proof.
  intros Hreads. revert w. induction Hreads as [|outside rest Hr Hrest IH];
    intros w Hb.
  - exists []. split; [symmetry; apply app_nil_r|]. split; [constructor|exact Hb].
  - rewrite main_loop_cons.
    destruct (tick_calibrates_only_without_reference float_of_str cfg outside w Hr Hb)
      as (evs1 & Htr1 & Hc1).
    pose proof (tick_keeps_rows float_of_str cfg outside w SYMBOL Hb) as Hrows1.
    destruct (step outside w) as [[[]|e] w1]; cbn [fst snd] in *.
    + destruct (IH w1 Hrows1) as (evs2 & Htr2 & Hc2 & Hb2).
      exists (evs1 ++ evs2). split.
      { rewrite Htr2, Htr1. symmetry. apply app_assoc. }
      split; [apply Forall_app; split; assumption|exact Hb2].
    + exists evs1. split; [exact Htr1|]. split; assumption.
Qed.

Lemma main_loop_nan_run answers w :
  reads_succeed answers ->
  db w !! SYMBOL = Some S754_nan ->
  exists evs,
    loop answers w = (Ok tt, World (db w) (trace w ++ evs)) /\
    orders evs = [] /\ upserts evs = [] /\ telegrams evs = [] /\
    sleeps evs = replicate (length answers) (POLL_INTERVAL_SECONDS cfg).
Proof.
  intros Hreads. revert w. induction Hreads as [|outside rest Hr Hrest IH];
    intros w Hb.
  - exists []. rewrite app_nil_r. destruct w. repeat split.
  - rewrite main_loop_cons.
    destruct (tick_nan_reference_run float_of_str cfg outside w Hr Hb)
      as (evs1 & -> & Ho1 & Hu1 & Ht1 & Hs1).
    destruct (IH (World (db w) (trace w ++ evs1)) Hb)
      as (evs2 & -> & Ho2 & Hu2 & Ht2 & Hs2).
    cbn [db trace]. exists (evs1 ++ evs2). rewrite app_assoc.
    split; [reflexivity|].
    unfold orders, upserts, telegrams, sleeps in *. rewrite !omap_app.
    rewrite Ho1, Ho2, Hu1, Hu2, Ht1, Ht2, Hs1, Hs2. repeat split.
Qed.

(** X18: a NaN base price freezes the bot.  With a NaN stored for the
    symbol and reads that succeed, the loop runs every iteration to its
    sleep and never places an order, never writes the table and never
    sends a message, whatever the prices and the balances are. *)
Theorem main_loop_nan_reference_freezes answers w :
  reads_succeed answers ->
  db w !! SYMBOL = Some S754_nan ->
  exists evs,
    loop answers w = (Ok tt, World (db w) (trace w ++ evs)) /\
    orders evs = [] /\ upserts evs = [] /\ telegrams evs = [] /\
    sleeps evs = replicate (length answers) (POLL_INTERVAL_SECONDS cfg).
Proof. exact (main_loop_nan_run answers w). Qed.

(** X19: a NaN price at calibration is stored and freezes the bot.  The
    first tick finds no base price, reads a NaN price and writes it; from
    then on, while the reads succeed, the only message ever sent is the
    one of the calibration and no order is placed. *)
Theorem main_loop_nan_price_freezes outside rest w balances :
  fetch float_of_str outside SYMBOL = Ok (S754_nan, balances) ->
  db_read_fault outside = None ->
  db_write_fault outside = None ->
  db w !! SYMBOL = None ->
  reads_succeed rest ->
  exists evs,
    loop (outside :: rest) w =
      (Ok tt, World (<[SYMBOL := S754_nan]> (db w)) (trace w ++ evs)) /\
    orders evs = [] /\
    upserts evs = [(SYMBOL, S754_nan)] /\
    telegrams evs = [MsgBaseInit S754_nan].
Proof.
  intros Hf Hr Hw Hb Hrest. destruct balances as [sol usdt].
  rewrite main_loop_cons.
  rewrite (tick_no_reference float_of_str cfg outside w _ _ _ Hf Hr Hb).
  unfold calibrated, db_after_write, write_error_line. rewrite Hw.
  cbn [app].
  match goal with |- context [World ?d ?t] =>
    destruct (main_loop_nan_run rest (World d t) Hrest)
      as (evs2 & -> & Ho2 & Hu2 & Ht2 & _)
  end.
  { cbn [db]. apply lookup_insert_eq. }
  cbn [db trace]. rewrite <- app_assoc. eexists. split; [reflexivity|].
  unfold orders, upserts, telegrams in *. rewrite !omap_app.
  rewrite Ho2, Hu2, Ht2. repeat split.
Qed.

(** X20: a zero price at calibration stops the bot.  The first tick finds
    no base price, reads a price equal to zero and stores it; the next
    tick that reads a price and the base price divides by it:
    [ZeroDivisionError] escapes the loop, after the calibration and
    before anything else is printed, and the later iterations never
    run. *)
Theorem main_loop_zero_price_crashes first second rest w price balances reading :
  fetch float_of_str first SYMBOL = Ok (price, balances) ->
  SFeqb price Py.zero = true ->
  db_read_fault first = None ->
  db_write_fault first = None ->
  db w !! SYMBOL = None ->
  fetch float_of_str second SYMBOL = Ok reading ->
  db_read_fault second = None ->
  loop (first :: second :: rest) w =
    (Raise ZeroDivisionError,
     World (<[SYMBOL := price]> (db w))
           (trace w ++ [Print (LogInit price); DbUpsert SYMBOL price;
                        Telegram (MsgBaseInit price);
                        Sleep (POLL_INTERVAL_SECONDS cfg)])).
Proof.
  intros Hf Hz Hr Hw Hb Hf2 Hr2.
  destruct balances as [sol usdt]. destruct reading as [price2 [sol2 usdt2]].
  rewrite main_loop_cons.
  rewrite (tick_no_reference float_of_str cfg first w _ _ _ Hf Hr Hb).
  unfold calibrated, db_after_write, write_error_line. rewrite Hw.
  cbn [app]. rewrite main_loop_cons.
  erewrite (tick_zero_reference_run float_of_str cfg second _ price2 sol2 usdt2 price
              Hf2 Hr2); [reflexivity| |exact Hz].
  cbn [db]. apply lookup_insert_eq.
Qed.

(** X21: what one tick writes is what the next tick compares with.
    When a tick upserts a price [p] and the table accepts it, the tick
    ended normally and the row of the symbol holds [p]; the next tick
    that reads a price and the base price computes its change against
    [p] and prints it in its state line, before anything else. *)
Theorem main_loop_reference_carries_over
    first second w evs p price sol_total usdt_available pct :
  trace (step first w).2 = trace w ++ evs ->
  upserts evs = [(SYMBOL, p)] ->
  db_write_fault first = None ->
  fetch float_of_str second SYMBOL = Ok (price, (sol_total, usdt_available)) ->
  db_read_fault second = None ->
  change_pct price p = Ok pct ->
  db (step first w).2 !! SYMBOL = Some p /\
  exists evs2,
    trace (loop [first; second] w).2 =
    trace w ++ evs ++ state_line price sol_total usdt_available p pct :: evs2.
Proof.
  intros Htr Hu Hw Hf Hr Hpct.
  destruct (tick_written_reference float_of_str cfg first w evs p Htr Hu Hw)
    as [Hok Hdb].
  assert (Hb : db (step first w).2 !! SYMBOL = Some p).
  { rewrite Hdb. apply lookup_insert_eq. }
  split; [exact Hb|].
  rewrite main_loop_cons.
  destruct (step first w) as [[[]|e] w1]; cbn [fst snd] in *; [|discriminate].
  rewrite main_loop_cons.
  destruct (tick_prints_state_first float_of_str cfg second w1
              price sol_total usdt_available p pct Hf Hr Hb Hpct)
    as (evs2 & Htr2).
  exists evs2.
  destruct (step second w1) as [[[]|e] w2];
    cbn [main_loop]; unfold mret, M_ret; cbn [snd] in *;
    rewrite Htr2, Htr, <- app_assoc; reflexivity.
Qed.

End LoopFacts.

(** ** The helpers on malformed answers *)

Section HelperFacts.

Variable float_of_str : string -> option Py.float.
Variable cfg : config.
Variable outside : env.

Lemma float_of_bool_ok (b : bool) :
  exists x, Py.float_of_int (if b then 1 else 0) = Ok x.
Proof. destruct b; eexists; vm_compute; reflexivity. Qed.

(** X10: [safe_float] does not always give a float.  It raises in one case
    only: an [int] too large for binary64, which goes to [float(v)] outside
    the [try] and raises [OverflowError].  [None], booleans, floats,
    strings (blank, malformed or not) and every other value give a
    float. *)
Theorem safe_float_raises_only_on_int v e :
  safe_float float_of_str v = Raise e ->
  e = OverflowError /\
  exists n, v = VInt n /\ Py.float_of_int n = Raise OverflowError.
Proof.
  destruct v as [|b|n|x|s|r]; cbn [safe_float Py.to_float Py.str];
    try discriminate.
  - destruct (float_of_bool_ok b) as [x ->]. discriminate.
  - intros H. pose proof (float_of_int_raises _ _ H) as ->.
    split; [reflexivity|]. exists n. split; [reflexivity|exact H].
  - destruct (decide (Py.strip s = "")); [discriminate|].
    destruct (float_of_str (Py.strip s)); discriminate.
  - destruct (decide (Py.strip r = "")); [discriminate|].
    destruct (float_of_str (Py.strip r)); discriminate.
Qed.

Lemma safe_float_raises v e :
  safe_float float_of_str v = Raise e -> e = OverflowError.
Proof.
  destruct v as [|b|n|x|s|r]; cbn [safe_float Py.to_float Py.str];
    try discriminate.
  - destruct (float_of_bool_ok b) as [x ->]. discriminate.
  - apply float_of_int_raises.
  - destruct (decide (Py.strip s = "")); [discriminate|].
    destruct (float_of_str (Py.strip s)); discriminate.
  - destruct (decide (Py.strip r = "")); [discriminate|].
    destruct (float_of_str (Py.strip r)); discriminate.
Qed.

(** An entry the loop of [get_balances] stops at, with the exception. *)
Lemma balances_coin_cases acc d :
  (entry_ok float_of_str d /\
   exists acc', balances_coin float_of_str acc d = Ok acc') \/
  (~ entry_ok float_of_str d /\
   exists e, balances_coin float_of_str acc d = Raise e /\
     ((d !! "coin" = None /\ e = KeyError "coin") \/
      (is_Some (d !! "coin") /\ e = OverflowError))).
Proof.
  unfold balances_coin, entry_ok.
  destruct (d !! "coin") as [c|] eqn:Hc.
  2:{ right. split; [intros ([? ?] & _); discriminate|].
      eexists. split; [reflexivity|]. left. split; reflexivity. }
  cbn [mbind result_bind].
  destruct (safe_float float_of_str (default VNone (d !! "walletBalance")))
    as [wb|e1] eqn:Ewb.
  2:{ right. split; [intros (_ & ? & _); discriminate|].
      exists e1. split; [reflexivity|]. right. split; [eexists; reflexivity|].
      exact (safe_float_raises _ _ Ewb). }
  cbn [mbind result_bind].
  destruct (safe_float float_of_str (default VNone (d !! "availableToWithdraw")))
    as [av|e2] eqn:Eav.
  2:{ right. split; [intros (_ & _ & ?); discriminate|].
      exists e2. split; [reflexivity|]. right. split; [eexists; reflexivity|].
      exact (safe_float_raises _ _ Eav). }
  cbn [mbind result_bind]. left. split.
  - split; [eexists; reflexivity|]. split; reflexivity.
  - destruct (Py.eq_str c "SOL"); [eexists; reflexivity|].
    destruct (Py.eq_str c "USDT"); eexists; reflexivity.
Qed.

Lemma balances_loop_raises acc entries e :
  balances_loop float_of_str (Ok acc) entries = Raise e ->
  exists before d rest,
    entries = before ++ d :: rest /\
    Forall (entry_ok float_of_str) before /\
    ~ entry_ok float_of_str d /\
    ((d !! "coin" = None /\ e = KeyError "coin") \/
     (is_Some (d !! "coin") /\ e = OverflowError)).
Proof.
  revert acc. induction entries as [|d l IH]; intros acc; [discriminate|].
  unfold balances_loop. cbn [foldl mbind result_bind].
  destruct (balances_coin_cases acc d)
    as [(Hok & acc' & ->)|(Hbad & e' & -> & Hcase)].
  - intros H. destruct (IH acc' H) as (before & d' & rest & -> & Hb & Hd & He).
    exists (d :: before), d', rest. split; [reflexivity|].
    split; [constructor; assumption|]. split; assumption.
  - match goal with |- foldl ?f ?a l = _ -> _ =>
      change (foldl f a l) with (balances_loop float_of_str a l) end.
    rewrite balances_loop_raise. intros [= <-].
    exists [], d, l. split; [reflexivity|]. split; [constructor|].
    split; assumption.
Qed.

(** X13: whatever goes wrong while the price and the balances are read,
    the exception is caught and printed, and the tick goes to its sleep
    without reading the base price, placing an order, writing the table or
    sending a message.  The tick survives whenever [time.sleep] accepts
    the interval; with an interval it does not accept, the exception of
    [time.sleep] is the one that escapes. *)
Theorem tick_survives_fetch_failure w e :
  get_spot_price float_of_str outside SYMBOL = Raise e \/
  (Py.is_ok (get_spot_price float_of_str outside SYMBOL) = true /\
   get_balances float_of_str outside = Raise e) ->
  let logged := [Print (LogErrFetch e)] in
  tick float_of_str cfg outside w =
    match Py.time_sleep (POLL_INTERVAL_SECONDS cfg) with
    | Ok _ =>
        (Ok tt,
         World (db w)
               (trace w ++ logged ++ [Sleep (POLL_INTERVAL_SECONDS cfg)]))
    | Raise e0 => (Raise e0, World (db w) (trace w ++ logged))
    end /\
  orders logged = [] /\ upserts logged = [] /\ telegrams logged = [].
Proof.
  intros H. cbn zeta. split; [|repeat split].
  assert (Hf : fetch float_of_str outside SYMBOL = Raise e).
  { unfold fetch. destruct H as [->|[Hp ->]]; [reflexivity|].
    destruct (get_spot_price float_of_str outside SYMBOL);
      [reflexivity|discriminate]. }
  unfold tick, sleep, print, mbind, M_bind, attempt, lift, emit.
  rewrite Hf. cbn [db trace].
  destruct (Py.time_sleep (POLL_INTERVAL_SECONDS cfg));
    [rewrite <- app_assoc|]; reflexivity.
Qed.

(** X14: the exceptions of [quantize_qty] with a finite step above zero.
    A NaN quantity passes the test [qty <= 0] and makes [math.floor] raise
    [ValueError]; an infinite quantity makes it raise [OverflowError]; and
    there is no other exception: never [ZeroDivisionError], [ValueError]
    only for a NaN. *)
Theorem quantize_qty_exceptions :
  Py.is_positive_finite (QTY_STEP cfg) = true ->
  quantize_qty cfg S754_nan = Raise ValueError /\
  quantize_qty cfg (S754_infinity false) = Raise OverflowError /\
  forall qty e,
    quantize_qty cfg qty = Raise e ->
    (qty = S754_nan /\ e = ValueError) \/
    (qty <> S754_nan /\ Py.le qty f0 = false /\ e = OverflowError).
Proof.
  intros Hstep. unfold quantize_qty, Py.truediv.
  destruct (QTY_STEP cfg) as [| | |[] my ey] eqn:Hs; try discriminate.
  split; [reflexivity|]. split; [reflexivity|].
  intros qty e. destruct (Py.le qty f0) eqn:Hle; [discriminate|].
  change (SFeqb (S754_finite false my ey) Py.zero) with false.
  cbn [mbind result_bind].
  destruct qty as [sx|[]| |[] mx ex]; try discriminate.
  - cbn. intros [= <-]. right. split; [discriminate|]. split; reflexivity.
  - cbn. intros [= <-]. left. split; reflexivity.
  - pose proof (SFdiv_finite_sign false mx ex false my ey) as Hsign.
    destruct (SF64div (S754_finite false mx ex) (S754_finite false my ey))
      as [sq|sq| |sq mq eq] eqn:Hq; try discriminate.
    + cbn. intros [= <-]. right. split; [discriminate|]. split; reflexivity.
    + cbn [Py.floor mbind result_bind].
      destruct (Py.float_of_int _) as [f|e'] eqn:Hf;
        cbn [mbind result_bind]; [discriminate|].
      intros [= <-].
      right. split; [discriminate|]. split; [reflexivity|].
      exact (float_of_int_raises _ _ Hf).
Qed.

End HelperFacts.

(** ** The wallet answer, whatever its shape *)

Section JsonFacts.

Variable float_of_str : string -> option Py.float.
Variable repr : json -> string.

Lemma balances_coin_json_shaped acc j d :
  entry_of_json repr j = Some d ->
  balances_coin_json float_of_str repr acc j = balances_coin float_of_str acc d.
Proof.
  destruct j as [| | | | | |m]; try discriminate. intros [= <-].
  unfold balances_coin_json, balances_coin, py_getitem, py_get.
  rewrite !lookup_fmap.
  destruct (m !! "coin") as [c|]; [|reflexivity].
  cbn [fmap option_fmap option_map mbind result_bind].
  destruct (m !! "walletBalance"), (m !! "availableToWithdraw"); reflexivity.
Qed.

Lemma balances_entries_json_shaped r js ds :
  Forall2 (fun j d => entry_of_json repr j = Some d) js ds ->
  foldl (fun r coin => acc ← r; balances_coin_json float_of_str repr acc coin) r js
  = balances_loop float_of_str r ds.
Proof.
  intros H. revert r. induction H as [|j d js ds Hj _ IH]; intros r;
    [reflexivity|].
  cbn [foldl]. rewrite IH. unfold balances_loop. cbn [foldl]. f_equal.
  destruct r as [acc|e]; [|reflexivity].
  cbn [mbind result_bind]. apply balances_coin_json_shaped. exact Hj.
Qed.

Lemma balances_acct_json_shaped acc j a :
  account_of_json repr j = Some a ->
  balances_acct_json float_of_str repr acc j = balances_acct float_of_str acc a.
Proof.
  destruct j as [| | | | | |m]; try discriminate.
  unfold account_of_json, balances_acct_json, balances_acct, py_get.
  cbn [mbind result_bind].
  destruct (m !! "coin") as [[| | | | |coins|]|]; try discriminate.
  - intros (ds & Hds & ->)%fmap_Some. apply mapM_Some in Hds.
    cbn [default py_iter mbind result_bind].
    exact (balances_entries_json_shaped (Ok acc) coins ds Hds).
  - intros [= <-]. reflexivity.
Qed.

Lemma balances_accounts_json_shaped r js accounts :
  Forall2 (fun j a => account_of_json repr j = Some a) js accounts ->
  foldl (fun r acct => acc ← r; balances_acct_json float_of_str repr acc acct) r js
  = foldl (fun r acct => acc ← r; balances_acct float_of_str acc acct) r accounts.
Proof.
  intros H. revert r. induction H as [|j a js accounts Hj _ IH]; intros r;
    [reflexivity|].
  cbn [foldl]. rewrite IH. f_equal.
  destruct r as [acc|e]; [|reflexivity].
  cbn [mbind result_bind]. apply balances_acct_json_shaped. exact Hj.
Qed.

(** On an answer of the documented shape the reader of the decoded JSON
    is the reader of [wallet_resp]. *)
Lemma get_balances_json_shaped j resp outside :
  wallet_of_json repr j = Some resp ->
  wallet outside = Ok resp ->
  get_balances_json float_of_str repr (Ok j) = get_balances float_of_str outside.
Proof.
  intros Hj Hw. unfold get_balances. rewrite Hw. clear Hw.
  destruct j as [| | | | | |d]; try discriminate.
  unfold wallet_of_json in Hj. unfold get_balances_json, py_get, py_getitem.
  cbn [mbind result_bind].
  destruct (d !! "retCode") as [[| |n| | | |]|]; try discriminate.
  destruct (d !! "result") as [[| | | | | |result]|]; try discriminate.
  destruct (result !! "list") as [[| | | | |accounts|]|] eqn:Hl;
    try discriminate.
  apply fmap_Some in Hj as (typed & Htyped & ->). apply mapM_Some in Htyped.
  cbn [ne_zero wallet_retCode wallet_list mbind result_bind].
  destruct (negb (n =? 0)); [reflexivity|].
  rewrite Hl. cbn [py_iter mbind result_bind].
  exact (balances_accounts_json_shaped (Ok (f0, f0)) accounts typed Htyped).
Qed.


End JsonFacts.

(** ** The claims on concrete ticks *)

(** Decides a conjunction of closed equations by evaluation. *)
Ltac evaluate :=
  repeat match goal with |- _ /\ _ => split end;
  vm_compute; reflexivity.

Section Examples.

Import Example.

(** C1, as stated, fails: the base price 100 is stored, its read fails, and
    the tick replaces it by the observed price 94 instead of aborting. *)
Lemma C1_read_failure_overwrites_reference :
  let outside := Env (ticker "94.0") (account "0" "100") accepts db_down None in
  let w := stored 100 in
  let w' := after outside w in
  db_read_fault outside = Some (ExternalError "psycopg2") /\
  db w !! SYMBOL = Some (lit 100) /\
  db w' !! SYMBOL = Some (lit 94) /\
  upserts (trace w') = [(SYMBOL, lit 94)] /\
  telegrams (trace w') = [MsgBaseInit (lit 94)] /\
  ~ (db w' = db w /\ upserts (trace w') = []).
Proof.
  cbv zeta. do 5 (split; [evaluate|]).
  intros [_ H]. vm_compute in H. discriminate H.
Qed.

Lemma C1_read_failure_recalibrates_witness :
  let outside := Env (ticker "94.0") (account "0" "100") accepts db_down None in
  let w := stored 100 in
  fetch Decimal.parse outside SYMBOL = Ok (lit 94, (lit 0, lit 100)) /\
  exists w' evs,
    tick Decimal.parse default_config outside w = (Ok tt, w') /\
    trace w' = trace w ++ Print (LogErrDbRead (ExternalError "psycopg2")) :: evs /\
    orders evs = [] /\
    upserts evs = [(SYMBOL, lit 94)] /\
    telegrams evs = [MsgBaseInit (lit 94)] /\
    (db_write_fault outside = None -> db w' = <[SYMBOL := lit 94]> (db w)) /\
    (forall e', db_write_fault outside = Some e' -> db w' = db w).
Proof.
  cbv zeta. split; [evaluate|].
  eapply C1_read_failure_recalibrates; evaluate.
Defined.

(** C2, as stated, fails: the buy at 94 is accepted, the write of the new
    base price fails, and the table still holds the old base price 100. *)
Lemma C2_failed_write_keeps_old_reference :
  let outside := Env (ticker "94.0") (account "0" "100") accepts None db_down in
  let w := stored 100 in
  let w' := after outside w in
  orders (trace w') = [(Buy, lit 0.265)] /\
  order outside Buy (lit 0.265) = Ok 0 /\
  db w' !! SYMBOL = Some (lit 100) /\
  db w' !! SYMBOL <> Some (lit 94).
Proof.
  cbv zeta. split; [evaluate|]. split; [evaluate|]. split; [evaluate|].
  vm_compute. discriminate.
Qed.

Lemma C2_reference_follows_the_trade_witness :
  let sells := Env (ticker "97.76") (account "0.265" "100") accepts None None in
  let buys := Env (ticker "94.0") (account "0" "100") accepts None None in
  let claim outside w price qty_adj :=
    exists w' evs,
      tick Decimal.parse default_config outside w = (Ok tt, w') /\
      trace w' = trace w ++ evs /\
      (orders evs = [(Sell, qty_adj)] \/ orders evs = [(Buy, qty_adj)]) /\
      upserts evs = [(SYMBOL, price)] /\
      (db_write_fault outside = None -> db w' = <[SYMBOL := price]> (db w)) /\
      (forall e, db_write_fault outside = Some e ->
                 db w' = db w /\
                 (Print (LogErrDbTP e) ∈ evs \/ Print (LogErrDbBuy e) ∈ evs)) /\
      (forall k, is_Some (db w !! k) -> is_Some (db w' !! k)) in
  (has_position default_config (lit 0.265) (lit 97.76) = true /\
   Py.ge (lit 97.76) (tp_level default_config (lit 94)) = true /\
   claim sells (stored 94) (lit 97.76) (lit 0.265)) /\
  (has_position default_config (lit 0) (lit 94) = false /\
   Py.le (lit 94) (dip_level default_config (lit 100)) = true /\
   claim buys (stored 100) (lit 94) (lit 0.265)).
Proof.
  cbv zeta. split; (split; [evaluate|]); (split; [evaluate|]).
  - eapply (C2_reference_follows_the_trade Decimal.parse default_config _
              _ (lit 97.76) (lit 0.265) (lit 100) (lit 94));
      [evaluate|evaluate|evaluate|evaluate| |evaluate].
    left. evaluate.
  - eapply (C2_reference_follows_the_trade Decimal.parse default_config _
              _ (lit 94) (lit 0) (lit 100) (lit 100));
      [evaluate|evaluate|evaluate|evaluate| |evaluate].
    right. split; [evaluate|]. split; [evaluate|]. split; [evaluate|].
    split; [|evaluate].
    exists (Py.div_lit (lit 25) (lit 94)), (lit 0.265). evaluate.
Defined.

(** C4, as stated, fails: no base price is stored, the write of the
    observed price fails, and the table holds no base price after the
    tick. *)
Lemma C4_failed_write_leaves_no_reference :
  let outside := Env (ticker "94.0") (account "0" "100") accepts None db_down in
  let w' := after outside empty in
  db empty !! SYMBOL = None /\
  upserts (trace w') = [(SYMBOL, lit 94)] /\
  db w' !! SYMBOL = None /\
  db w' !! SYMBOL <> Some (lit 94).
Proof.
  cbv zeta. do 3 (split; [evaluate|]). vm_compute. discriminate.
Qed.

Lemma C4_first_tick_calibrates_witness :
  let outside := Env (ticker "94.0") (account "0" "100") accepts None None in
  let w := empty in
  fetch Decimal.parse outside SYMBOL = Ok (lit 94, (lit 0, lit 100)) /\
  db w !! SYMBOL = None /\
  exists w' evs,
    tick Decimal.parse default_config outside w = (Ok tt, w') /\
    trace w' = trace w ++ evs /\
    orders evs = [] /\
    upserts evs = [(SYMBOL, lit 94)] /\
    telegrams evs = [MsgBaseInit (lit 94)] /\
    (db_write_fault outside = None ->
     db w' = <[SYMBOL := lit 94]> (db w) /\ db w' !! SYMBOL = Some (lit 94)) /\
    (forall e, db_write_fault outside = Some e ->
               db w' = db w /\ Print (LogErrDbInit e) ∈ evs).
Proof.
  cbv zeta. split; [evaluate|]. split; [evaluate|].
  eapply C4_first_tick_calibrates; evaluate.
Defined.

(** In position at base price 100, the price 94 is below the take-profit
    level 104 and also below the dip level 95: the tick waits. *)
Lemma C5_in_position_below_target_waits_witness :
  let outside := Env (ticker "94.0") (account "1" "100") accepts None None in
  let w := stored 100 in
  let pct := Py.mul (Py.div_lit (Py.sub (lit 94) (lit 100)) (lit 100)) f100 in
  let evs := [state_line (lit 94) (lit 1) (lit 100) (lit 100) pct; Sleep 30] in
  has_position default_config (lit 1) (lit 94) = true /\
  Py.lt (lit 94) (tp_level default_config (lit 100)) = true /\
  Py.le (lit 94) (dip_level default_config (lit 100)) = true /\
  tick Decimal.parse default_config outside w = (Ok tt, World (db w) (trace w ++ evs)) /\
  orders evs = [] /\ upserts evs = [] /\ telegrams evs = [].
Proof.
  cbv zeta. do 3 (split; [evaluate|]).
  eapply (C5_in_position_below_target_waits Decimal.parse default_config);
    evaluate.
Defined.

Lemma C6_dip_without_funds_only_notifies_witness :
  let outside := Env (ticker "94.0") (account "0" "10") accepts None None in
  let w := stored 100 in
  let pct := Py.mul (Py.div_lit (Py.sub (lit 94) (lit 100)) (lit 100)) f100 in
  let evs := [state_line (lit 94) (lit 0) (lit 10) (lit 100) pct;
              Print (LogWarnNoFunds (lit 10) (lit 25));
              Telegram (MsgNoFunds (lit 10) (lit 25));
              Sleep 30] in
  has_position default_config (lit 0) (lit 94) = false /\
  Py.le (lit 94) (dip_level default_config (lit 100)) = true /\
  Py.lt (lit 10) (ORDER_USDT default_config) = true /\
  tick Decimal.parse default_config outside w = (Ok tt, World (db w) (trace w ++ evs)) /\
  orders evs = [] /\ upserts evs = [] /\
  telegrams evs = [MsgNoFunds (lit 10) (lit 25)].
Proof.
  cbv zeta. do 3 (split; [evaluate|]).
  eapply (C6_dip_without_funds_only_notifies Decimal.parse default_config);
    evaluate.
Defined.

(** C7, as stated, fails: the gateway answers the sell order with a
    nonzero [retCode] and the tick sends no Telegram message, so the
    notifier is not told of the failure. *)
Lemma C7_refused_order_is_not_notified :
  let outside := Env (ticker "97.76") (account "0.265" "100") rejects None None in
  let w' := after outside (stored 94) in
  orders (trace w') = [(Sell, lit 0.265)] /\
  order_refused outside Sell (lit 0.265) /\
  prints (trace w') !! 2%nat = Some (LogErrSell (RuntimeError "order")) /\
  telegrams (trace w') = [] /\
  ~ (exists m, m ∈ telegrams (trace w')).
Proof.
  cbv zeta. split; [evaluate|]. split.
  { intros rc [= <-]. discriminate. }
  split; [evaluate|]. split; [evaluate|].
  intros [m Hm]. vm_compute in Hm. inversion Hm.
Qed.

Lemma C7_refused_order_is_only_logged_witness :
  let sells := Env (ticker "97.76") (account "0.265" "100") rejects None None in
  let buys := Env (ticker "94.0") (account "0" "100") rejects None None in
  let claim outside w s qty_adj line :=
    exists e,
      let evs := [line; Print (LogOrder s qty_adj); PlaceOrder s qty_adj;
                  Print (match s with Sell => LogErrSell e | Buy => LogErrBuy e end);
                  Sleep 30] in
      tick Decimal.parse default_config outside w
      = (Ok tt, World (db w) (trace w ++ evs)) /\
      orders evs = [(s, qty_adj)] /\ upserts evs = [] /\ telegrams evs = [] in
  (order_refused sells Sell (lit 0.265) /\
   claim sells (stored 94) Sell (lit 0.265)
     (state_line (lit 97.76) (lit 0.265) (lit 100) (lit 94)
        (Py.mul (Py.div_lit (Py.sub (lit 97.76) (lit 94)) (lit 94)) f100))) /\
  (order_refused buys Buy (lit 0.265) /\
   claim buys (stored 100) Buy (lit 0.265)
     (state_line (lit 94) (lit 0) (lit 100) (lit 100)
        (Py.mul (Py.div_lit (Py.sub (lit 94) (lit 100)) (lit 100)) f100))).
Proof.
  assert (Hrefused : forall outside s q,
             order outside = rejects -> order_refused outside s q).
  { intros outside s q Ho rc. rewrite Ho. intros [= <-]. discriminate. }
  cbv zeta. split; (split; [apply Hrefused; reflexivity|]).
  - eapply (C7_refused_order_is_only_logged Decimal.parse default_config);
      [evaluate|evaluate|evaluate|evaluate| |evaluate|apply Hrefused; reflexivity].
    left. evaluate.
  - eapply (C7_refused_order_is_only_logged Decimal.parse default_config);
      [evaluate|evaluate|evaluate|evaluate| |evaluate|apply Hrefused; reflexivity].
    right. do 4 (split; [evaluate|]).
    exists (Py.div_lit (lit 25) (lit 94)), (lit 0.265). evaluate.
Defined.

(** No order on either path.  A holding of 0.0005 SOL is worth more
    than the position threshold at 30000 but is less than one step.  At
    30000 the order size of 25 USDT buys less than one step: the estimate
    quantizes to zero at once.  With a step of 0.0000014 and a price of
    16000000 the estimate quantizes to 0.000001, above zero, and
    [place_market_order] quantizes that to zero. *)
Lemma C8_no_order_without_quantity_witness :
  let sells := Env (ticker "30000") (account "0.0005" "100") accepts None None in
  let buys := Env (ticker "30000") (account "0" "100") accepts None None in
  let rebuys := Env (ticker "16000000") (account "0" "100") accepts None None in
  let fine := with_step 0.0000014 in
  let refusal := RuntimeError "qty_adj <= 0" in
  let claim cfg outside w s requested line :=
    let evs := [line;
                Print (match s with
                       | Sell => LogErrSell refusal
                       | Buy => LogErrBuy refusal
                       end);
                Sleep 30] in
    tick Decimal.parse cfg outside w
    = (Ok tt, World (db w) (trace w ++ evs)) /\
    orders evs = [] /\ upserts evs = [] /\ telegrams evs = [] /\
    (forall w0, place_market_order cfg outside s requested w0
                = (Raise refusal, w0)) /\
    (Py.le requested f0 = true -> f0 = f0) in
  (quantize_qty default_config (lit 0.0005) = Ok f0 /\
   claim default_config sells (stored 20000) Sell (lit 0.0005)
     (state_line (lit 30000) (lit 0.0005) (lit 100) (lit 20000)
        (Py.mul (Py.div_lit (Py.sub (lit 30000) (lit 20000)) (lit 20000)) f100))) /\
  (quantize_qty default_config (Py.div_lit (lit 25) (lit 30000)) = Ok f0 /\
   claim default_config buys (stored 40000) Buy f0
     (state_line (lit 30000) (lit 0) (lit 100) (lit 40000)
        (Py.mul (Py.div_lit (Py.sub (lit 30000) (lit 40000)) (lit 40000)) f100))) /\
  (quantize_qty fine (Py.div_lit (lit 25) (lit 16000000)) = Ok (lit 0.000001) /\
   Py.le (lit 0.000001) f0 = false /\
   quantize_qty fine (lit 0.000001) = Ok f0 /\
   claim fine rebuys (stored 20000000) Buy (lit 0.000001)
     (state_line (lit 16000000) (lit 0) (lit 100) (lit 20000000)
        (Py.mul (Py.div_lit (Py.sub (lit 16000000) (lit 20000000))
                            (lit 20000000)) f100))).
Proof.
  cbv zeta. split; [|split].
  - split; [evaluate|].
    refine (C8_no_order_without_quantity Decimal.parse default_config
              _ (stored 20000) (lit 30000) (lit 0.0005) (lit 100) (lit 20000) _
              _ _ _ _ Sell (lit 0.0005) f0 _ _ _);
      [evaluate|evaluate|evaluate|evaluate| |evaluate|evaluate].
    left. evaluate.
  - split; [evaluate|].
    refine (C8_no_order_without_quantity Decimal.parse default_config
              _ (stored 40000) (lit 30000) (lit 0) (lit 100) (lit 40000) _
              _ _ _ _ Buy f0 f0 _ _ _);
      [evaluate|evaluate|evaluate|evaluate| |evaluate|evaluate].
    right. do 4 (split; [evaluate|]).
    exists (Py.div_lit (lit 25) (lit 30000)). evaluate.
  - do 3 (split; [evaluate|]).
    refine (C8_no_order_without_quantity Decimal.parse (with_step 0.0000014)
              _ (stored 20000000) (lit 16000000) (lit 0) (lit 100)
              (lit 20000000) _
              _ _ _ _ Buy (lit 0.000001) f0 _ _ _);
      [evaluate|evaluate|evaluate|evaluate| |evaluate|evaluate].
    right. do 4 (split; [evaluate|]).
    exists (Py.div_lit (lit 25) (lit 16000000)). evaluate.
Defined.

(** C3, as stated, fails.  With a step of 0.0000007 the quantity 0.0000007
    is one step, and its rounding to 6 decimals is 0.000001: above the
    input, and not a multiple of the step.  With the default step 0.001 the
    quantity 6419928954.768 comes out as 6419928954.768001. *)
Lemma C3_output_above_input :
  Py.lt f0 (QTY_STEP (with_step 7e-7)) = true /\
  quantize_qty (with_step 7e-7) (lit 7e-7) = Ok (lit 1e-6) /\
  Py.le (lit 1e-6) (lit 7e-7) = false /\
  Py.lt f0 (QTY_STEP default_config) = true /\
  quantize_qty default_config (lit 6419928954.768) = Ok (lit 6419928954.768001) /\
  Py.le (lit 6419928954.768001) (lit 6419928954.768) = false.
Proof. evaluate. Qed.

Lemma C3_quantize_qty_counts_whole_steps_witness :
  Py.is_positive_finite (QTY_STEP default_config) = true /\
  Py.lt (lit 0.0005) (QTY_STEP default_config) = true /\
  quantize_qty default_config (lit 0.0005) = Ok f0 /\
  (forall r, quantize_qty default_config (lit 1234.56789) = Ok r ->
             Py.le f0 r = true) /\
  quantize_qty default_config (lit 1234.56789) = Ok (lit 1234.567).
Proof.
  split; [reflexivity|]. split; [evaluate|].
  destruct (C3_quantize_qty_counts_whole_steps default_config (lit 0.0005) eq_refl)
    as (_ & _ & _ & Hbelow).
  destruct (C3_quantize_qty_counts_whole_steps default_config (lit 1234.56789) eq_refl)
    as (_ & _ & Hsign & _).
  split; [apply Hbelow; evaluate|]. split; [exact Hsign|evaluate].
Defined.


(** C10, as stated, fails: with holdings of 6419928954.768 SOL the
    take-profit submits 6419928954.768001, more than the holdings. *)
Lemma C10_sell_above_holdings :
  let outside :=
    Env (ticker "100") (account "6419928954.768" "0") accepts None None in
  let w' := after outside (stored 90) in
  fetch Decimal.parse outside SYMBOL
  = Ok (lit 100, (lit 6419928954.768, lit 0)) /\
  quantize_qty default_config (lit 6419928954.768) = Ok (lit 6419928954.768001) /\
  orders (trace w') = [(Sell, lit 6419928954.768001)] /\
  Py.le (lit 6419928954.768001) (lit 6419928954.768) = false.
Proof. cbv zeta. evaluate. Qed.

(** The order of a take-profit on 1.2345 SOL is for 1.234 SOL. *)
Lemma C10_orders_are_quantized_witness :
  let outside := Env (ticker "100") (account "1.2345" "0") accepts None None in
  let w := stored 90 in
  Py.is_finite (QTY_STEP default_config) = true /\
  orders (trace (after outside w)) = [(Sell, lit 1.234)] /\
  exists evs,
    trace (after outside w) = trace w ++ evs /\
    forall s q, PlaceOrder s q ∈ evs -> Py.le q f0 = false /\ Py.lt f0 q = true.
Proof.
  cbv zeta. split; [reflexivity|]. split; [evaluate|].
  destruct (C10_orders_are_quantized Decimal.parse default_config
              (Env (ticker "100") (account "1.2345" "0") accepts None None))
    as (_ & Htick & _).
  destruct (Htick (stored 90)) as (evs & Ht & Hall).
  exists evs. split; [exact Ht|]. intros s q Hin.
  destruct (Hall s q Hin) as (Hle & _ & Hpos). split; [exact Hle|].
  apply Hpos. reflexivity.
Defined.

End Examples.

(** ** The paths, the helpers and the loop on concrete runs *)

Section Runs.

Import Example.


(** An accepted dip buy at 94 under the base price 100: the sleep comes
    last, after the order, the write and the message. *)
Lemma tick_sleeps_once_at_the_end_witness :
  let outside := Env (ticker "94.0") (account "0" "100") accepts None None in
  let w := stored 100 in
  let w' := after outside w in
  tick Decimal.parse default_config outside w = (Ok tt, w') /\
  orders (trace w') = [(Buy, lit 0.265)] /\
  exists evs,
    trace w' = trace w ++ evs ++ [Sleep (POLL_INTERVAL_SECONDS default_config)] /\
    sleeps evs = [].
Proof.
  cbv zeta. split; [evaluate|]. split; [evaluate|].
  apply (tick_sleeps_once_at_the_end Decimal.parse default_config
           (Env (ticker "94.0") (account "0" "100") accepts None None)
           (stored 100)).
  evaluate.
Defined.

(** A NaN is stored as the base price: at the price 94, with 1 SOL held,
    the tick waits. *)
Lemma tick_nan_only_waits_witness :
  let outside := Env (ticker "94.0") (account "1" "100") accepts None None in
  let w := World {[ SYMBOL := S754_nan ]} [] in
  fetch Decimal.parse outside SYMBOL = Ok (lit 94, (lit 1, lit 100)) /\
  change_pct (lit 94) S754_nan = Ok S754_nan /\
  tick Decimal.parse default_config outside w =
  (Ok tt,
   World (db w)
     (trace w ++ [state_line (lit 94) (lit 1) (lit 100) S754_nan S754_nan;
                  Sleep (POLL_INTERVAL_SECONDS default_config)])).
Proof.
  cbv zeta. split; [evaluate|].
  apply (tick_nan_only_waits Decimal.parse default_config
           (Env (ticker "94.0") (account "1" "100") accepts None None)
           (World {[ SYMBOL := S754_nan ]} []) (lit 94) (lit 1) (lit 100)
           S754_nan);
    [evaluate|evaluate|evaluate|evaluate|].
  right. reflexivity.
Defined.

(** No position, base price 100, price 97: above the dip level 95. *)
Lemma tick_flat_above_dip_waits_witness :
  let outside := Env (ticker "97.0") (account "0" "100") accepts None None in
  let w := stored 100 in
  let pct := Py.mul (Py.div_lit (Py.sub (lit 97) (lit 100)) (lit 100)) f100 in
  let evs := [state_line (lit 97) (lit 0) (lit 100) (lit 100) pct;
              Sleep (POLL_INTERVAL_SECONDS default_config)] in
  Py.le (lit 97) (dip_level default_config (lit 100)) = false /\
  tick Decimal.parse default_config outside w
    = (Ok tt, World (db w) (trace w ++ evs)) /\
  orders evs = [] /\ upserts evs = [] /\ telegrams evs = [].
Proof.
  cbv zeta. split; [evaluate|].
  apply (tick_flat_above_dip_waits Decimal.parse default_config
           (Env (ticker "97.0") (account "0" "100") accepts None None)
           (stored 100) (lit 97) (lit 0) (lit 100) (lit 100));
    evaluate.
Defined.

(** The exchange quotes 0 under the base price 100, with 100 USDT free. *)
Lemma tick_zero_price_on_dip_raises_witness :
  let outside := Env (ticker "0") (account "0" "100") accepts None None in
  let w := stored 100 in
  let pct := Py.mul (Py.div_lit (Py.sub (lit 0) (lit 100)) (lit 100)) f100 in
  fetch Decimal.parse outside SYMBOL = Ok (lit 0, (lit 0, lit 100)) /\
  tick Decimal.parse default_config outside w =
  (Raise ZeroDivisionError,
   World (db w)
         (trace w ++ [state_line (lit 0) (lit 0) (lit 100) (lit 100) pct])).
Proof.
  cbv zeta. split; [evaluate|].
  apply (tick_zero_price_on_dip_raises Decimal.parse default_config
           (Env (ticker "0") (account "0" "100") accepts None None)
           (stored 100) (lit 0) (lit 0) (lit 100) (lit 100));
    evaluate.
Defined.

(** [safe_float(2 ** 1024)] raises. *)
Lemma safe_float_raises_only_on_int_witness :
  safe_float Decimal.parse (VInt (2 ^ 1024)) = Raise OverflowError /\
  OverflowError = OverflowError /\
  exists n, VInt (2 ^ 1024) = VInt n /\
            Py.float_of_int n = Raise OverflowError.
Proof.
  split; [evaluate|].
  apply (safe_float_raises_only_on_int Decimal.parse (VInt (2 ^ 1024))
           OverflowError).
  evaluate.
Defined.


(** The price query times out: with the default interval the tick goes
    on; with an interval of -1 second [time.sleep] raises. *)
Lemma tick_survives_fetch_failure_witness :
  let outside :=
    Env (Raise (ExternalError "timeout")) (account "1" "100") accepts None None in
  let w := stored 100 in
  let logged := [Print (LogErrFetch (ExternalError "timeout"))] in
  (tick Decimal.parse default_config outside w
     = (Ok tt, World (db w) (trace w ++ logged ++ [Sleep 30])) /\
   orders logged = [] /\ upserts logged = [] /\ telegrams logged = []) /\
  (tick Decimal.parse (with_interval default_config (-1)) outside w
     = (Raise ValueError, World (db w) (trace w ++ logged)) /\
   orders logged = [] /\ upserts logged = [] /\ telegrams logged = []).
Proof.
  cbv zeta. split.
  - exact (tick_survives_fetch_failure Decimal.parse default_config
             (Env (Raise (ExternalError "timeout")) (account "1" "100")
                  accepts None None)
             (stored 100) (ExternalError "timeout") (or_introl eq_refl)).
  - exact (tick_survives_fetch_failure Decimal.parse
             (with_interval default_config (-1))
             (Env (Raise (ExternalError "timeout")) (account "1" "100")
                  accepts None None)
             (stored 100) (ExternalError "timeout") (or_introl eq_refl)).
Defined.

(** The default step 0.001. *)
Lemma quantize_qty_exceptions_witness :
  Py.is_positive_finite (QTY_STEP default_config) = true /\
  quantize_qty default_config S754_nan = Raise ValueError /\
  quantize_qty default_config (S754_infinity false) = Raise OverflowError /\
  forall qty e,
    quantize_qty default_config qty = Raise e ->
    (qty = S754_nan /\ e = ValueError) \/
    (qty <> S754_nan /\ Py.le qty f0 = false /\ e = OverflowError).
Proof.
  split; [evaluate|].
  apply (quantize_qty_exceptions default_config). evaluate.
Defined.

(** Two iterations from the base price 100: a wait at 97 and a dip buy at
    94. *)
Lemma main_loop_calibrates_once_witness :
  let answers :=
    [ Env (ticker "97.0") (account "0" "100") accepts None None;
      Env (ticker "94.0") (account "0" "100") accepts None None ] in
  let w := stored 100 in
  let w' := (main_loop Decimal.parse default_config answers w).2 in
  telegrams (trace w')
    = [MsgDipBuy (lit 0.265) (lit 94) (lit 100)
         (Py.mul (Py.div_lit (Py.sub (lit 94) (lit 100)) (lit 100)) f100)
         (lit 94)] /\
  exists evs,
    trace w' = trace w ++ evs /\
    Forall (fun ev => is_calibration ev = false) evs /\
    is_Some (db w' !! SYMBOL).
Proof.
  cbv zeta. split; [evaluate|].
  apply (main_loop_calibrates_once Decimal.parse default_config
           [ Env (ticker "97.0") (account "0" "100") accepts None None;
             Env (ticker "94.0") (account "0" "100") accepts None None ]
           (stored 100)).
  - repeat constructor.
  - exists (lit 100). evaluate.
Defined.

(** A NaN base price: a take-profit quote and a dip quote are both left
    alone. *)
Lemma main_loop_nan_reference_freezes_witness :
  let answers :=
    [ Env (ticker "200") (account "1" "100") accepts None None;
      Env (ticker "1") (account "0" "100") accepts None None ] in
  let w := World {[ SYMBOL := S754_nan ]} [] in
  exists evs,
    main_loop Decimal.parse default_config answers w
      = (Ok tt, World (db w) (trace w ++ evs)) /\
    orders evs = [] /\ upserts evs = [] /\ telegrams evs = [] /\
    sleeps evs = replicate (length answers) (POLL_INTERVAL_SECONDS default_config).
Proof.
  cbv zeta.
  apply (main_loop_nan_reference_freezes Decimal.parse default_config
           [ Env (ticker "200") (account "1" "100") accepts None None;
             Env (ticker "1") (account "0" "100") accepts None None ]
           (World {[ SYMBOL := S754_nan ]} [])).
  - repeat constructor.
  - evaluate.
Defined.

(** The first quote decodes to a NaN; the next quote, 94, is not acted
    on. *)
Lemma main_loop_nan_price_freezes_witness :
  let nan_quote :=
    Ok (TickersResp 0 [ {[ "lastPrice" := VFloat S754_nan ]} ]) in
  let outside := Env nan_quote (account "0" "100") accepts None None in
  let rest := [ Env (ticker "94.0") (account "0" "100") accepts None None ] in
  let w := empty in
  exists evs,
    main_loop Decimal.parse default_config (outside :: rest) w =
      (Ok tt, World (<[SYMBOL := S754_nan]> (db w)) (trace w ++ evs)) /\
    orders evs = [] /\
    upserts evs = [(SYMBOL, S754_nan)] /\
    telegrams evs = [MsgBaseInit S754_nan].
Proof.
  cbv zeta.
  apply (main_loop_nan_price_freezes Decimal.parse default_config
           (Env (Ok (TickersResp 0 [ {[ "lastPrice" := VFloat S754_nan ]} ]))
                (account "0" "100") accepts None None)
           [ Env (ticker "94.0") (account "0" "100") accepts None None ]
           empty (lit 0, lit 100)).
  - evaluate.
  - evaluate.
  - evaluate.
  - evaluate.
  - repeat constructor.
Defined.

(** The first quote is 0, the second 94: the loop stops in its second
    iteration and the third never runs. *)
Lemma main_loop_zero_price_crashes_witness :
  let first := Env (ticker "0") (account "0" "100") accepts None None in
  let second := Env (ticker "94.0") (account "0" "100") accepts None None in
  let w := empty in
  main_loop Decimal.parse default_config [first; second; second] w =
    (Raise ZeroDivisionError,
     World (<[SYMBOL := lit 0]> (db w))
           (trace w ++ [Print (LogInit (lit 0)); DbUpsert SYMBOL (lit 0);
                        Telegram (MsgBaseInit (lit 0));
                        Sleep (POLL_INTERVAL_SECONDS default_config)])).
Proof.
  cbv zeta.
  apply (main_loop_zero_price_crashes Decimal.parse default_config
           (Env (ticker "0") (account "0" "100") accepts None None)
           (Env (ticker "94.0") (account "0" "100") accepts None None)
           [ Env (ticker "94.0") (account "0" "100") accepts None None ]
           empty (lit 0) (lit 0, lit 100) (lit 94, (lit 0, lit 100)));
    evaluate.
Defined.

(** A dip buy at 94 under the base price 100, then a quote of 97.76: the
    second state line compares 97.76 with 94. *)
Lemma main_loop_reference_carries_over_witness :
  let first := Env (ticker "94.0") (account "0" "100") accepts None None in
  let second := Env (ticker "97.76") (account "0.265" "75") accepts None None in
  let w := stored 100 in
  let evs := trace (after first w) in
  let pct := Py.mul (Py.div_lit (Py.sub (lit 97.76) (lit 94)) (lit 94)) f100 in
  upserts evs = [(SYMBOL, lit 94)] /\
  db (after first w) !! SYMBOL = Some (lit 94) /\
  exists evs2,
    trace (main_loop Decimal.parse default_config [first; second] w).2 =
    trace w ++ evs
      ++ state_line (lit 97.76) (lit 0.265) (lit 75) (lit 94) pct :: evs2.
Proof.
  cbv zeta. split; [evaluate|].
  apply (main_loop_reference_carries_over Decimal.parse default_config
           (Env (ticker "94.0") (account "0" "100") accepts None None)
           (Env (ticker "97.76") (account "0.265" "75") accepts None None)
           (stored 100)
           (trace (after (Env (ticker "94.0") (account "0" "100") accepts
                              None None)
                         (stored 100)))
           (lit 94) (lit 97.76) (lit 0.265) (lit 75));
    evaluate.
Defined.

End Runs.
